(** * proplot.axes.base: titles, panels, axis sharing and the guide queue

    A shallow embedding of the bookkeeping of [proplot/axes/base.py]: the
    per-axes dictionary of title text objects, the panel stacks, the
    computation of axis-sharing groups, the a-b-c labels and the registry of
    queued and drawn legends and colorbars.

    Python objects are mutable and shared by reference.  Every axes object
    lives in a store indexed by its identity; a method of the class [Axes]
    becomes a computation in a state-and-exception monad over that store,
    taking the identity of [self] as its first argument. *)

From Stdlib Require Import QArith Ascii String.
From stdpp Require Import gmap strings list functions.

Local Close Scope Q_scope.
Local Open Scope string_scope.

(** ** Python values *)

(** The values stored in keyword dictionaries and text properties.  Numbers
    are only ever copied or divided by ten, so rationals stand for them. *)
Inductive pyval :=
  | VNone
  | VBool (b : bool)
  | VNum (q : Q)
  | VStr (s : string)
  | VDict (d : list (string * string)).

(** Python truthiness, as used by [if border:] and [elif bbox:]. *)
Definition truthy (v : pyval) : bool :=
  match v with
  | VNone => false
  | VBool b => b
  | VNum q => negb (Qeq_bool q 0%Q)
  | VStr s => negb (String.eqb s "")
  | VDict d => negb (bool_decide (d = []))
  end.

Definition is_False (v : pyval) : bool :=
  match v with VBool false => true | _ => false end.

Definition is_dict (v : pyval) : bool :=
  match v with VDict _ => true | _ => false end.

(** [_not_none(a, b)]: the first argument that is not [None]. *)
Definition _not_none (a b : pyval) : pyval :=
  match a with VNone => b | _ => a end.

(** Keyword dictionaries.  [d.update(e)] lets the keys of [e] win. *)
Abbreviation kwargs := (gmap string pyval).

Definition dict_update (d e : kwargs) : kwargs := e ∪ d.

(** [d.pop(key, dflt)] *)
Definition dict_pop (key : string) (dflt : pyval) (d : kwargs)
  : pyval * kwargs :=
  (default dflt (d !! key), delete key d).

(** ** Exceptions and the store monad *)

(** The Python exceptions the modelled methods raise.  [Stuck] is not a
    Python exception: it marks a state outside the model (an identity that
    names no object of the store, or a value whose printed form is not
    modelled), so that a result [Ok] is always a result of the code. *)
Inductive error :=
  | RuntimeError
  | ValueError
  | TypeError
  | KeyError
  | AttributeError
  | RecursionError
  | Stuck.

Inductive result (A : Type) :=
  | Ok (a : A)
  | Raise (e : error).
Arguments Ok {A} a.
Arguments Raise {A} e.

Definition is_ok {A} (r : result A) : bool :=
  match r with Ok _ => true | Raise _ => false end.

(** ** Text objects *)

(** The ten entries of [Axes._title_dict], created in [__init__]. *)
Inductive slot :=
  | abc_title
  | left_title
  | center_title
  | right_title
  | upper_left
  | upper_center
  | upper_right
  | lower_left
  | lower_center
  | lower_right.

Global Instance slot_eq_dec : EqDecision slot.
Proof. solve_decision. Defined.

Definition slot_name (s : slot) : string :=
  match s with
  | abc_title => "abc"
  | left_title => "left"
  | center_title => "center"
  | right_title => "right"
  | upper_left => "upper left"
  | upper_center => "upper center"
  | upper_right => "upper right"
  | lower_left => "lower left"
  | lower_center => "lower center"
  | lower_right => "lower right"
  end.

Definition all_slots : list slot :=
  [abc_title; left_title; center_title; right_title; upper_left; upper_center;
   upper_right; lower_left; lower_center; lower_right].

(** [loc in ('left', 'right', 'center')] *)
Definition is_outer (s : slot) : bool :=
  match s with
  | left_title | center_title | right_title => true
  | _ => false
  end.

(** The font properties a title update touches. *)
Record font_props := FontProps {
  fp_family : pyval;
  fp_size : pyval;
  fp_weight : pyval;
}.

(** A [matplotlib.text.Text].  [t_patched] tells whether the object was
    created with [Axes.text], which replaces its [update] method by
    [_update_text]; the titles 'left', 'center' and 'right' are matplotlib's
    own and are not. *)
Record text_obj := TextObj {
  t_text : string;
  t_color : pyval;
  t_font : font_props;
  t_path_effects : option (pyval * pyval);   (* stroke linewidth, foreground *)
  t_bbox : option (list (string * pyval));
  t_props : kwargs;                           (* every other property *)
  t_patched : bool;
}.

Definition set_text (s : string) (t : text_obj) : text_obj :=
  TextObj s (t_color t) (t_font t) (t_path_effects t) (t_bbox t) (t_props t)
    (t_patched t).
Definition set_color (c : pyval) (t : text_obj) : text_obj :=
  TextObj (t_text t) c (t_font t) (t_path_effects t) (t_bbox t) (t_props t)
    (t_patched t).
Definition set_fontproperties (f : font_props) (t : text_obj) : text_obj :=
  TextObj (t_text t) (t_color t) f (t_path_effects t) (t_bbox t) (t_props t)
    (t_patched t).
Definition set_path_effects (p : option (pyval * pyval)) (t : text_obj)
  : text_obj :=
  TextObj (t_text t) (t_color t) (t_font t) p (t_bbox t) (t_props t)
    (t_patched t).
Definition set_bbox (b : option (list (string * pyval))) (t : text_obj)
  : text_obj :=
  TextObj (t_text t) (t_color t) (t_font t) (t_path_effects t) b (t_props t)
    (t_patched t).
Definition set_props (p : kwargs) (t : text_obj) : text_obj :=
  TextObj (t_text t) (t_color t) (t_font t) (t_path_effects t) (t_bbox t) p
    (t_patched t).

(** Python's [str.isspace] on the code points below 256. *)
Definition is_space (a : ascii) : bool :=
  let n := nat_of_ascii a in
  ((9 <=? n)%nat && (n <=? 13)%nat) || ((28 <=? n)%nat && (n <=? 32)%nat)
  || (n =? 133)%nat || (n =? 160)%nat.

(** [not text.strip()]: the text has no character that is not white space. *)
Fixpoint blank (s : string) : bool :=
  match s with
  | EmptyString => true
  | String a s' => is_space a && blank s'
  end.

(** The printed form [str(v)] that [Text.set_text] stores, where modelled. *)
Definition text_of_pyval (v : pyval) : option string :=
  match v with
  | VStr s => Some s
  | VNone => Some ""
  | VBool true => Some "True"
  | VBool false => Some "False"
  | VNum _ | VDict _ => None
  end.

(** matplotlib's [Text.update(props)]: each key is handed to the setter of
    that name.  The text, the colour and the three font properties are
    tracked in their own fields; any other key is kept in [t_props]. *)
Definition core_keys : list string :=
  ["text"; "color"; "size"; "weight"; "family"].

Definition Text_update (props : kwargs) (t : text_obj) : result text_obj :=
  let upd_font f :=
    FontProps (default (fp_family f) (props !! "family"))
              (default (fp_size f) (props !! "size"))
              (default (fp_weight f) (props !! "weight")) in
  let rest := filter (λ kv, kv.1 ∉ core_keys) props in
  let t1 := set_props (dict_update (t_props t) rest)
              (set_fontproperties (upd_font (t_font t))
                 (set_color (default (t_color t) (props !! "color")) t)) in
  match props !! "text" with
  | None => Ok t1
  | Some v =>
      match text_of_pyval v with
      | Some s => Ok (set_text s t1)
      | None => Raise Stuck
      end
  end.

(** [Axes._update_text(text, props)], the replacement for [Text.update] on
    patched objects.  [pad] is [text.axes._title_pad]. *)
Definition _update_text (pad : Q) (props : kwargs) (t : text_obj)
  : result text_obj :=
  (* Update border *)
  let '(border, props) := dict_pop "border" VNone props in
  let '(bordercolor, props) := dict_pop "bordercolor" (VStr "w") props in
  let '(borderinvert, props) := dict_pop "borderinvert" (VBool false) props in
  let '(borderwidth, props) := dict_pop "borderwidth" (VNum 2%Q) props in
  let t :=
    if truthy border then
      let '(facecolor, bgcolor) :=
        if truthy borderinvert then (bordercolor, t_color t)
        else (t_color t, bordercolor) in
      set_path_effects (Some (borderwidth, bgcolor)) (set_color facecolor t)
    else if is_False border then set_path_effects None t
    else t in
  (* Update bounding box *)
  let pad := VNum (pad / 10)%Q in
  let '(bbox, props) := dict_pop "bbox" VNone props in
  let '(bboxcolor, props) := dict_pop "bboxcolor" (VStr "w") props in
  let '(bboxstyle, props) := dict_pop "bboxstyle" (VStr "round") props in
  let '(bboxalpha, props) := dict_pop "bboxalpha" (VNum (1 # 2)%Q) props in
  let '(bboxpad, props) := dict_pop "bboxpad" VNone props in
  let bboxpad := _not_none bboxpad pad in
  let '(t, props) :=
    if is_dict bbox then (t, <["bbox" := bbox]> props)
    else if truthy bbox then
      (set_bbox (Some [("edgecolor", VStr "black"); ("facecolor", bboxcolor);
                       ("boxstyle", bboxstyle); ("alpha", bboxalpha);
                       ("pad", bboxpad)]) t, props)
    else if is_False bbox then (set_bbox None t, props)
    else (t, props) in
  Text_update props t.

(** [obj.update(kw)] on an entry of the title dictionary. *)
Definition text_update (pad : Q) (kw : kwargs) (t : text_obj)
  : result text_obj :=
  if t_patched t then _update_text pad kw t else Text_update kw t.

(** ** Guides: queued and drawn legends and colorbars *)

(** A drawn legend or colorbar.  Its identity is what the registry compares
    and removes; the other fields record the arguments of the drawing call
    that produced it. *)
Record artist := Artist {
  art_id : nat;
  art_guide : string;
  art_handles : list nat;
  art_labels : option (list string);
  art_loc : string;
  art_kwargs : kwargs;
}.

(** A value of [_legend_dict] or [_colorbar_dict]: the queued 3-tuple
    [(handles, labels, kwargs)], a drawn object, or the tuple of [Legend]
    objects that a legend with centred rows is made of. *)
Inductive entry :=
  | Queued (handles : list nat) (labels : list string) (kw : kwargs)
  | Drawn (o : artist)
  | DrawnRows (os : list artist).

(** An argument that may be [None], one object, or a list. *)
Inductive guide_arg (A : Type) :=
  | ArgNone
  | ArgOne (a : A)
  | ArgList (l : list A).
Arguments ArgNone {A}.
Arguments ArgOne {A} a.
Arguments ArgList {A} l.

(** The argument [obj] of [_add_guide]: the pair [(handles, labels)] of a
    queued request, a drawn object, or a tuple of drawn [Legend] objects. *)
Inductive payload :=
  | Pair (handles : guide_arg nat) (labels : guide_arg string)
  | Obj (o : artist)
  | Objs (os : list artist).

(** Python dictionaries remember insertion order: a list of pairs whose
    keys are distinct. *)
Definition pydict (V : Type) := list (string * V).

Fixpoint pydict_get {V} (k : string) (d : pydict V) : option V :=
  match d with
  | [] => None
  | (k', v) :: d' => if decide (k' = k) then Some v else pydict_get k d'
  end.

(** [d[k] = v]: in place when the key is present, at the end otherwise. *)
Fixpoint pydict_set {V} (k : string) (v : V) (d : pydict V) : pydict V :=
  match d with
  | [] => [(k, v)]
  | (k', v') :: d' =>
      if decide (k' = k) then (k, v) :: d' else (k', v') :: pydict_set k v d'
  end.

(** [d.pop(k)] without its result *)
Fixpoint pydict_del {V} (k : string) (d : pydict V) : pydict V :=
  match d with
  | [] => []
  | (k', v') :: d' =>
      if decide (k' = k) then d' else (k', v') :: pydict_del k d'
  end.

(** ** Axes *)

Inductive side := SLeft | SRight | SBottom | STop.

Global Instance side_eq_dec : EqDecision side.
Proof. solve_decision. Defined.

Definition side_name (s : side) : string :=
  match s with
  | SLeft => "left"
  | SRight => "right"
  | SBottom => "bottom"
  | STop => "top"
  end.

Definition side_of_name (s : string) : option side :=
  if decide (s = "left") then Some SLeft
  else if decide (s = "right") then Some SRight
  else if decide (s = "bottom") then Some SBottom
  else if decide (s = "top") then Some STop
  else None.

Inductive axis := X | Y.

Global Instance axis_eq_dec : EqDecision axis.
Proof. solve_decision. Defined.

(** The attributes of an [Axes] that the modelled methods read or write.
    Other axes are referred to by their identity in the store. *)
Record axes := Axes {
  visible : bool;   (* get_visible() *)
  subplotspec : option (Z * Z * Z * Z);   (* (row1, row2, col1, col2); None: not a SubplotBase *)
  number : option Z;   (* None, or an integer greater than zero *)
  _panel_side : option side;
  _panel_hidden : bool;
  _panel_parent : option nat;
  _panel_dict : side → list nat;   (* inside-to-outside *)
  child_axes : list nat;
  _title_dict : slot → text_obj;
  _abc_loc : option slot;
  _title_loc : option slot;
  _title_above : pyval;
  _title_pad : Q;
  _abc_title_pad : Q;
  _abc_border_kwargs : kwargs;
  _title_border_kwargs : kwargs;
  _legend_dict : pydict entry;
  _colorbar_dict : pydict entry;
  legend_ : option nat;   (* identity of the legend attached as Axes.legend_ *)
  spines : list (string * bool);   (* visibility of each spine *)
  xaxis_visible : bool;
  yaxis_visible : bool;
  patch_alpha : pyval;
  patch_facecolor : pyval;
}.

Definition set_panel_hidden (v : bool) (a : axes) : axes :=
  Axes (visible a) (subplotspec a) (number a) (_panel_side a) v
    (_panel_parent a) (_panel_dict a) (child_axes a) (_title_dict a)
    (_abc_loc a) (_title_loc a) (_title_above a) (_title_pad a)
    (_abc_title_pad a) (_abc_border_kwargs a) (_title_border_kwargs a)
    (_legend_dict a) (_colorbar_dict a) (legend_ a) (spines a)
    (xaxis_visible a) (yaxis_visible a) (patch_alpha a) (patch_facecolor a).
Definition set_panel_dict (v : side → list nat) (a : axes) : axes :=
  Axes (visible a) (subplotspec a) (number a) (_panel_side a)
    (_panel_hidden a) (_panel_parent a) v (child_axes a) (_title_dict a)
    (_abc_loc a) (_title_loc a) (_title_above a) (_title_pad a)
    (_abc_title_pad a) (_abc_border_kwargs a) (_title_border_kwargs a)
    (_legend_dict a) (_colorbar_dict a) (legend_ a) (spines a)
    (xaxis_visible a) (yaxis_visible a) (patch_alpha a) (patch_facecolor a).
Definition set_title_dict (v : slot → text_obj) (a : axes) : axes :=
  Axes (visible a) (subplotspec a) (number a) (_panel_side a)
    (_panel_hidden a) (_panel_parent a) (_panel_dict a) (child_axes a) v
    (_abc_loc a) (_title_loc a) (_title_above a) (_title_pad a)
    (_abc_title_pad a) (_abc_border_kwargs a) (_title_border_kwargs a)
    (_legend_dict a) (_colorbar_dict a) (legend_ a) (spines a)
    (xaxis_visible a) (yaxis_visible a) (patch_alpha a) (patch_facecolor a).
Definition set_abc_loc (v : option slot) (a : axes) : axes :=
  Axes (visible a) (subplotspec a) (number a) (_panel_side a)
    (_panel_hidden a) (_panel_parent a) (_panel_dict a) (child_axes a)
    (_title_dict a) v (_title_loc a) (_title_above a) (_title_pad a)
    (_abc_title_pad a) (_abc_border_kwargs a) (_title_border_kwargs a)
    (_legend_dict a) (_colorbar_dict a) (legend_ a) (spines a)
    (xaxis_visible a) (yaxis_visible a) (patch_alpha a) (patch_facecolor a).
Definition set_title_loc (v : option slot) (a : axes) : axes :=
  Axes (visible a) (subplotspec a) (number a) (_panel_side a)
    (_panel_hidden a) (_panel_parent a) (_panel_dict a) (child_axes a)
    (_title_dict a) (_abc_loc a) v (_title_above a) (_title_pad a)
    (_abc_title_pad a) (_abc_border_kwargs a) (_title_border_kwargs a)
    (_legend_dict a) (_colorbar_dict a) (legend_ a) (spines a)
    (xaxis_visible a) (yaxis_visible a) (patch_alpha a) (patch_facecolor a).
Definition set_title_above (v : pyval) (a : axes) : axes :=
  Axes (visible a) (subplotspec a) (number a) (_panel_side a)
    (_panel_hidden a) (_panel_parent a) (_panel_dict a) (child_axes a)
    (_title_dict a) (_abc_loc a) (_title_loc a) v (_title_pad a)
    (_abc_title_pad a) (_abc_border_kwargs a) (_title_border_kwargs a)
    (_legend_dict a) (_colorbar_dict a) (legend_ a) (spines a)
    (xaxis_visible a) (yaxis_visible a) (patch_alpha a) (patch_facecolor a).
Definition set_title_pad (v : Q) (a : axes) : axes :=
  Axes (visible a) (subplotspec a) (number a) (_panel_side a)
    (_panel_hidden a) (_panel_parent a) (_panel_dict a) (child_axes a)
    (_title_dict a) (_abc_loc a) (_title_loc a) (_title_above a) v
    (_abc_title_pad a) (_abc_border_kwargs a) (_title_border_kwargs a)
    (_legend_dict a) (_colorbar_dict a) (legend_ a) (spines a)
    (xaxis_visible a) (yaxis_visible a) (patch_alpha a) (patch_facecolor a).
Definition set_abc_title_pad (v : Q) (a : axes) : axes :=
  Axes (visible a) (subplotspec a) (number a) (_panel_side a)
    (_panel_hidden a) (_panel_parent a) (_panel_dict a) (child_axes a)
    (_title_dict a) (_abc_loc a) (_title_loc a) (_title_above a)
    (_title_pad a) v (_abc_border_kwargs a) (_title_border_kwargs a)
    (_legend_dict a) (_colorbar_dict a) (legend_ a) (spines a)
    (xaxis_visible a) (yaxis_visible a) (patch_alpha a) (patch_facecolor a).
Definition set_abc_border_kwargs (v : kwargs) (a : axes) : axes :=
  Axes (visible a) (subplotspec a) (number a) (_panel_side a)
    (_panel_hidden a) (_panel_parent a) (_panel_dict a) (child_axes a)
    (_title_dict a) (_abc_loc a) (_title_loc a) (_title_above a)
    (_title_pad a) (_abc_title_pad a) v (_title_border_kwargs a)
    (_legend_dict a) (_colorbar_dict a) (legend_ a) (spines a)
    (xaxis_visible a) (yaxis_visible a) (patch_alpha a) (patch_facecolor a).
Definition set_title_border_kwargs (v : kwargs) (a : axes) : axes :=
  Axes (visible a) (subplotspec a) (number a) (_panel_side a)
    (_panel_hidden a) (_panel_parent a) (_panel_dict a) (child_axes a)
    (_title_dict a) (_abc_loc a) (_title_loc a) (_title_above a)
    (_title_pad a) (_abc_title_pad a) (_abc_border_kwargs a) v
    (_legend_dict a) (_colorbar_dict a) (legend_ a) (spines a)
    (xaxis_visible a) (yaxis_visible a) (patch_alpha a) (patch_facecolor a).
Definition set_legend_dict (v : pydict entry) (a : axes) : axes :=
  Axes (visible a) (subplotspec a) (number a) (_panel_side a)
    (_panel_hidden a) (_panel_parent a) (_panel_dict a) (child_axes a)
    (_title_dict a) (_abc_loc a) (_title_loc a) (_title_above a)
    (_title_pad a) (_abc_title_pad a) (_abc_border_kwargs a)
    (_title_border_kwargs a) v (_colorbar_dict a) (legend_ a) (spines a)
    (xaxis_visible a) (yaxis_visible a) (patch_alpha a) (patch_facecolor a).
Definition set_colorbar_dict (v : pydict entry) (a : axes) : axes :=
  Axes (visible a) (subplotspec a) (number a) (_panel_side a)
    (_panel_hidden a) (_panel_parent a) (_panel_dict a) (child_axes a)
    (_title_dict a) (_abc_loc a) (_title_loc a) (_title_above a)
    (_title_pad a) (_abc_title_pad a) (_abc_border_kwargs a)
    (_title_border_kwargs a) (_legend_dict a) v (legend_ a) (spines a)
    (xaxis_visible a) (yaxis_visible a) (patch_alpha a) (patch_facecolor a).
Definition set_legend_ (v : option nat) (a : axes) : axes :=
  Axes (visible a) (subplotspec a) (number a) (_panel_side a)
    (_panel_hidden a) (_panel_parent a) (_panel_dict a) (child_axes a)
    (_title_dict a) (_abc_loc a) (_title_loc a) (_title_above a)
    (_title_pad a) (_abc_title_pad a) (_abc_border_kwargs a)
    (_title_border_kwargs a) (_legend_dict a) (_colorbar_dict a) v (spines a)
    (xaxis_visible a) (yaxis_visible a) (patch_alpha a) (patch_facecolor a).
Definition set_spines (v : list (string * bool)) (a : axes) : axes :=
  Axes (visible a) (subplotspec a) (number a) (_panel_side a)
    (_panel_hidden a) (_panel_parent a) (_panel_dict a) (child_axes a)
    (_title_dict a) (_abc_loc a) (_title_loc a) (_title_above a)
    (_title_pad a) (_abc_title_pad a) (_abc_border_kwargs a)
    (_title_border_kwargs a) (_legend_dict a) (_colorbar_dict a) (legend_ a)
    v (xaxis_visible a) (yaxis_visible a) (patch_alpha a) (patch_facecolor a).
Definition set_xaxis_visible (v : bool) (a : axes) : axes :=
  Axes (visible a) (subplotspec a) (number a) (_panel_side a)
    (_panel_hidden a) (_panel_parent a) (_panel_dict a) (child_axes a)
    (_title_dict a) (_abc_loc a) (_title_loc a) (_title_above a)
    (_title_pad a) (_abc_title_pad a) (_abc_border_kwargs a)
    (_title_border_kwargs a) (_legend_dict a) (_colorbar_dict a) (legend_ a)
    (spines a) v (yaxis_visible a) (patch_alpha a) (patch_facecolor a).
Definition set_yaxis_visible (v : bool) (a : axes) : axes :=
  Axes (visible a) (subplotspec a) (number a) (_panel_side a)
    (_panel_hidden a) (_panel_parent a) (_panel_dict a) (child_axes a)
    (_title_dict a) (_abc_loc a) (_title_loc a) (_title_above a)
    (_title_pad a) (_abc_title_pad a) (_abc_border_kwargs a)
    (_title_border_kwargs a) (_legend_dict a) (_colorbar_dict a) (legend_ a)
    (spines a) (xaxis_visible a) v (patch_alpha a) (patch_facecolor a).
Definition set_patch_alpha (v : pyval) (a : axes) : axes :=
  Axes (visible a) (subplotspec a) (number a) (_panel_side a)
    (_panel_hidden a) (_panel_parent a) (_panel_dict a) (child_axes a)
    (_title_dict a) (_abc_loc a) (_title_loc a) (_title_above a)
    (_title_pad a) (_abc_title_pad a) (_abc_border_kwargs a)
    (_title_border_kwargs a) (_legend_dict a) (_colorbar_dict a) (legend_ a)
    (spines a) (xaxis_visible a) (yaxis_visible a) v (patch_facecolor a).
Definition set_patch_facecolor (v : pyval) (a : axes) : axes :=
  Axes (visible a) (subplotspec a) (number a) (_panel_side a)
    (_panel_hidden a) (_panel_parent a) (_panel_dict a) (child_axes a)
    (_title_dict a) (_abc_loc a) (_title_loc a) (_title_above a)
    (_title_pad a) (_abc_title_pad a) (_abc_border_kwargs a)
    (_title_border_kwargs a) (_legend_dict a) (_colorbar_dict a) (legend_ a)
    (spines a) (xaxis_visible a) (yaxis_visible a) (patch_alpha a) v.

(** ** The store *)

(** All axes of one figure, and the traces of the calls made on objects
    that live outside this class. *)
Record world := World {
  store : gmap nat axes;
  subplots : list nat;                   (* the figure's subplots, in order *)
  removed : list nat;                    (* artists whose remove() ran, latest first *)
  share_calls : list (nat * axis * nat); (* _share{x,y}_setup calls, latest first *)
  next_id : nat;                         (* identities not yet given out *)
}.

Definition set_store (s : gmap nat axes) (w : world) : world :=
  World s (subplots w) (removed w) (share_calls w) (next_id w).
Definition set_removed (r : list nat) (w : world) : world :=
  World (store w) (subplots w) r (share_calls w) (next_id w).
Definition set_share_calls (c : list (nat * axis * nat)) (w : world) : world :=
  World (store w) (subplots w) (removed w) c (next_id w).
Definition set_next_id (n : nat) (w : world) : world :=
  World (store w) (subplots w) (removed w) (share_calls w) n.

(** A method: it reads and updates the store, and returns or raises. *)
Definition M (A : Type) : Type := world → result (A * world).

Definition ret {A} (a : A) : M A := λ w, Ok (a, w).

Definition bind {A B} (m : M A) (k : A → M B) : M B :=
  λ w, match m w with
       | Ok (a, w') => k a w'
       | Raise e => Raise e
       end.

Definition raise {A} (e : error) : M A := λ _, Raise e.

Declare Scope method_scope.
Delimit Scope method_scope with M.
Notation "x <- m ;; k" := (bind m (λ x, k))
  (at level 100, m at next level, right associativity) : method_scope.
Notation "m ;;; k" := (bind m (λ _, k))
  (at level 100, right associativity) : method_scope.
Local Open Scope method_scope.

(** Attribute access on the object with identity [i]. *)
Definition get_axes (i : nat) : M axes :=
  λ w, match store w !! i with
       | Some a => Ok (a, w)
       | None => Raise Stuck
       end.

(** Attribute assignment on the object with identity [i]. *)
Definition modify_axes (i : nat) (f : axes → axes) : M unit :=
  λ w, match store w !! i with
       | Some a => Ok (tt, set_store (<[i := f a]> (store w)) w)
       | None => Raise Stuck
       end.

(** [for x in l: body(x)] *)
Fixpoint for_each {A} (l : list A) (body : A → M unit) : M unit :=
  match l with
  | [] => ret tt
  | x :: l' => body x ;;; for_each l' body
  end.

(** ** Text objects of the title dictionary *)

(** A reference to the text object [ax._title_dict[name]]. *)
Definition text_ref : Type := nat * slot.

Definition get_title (r : text_ref) : M text_obj :=
  a <- get_axes r.1 ;; ret (_title_dict a r.2).

Definition modify_title (r : text_ref) (f : text_obj → text_obj) : M unit :=
  modify_axes r.1
    (λ a, set_title_dict (<[r.2 := f (_title_dict a r.2)]> (_title_dict a)) a).

(** [Axes._transfer_text(src, dest)] *)
Definition _transfer_text (src dest : text_ref) : M unit :=
  s <- get_title src ;;
  let text := t_text s in
  c <- get_title src ;;
  modify_title dest (set_color (t_color c)) ;;;
  f <- get_title src ;;
  modify_title dest (set_fontproperties (t_font f)) ;;;
  if blank text then ret tt
  else
    modify_title dest (set_text text) ;;;
    modify_title src (set_text "").

(** ** Panels *)

(** [Axes._hide_panel(self)] *)
Definition _hide_panel (self : nat) : M unit :=
  modify_axes self
    (λ a, set_spines (map (λ kv, (kv.1, false)) (spines a)) a) ;;;
  modify_axes self (set_xaxis_visible false) ;;;
  modify_axes self (set_yaxis_visible false) ;;;
  modify_axes self (set_patch_alpha (VNum 0%Q)) ;;;
  modify_axes self (set_patch_facecolor (VStr "none")) ;;;
  modify_axes self (set_panel_hidden true).

(** ** Outer titles and top panels *)

Definition is_True (v : pyval) : bool :=
  match v with VBool true => true | _ => false end.

(** [v == s] for a string literal [s] *)
Definition eq_str (v : pyval) (s : string) : bool :=
  match v with VStr s' => bool_decide (s' = s) | _ => false end.

(** The tuple [names] of [_above_title]. *)
Definition above_names (abc_loc : option slot) : list slot :=
  [left_title; center_title; right_title]
  ++ match abc_loc with
     | Some l => if is_outer l then [abc_title] else []
     | None => []
     end.

(** [Axes._above_title(self)] *)
Definition _above_title (self : nat) : M unit :=
  a <- get_axes self ;;
  let paxs := _panel_dict a STop in
  match list.last paxs with
  | None => ret tt
  | Some pax =>
      let names := above_names (_abc_loc a) in
      p <- get_axes pax ;;
      let '(src, dest) :=
        if is_True (_title_above a)
           || negb (_panel_hidden p) && eq_str (_title_above a) "panels"
        then (self, pax) else (pax, self) in
      for_each names
        (λ name, _transfer_text (src, name) (dest, name)) ;;;
      s <- get_axes src ;;
      modify_axes dest (set_title_pad (_title_pad s)) ;;;
      s <- get_axes src ;;
      modify_axes dest (set_abc_title_pad (_abc_title_pad s))
  end.

(** ** Titles *)

(** Modelled from the spec: [_translate_loc(loc, 'text')] of
    [proplot.config], which is not part of this file.  A slot name "must be
    one of the ten canonical names"; any other name is refused. *)
Definition _translate_loc (loc : string) : result slot :=
  match filter (λ s, slot_name s = loc) all_slots with
  | s :: _ => Ok s
  | [] => Raise KeyError
  end.

Definition lift {A} (r : result A) : M A :=
  λ w, match r with Ok a => Ok (a, w) | Raise e => Raise e end.

(** The configuration [rc] in the current context: the settings that were
    changed, by name.  The two paddings are numbers and are kept apart. *)
Record rc_context := RC {
  rc_settings : kwargs;
  rc_title_pad : option Q;       (* rc.find('title.pad', context=True) *)
  rc_abc_titlepad : option Q;    (* rc.find('abc.titlepad', context=True) *)
}.

(** [rc.find(name, context=True)]: [None] for an unchanged setting. *)
Definition rc_find (rc : rc_context) (name : string) : option pyval :=
  match rc_settings rc !! name with
  | Some VNone => None
  | o => o
  end.

(** [rc.fill(props, context=True)]: the dictionary of the keys of [props]
    whose setting is not [None]. *)
Definition rc_fill (rc : rc_context) (props : list (string * string))
  : kwargs :=
  list_to_map (omap (λ kn, pair kn.1 <$> rc_find rc kn.2) props).

(** [_translate_loc(loc or current, 'text')], where [current] is a location
    stored earlier.  With neither, the result [None] is no key of the title
    dictionary. *)
Definition resolve_loc (loc : option pyval) (current : option slot)
  : M slot :=
  let stored :=
    match current with Some s => ret s | None => raise KeyError end in
  match loc with
  | Some v =>
      if truthy v then
        match v with
        | VStr l => lift (_translate_loc l)
        | _ => raise KeyError
        end
      else stored
  | None => stored
  end.

(** [self._title_dict[loc].update(kw)] *)
Definition update_title_obj (r : text_ref) (kw : kwargs) : M unit :=
  a <- get_axes r.1 ;;
  t <- lift (text_update (_title_pad a) kw (_title_dict a r.2)) ;;
  modify_title r (λ _, t).

(** [Axes._update_title(self, loc, title=None, **kwargs)] *)
Definition _update_title (rc : rc_context) (self : nat) (loc : option string)
    (title : option string) (kwargs : kwargs) : M unit :=
  let kw :=
    rc_fill rc [("size", "title.size"); ("weight", "title.weight");
                ("color", "title.color"); ("family", "font.family")] in
  let kw :=
    match kw !! "color" with
    | Some c => if eq_str c "auto" then delete "color" kw else kw
    | None => kw
    end in
  let kwb :=
    rc_fill rc [("border", "title.border");
                ("borderwidth", "title.borderwidth");
                ("bbox", "title.bbox"); ("bboxpad", "title.bboxpad");
                ("bboxcolor", "title.bboxcolor");
                ("bboxstyle", "title.bboxstyle");
                ("bboxalpha", "title.bboxalpha")] in
  modify_axes self
    (λ a, set_title_border_kwargs
            (dict_update (_title_border_kwargs a) kwb) a) ;;;
  match rc_abc_titlepad rc with
  | Some pad => modify_axes self (set_abc_title_pad pad)
  | None => ret tt
  end ;;;
  match rc_title_pad rc with
  | Some pad => modify_axes self (set_title_pad pad)
  | None => ret tt
  end ;;;
  loc <- match loc with
         | Some l => lift (_translate_loc l)
         | None =>
             a <- get_axes self ;;
             let old := _title_loc a in
             loc <- resolve_loc (rc_find rc "title.loc") (_title_loc a) ;;
             modify_axes self (set_title_loc (Some loc)) ;;;
             match old with
             | Some old =>
                 if decide (loc = old) then ret loc
                 else _transfer_text (self, old) (self, loc) ;;; ret loc
             | None => ret loc
             end
         end ;;
  a <- get_axes self ;;
  let kw :=
    if is_outer loc then kw else dict_update kw (_title_border_kwargs a) in
  let kw :=
    match title with Some t => <["text" := VStr t]> kw | None => kw end in
  let kw := dict_update kw kwargs in
  update_title_obj (self, loc) kw ;;;
  _above_title self.

(** ** The a-b-c label *)

Definition ABC_STRING : string := "abcdefghijklmnopqrstuvwxyz".

(** [re.search('[aA]', s)]: the first 'a' or 'A' of [s], if any. *)
Fixpoint search_aA (s : string) : option ascii :=
  match s with
  | EmptyString => None
  | String c s' =>
      if (Ascii.eqb c "a" || Ascii.eqb c "A")%bool then Some c
      else search_aA s'
  end.

(** [n * c] for a one-character string [c]; empty when [n] is not
    positive. *)
Definition repeat_char (n : Z) (c : ascii) : string :=
  string_of_list_ascii (repeat c (Z.to_nat n)).

(** [str.upper] on the letters of [ABC_STRING]. *)
Definition upper_char (c : ascii) : ascii :=
  let n := nat_of_ascii c in
  if ((97 <=? n)%nat && (n <=? 122)%nat)%bool then ascii_of_nat (n - 32)
  else c.

Fixpoint upper (s : string) : string :=
  match s with
  | EmptyString => EmptyString
  | String c s' => String (upper_char c) (upper s')
  end.

(** [s.replace(old, new, 1)] for a one-character string [old] *)
Fixpoint replace_first (old : ascii) (new : string) (s : string) : string :=
  match s with
  | EmptyString => EmptyString
  | String c s' =>
      if Ascii.eqb c old then new ++ s' else String c (replace_first old new s')
  end.

(** The label that [_update_abc] builds from the style [abc] and the axes
    number.  [None] stands for the [AttributeError] of calling [group()] on
    a failed search. *)
Definition abc_label (abc : string) (number : Z) : option string :=
  let nabc := ((number - 1) `div` 26)%Z in
  let iabc := ((number - 1) `mod` 26)%Z in
  match search_aA abc with
  | None => None
  | Some old =>
      match String.get (Z.to_nat iabc) ABC_STRING with
      | None => None
      | Some letter =>
          let new := repeat_char (nabc + 1) letter in
          let new := if Ascii.eqb old "A" then upper new else new in
          Some (replace_first old new abc)
      end
  end.

(** [Axes._update_abc(self, **kwargs)] *)
Definition _update_abc (rc : rc_context) (self : nat) (kwargs : kwargs)
  : M unit :=
  let kw :=
    rc_fill rc [("size", "abc.size"); ("weight", "abc.weight");
                ("color", "abc.color"); ("family", "font.family")] in
  let kwb :=
    rc_fill rc [("border", "abc.border"); ("borderwidth", "abc.borderwidth");
                ("bbox", "abc.bbox"); ("bboxpad", "abc.bboxpad");
                ("bboxcolor", "abc.bboxcolor");
                ("bboxstyle", "abc.bboxstyle");
                ("bboxalpha", "abc.bboxalpha")] in
  modify_axes self
    (λ a, set_abc_border_kwargs
            (dict_update (_abc_border_kwargs a) kwb) a) ;;;
  (* A-b-c labels *)
  let abc := default VNone (rc_find rc "abc") in
  let abc := if is_True abc then VStr "a" else abc in
  a <- get_axes self ;;
  kw <- (if truthy abc then
           match abc with
           | VStr style =>
               match search_aA style with
               | None => raise ValueError
               | Some _ =>
                   match number a with
                   | None => ret kw
                   | Some n =>
                       match abc_label style n with
                       | Some label => ret (<["text" := VStr label]> kw)
                       | None => raise AttributeError
                       end
                   end
               end
           | _ => raise ValueError
           end
         else ret kw) ;;
  (* Update a-b-c label *)
  loc <- resolve_loc (rc_find rc "abc.loc") (_abc_loc a) ;;
  modify_axes self (set_abc_loc (Some loc)) ;;;
  a <- get_axes self ;;
  let kw :=
    if is_outer loc then kw else dict_update kw (_abc_border_kwargs a) in
  let kw := dict_update kw kwargs in
  update_title_obj (self, abc_title) kw ;;;
  _above_title self.

(** ** Axis sharing *)

(** [Axes._range_subplotspec(self, x)] *)
Definition _range_subplotspec (a : axes) (x : axis) : result (Z * Z) :=
  match subplotspec a with
  | None => Raise RuntimeError
  | Some (row1, row2, col1, col2) =>
      match x with
      | X => Ok (col1, col2)
      | Y => Ok (row1, row2)
      end
  end.

(** The argument [panels] of [_iter_axes]. *)
Inductive panels_arg :=
  | PanelsBool (b : bool)
  | PanelsNone
  | PanelsStr (s : string)
  | PanelsList (l : list string).

Definition parse_panels (panels : panels_arg) : result (list side) :=
  let names :=
    match panels with
    | PanelsBool false => []
    | PanelsBool true | PanelsNone => ["left"; "right"; "bottom"; "top"]
    | PanelsStr s => [s]
    | PanelsList l => l
    end in
  match mapM side_of_name names with
  | Some sides => Ok sides
  | None => Raise ValueError
  end.

(** [for x in l: if keep(x): yield x] with [keep] reading the store *)
Fixpoint filter_axes (keep : axes → M bool) (l : list nat) : M (list nat) :=
  match l with
  | [] => ret []
  | i :: l' =>
      a <- get_axes i ;;
      b <- keep a ;;
      rest <- filter_axes keep l' ;;
      ret (if b then i :: rest else rest)
  end.

(** [Axes._iter_axes(self, hidden, children, panels)], as the list of the
    axes it yields. *)
Definition _iter_axes (self : nat) (hidden children : bool)
    (panels : panels_arg) : M (list nat) :=
  sides <- lift (parse_panels panels) ;;
  a <- get_axes self ;;
  let axs := self :: concat (map (_panel_dict a) sides) in
  axs <- filter_axes (λ iax, ret (hidden || negb (_panel_hidden iax))) axs ;;
  iaxs <- (fix each (l : list nat) : M (list nat) :=
             match l with
             | [] => ret []
             | i :: l' =>
                 iax <- get_axes i ;;
                 rest <- each l' ;;
                 ret ((i :: if children then child_axes iax else []) ++ rest)%list
             end) axs ;;
  filter_axes (λ jax, ret (visible jax)) iaxs.

(** Modelled from the spec: [Figure._iter_axes] of [proplot.figure], which
    is not part of this file.  For the sharing computation the candidates are
    "all other main axes": the figure's subplots in their order, each
    iterated as [Axes._iter_axes] does unless it is a hidden panel. *)
Fixpoint Figure_iter_subplots (l : list nat) (hidden children : bool)
    (panels : panels_arg) : M (list nat) :=
  match l with
  | [] => ret []
  | i :: l' =>
      a <- get_axes i ;;
      here <- (if (hidden || negb (_panel_hidden a))%bool
               then _iter_axes i hidden children panels else ret []) ;;
      rest <- Figure_iter_subplots l' hidden children panels ;;
      ret (here ++ rest)%list
  end.

Definition Figure_iter_axes (hidden children : bool) (panels : panels_arg)
  : M (list nat) :=
  lift (parse_panels panels) ;;;
  λ w, Figure_iter_subplots (subplots w) hidden children panels w.

(** [np.argmax] and [np.argmin] on a list of integers: the index of the
    first occurrence of the extreme value. *)
Fixpoint arg_first (beats : Z → Z → bool) (l : list Z) : nat :=
  match l with
  | [] => 0
  | x :: l' =>
      if forallb (λ y, negb (beats y x)) l' then 0
      else S (arg_first beats l')
  end.

Definition argmax : list Z → nat := arg_first Z.gtb.
Definition argmin : list Z → nat := arg_first Z.ltb.

(** [l.pop(i)]: the element at index [i] and the list without it. *)
Definition list_pop {A} (i : nat) (l : list A) : option (A * list A) :=
  match l !! i with
  | Some x => Some (x, (take i l ++ drop (S i) l)%list)
  | None => None
  end.

(** The other axis. *)
Definition other_axis (x : axis) : axis :=
  match x with X => Y | Y => X end.

(** [ax._range_subplotspec(y)[idx]] with [idx = 0 if x == 'x' else 1] *)
Definition share_key (x : axis) (a : axes) : result Z :=
  match _range_subplotspec a (other_axis x) with
  | Ok (lo, hi) => Ok (match x with X => lo | Y => hi end)
  | Raise e => Raise e
  end.

Fixpoint share_keys (x : axis) (l : list nat) : M (list Z) :=
  match l with
  | [] => ret []
  | i :: l' =>
      a <- get_axes i ;;
      k <- lift (share_key x a) ;;
      rest <- share_keys x l' ;;
      ret (k :: rest)
  end.

Definition range_eqb (r1 r2 : Z * Z) : bool :=
  (r1.1 =? r2.1)%Z && (r1.2 =? r2.2)%Z.

(** [Axes._get_share_axes(self, x, panels=False)].  The list is built from
    a Python [set], whose iteration order is not specified: [set_iter] gives
    the order in which the set of the listed objects is iterated. *)
Definition _get_share_axes (set_iter : list nat → list nat) (self : nat)
    (x : axis) (panels : panels_arg) : M (list nat) :=
  a <- get_axes self ;;
  match subplotspec a with
  | None => ret [self]
  | Some _ =>
      let argfunc := match x with X => argmax | Y => argmin end in
      irange <- lift (_range_subplotspec a x) ;;
      axs <- Figure_iter_axes false false panels ;;
      axs <- filter_axes
               (λ ax, r <- lift (_range_subplotspec ax x) ;;
                      ret (range_eqb r irange)) axs ;;
      let axs := set_iter (self :: axs) in
      keys <- share_keys x axs ;;
      match keys with
      | [] => raise ValueError
      | _ =>
          match list_pop (argfunc keys) axs with
          | Some (pax, axs) => ret (pax :: axs)
          | None => raise Stuck
          end
      end
  end.

(** [Axes._share_short_axis(self, share, side)].  The call
    [getattr(cax, '_share' + axis + '_setup')(pax)] is dispatched on the
    class of [cax]: [setup] is the method it reaches. *)
Definition _share_short_axis (setup : axis → nat → nat → M unit)
    (self : nat) (share : option nat) (sd : side) : M unit :=
  a <- get_axes self ;;
  match share with
  | None => ret tt
  | Some share =>
      if bool_decide (is_Some (_panel_side a)) then ret tt
      else
        let x := match sd with SLeft | SRight => X | _ => Y end in
        let caxs := _panel_dict a sd in
        s <- get_axes share ;;
        let paxs := _panel_dict s sd in
        caxs <- filter_axes (λ pax, ret (negb (_panel_hidden pax))) caxs ;;
        paxs <- filter_axes (λ pax, ret (negb (_panel_hidden pax))) paxs ;;
        for_each (zip caxs paxs) (λ cp, setup x cp.1 cp.2)
  end.

(** [Axes._share_long_axis(self, share, side)] *)
Definition _share_long_axis (setup : axis → nat → nat → M unit)
    (self : nat) (share : option nat) (sd : side) : M unit :=
  a <- get_axes self ;;
  match share with
  | None => ret tt
  | Some share =>
      if bool_decide (is_Some (_panel_side a)) then ret tt
      else
        let x := match sd with STop | SBottom => X | _ => Y end in
        let paxs := _panel_dict a sd in
        paxs <- filter_axes (λ pax, ret (negb (_panel_hidden pax))) paxs ;;
        for_each paxs (λ pax, setup x pax share)
  end.

(** Every call of [_sharex_setup] or [_sharey_setup] is recorded: the
    subclasses that override them install the share assignment of [self] to
    its argument before they run the method of this class. *)
Definition record_share (x : axis) (child parent : nat) : M unit :=
  λ w, Ok (tt, set_share_calls ((child, x, parent) :: share_calls w) w).

(** [Axes._sharex_setup(self, sharex)] and [Axes._sharey_setup(self,
    sharey)], for [x] equal to [X] and [Y].  [depth] bounds the nesting of
    calls, as the interpreter does. *)
Fixpoint _share_setup (depth : nat) (x : axis) (self share : nat) : M unit :=
  match depth with
  | O => raise RecursionError
  | S d =>
      record_share x self share ;;;
      match x with
      | X =>
          _share_short_axis (_share_setup d) self (Some share) SLeft ;;;
          _share_short_axis (_share_setup d) self (Some share) SRight ;;;
          _share_long_axis (_share_setup d) self (Some share) SBottom ;;;
          _share_long_axis (_share_setup d) self (Some share) STop
      | Y =>
          _share_short_axis (_share_setup d) self (Some share) SBottom ;;;
          _share_short_axis (_share_setup d) self (Some share) STop ;;;
          _share_long_axis (_share_setup d) self (Some share) SLeft ;;;
          _share_long_axis (_share_setup d) self (Some share) SRight
      end
  end.

Definition _sharex_setup (depth : nat) : nat → nat → M unit :=
  _share_setup depth X.
Definition _sharey_setup (depth : nat) : nat → nat → M unit :=
  _share_setup depth Y.

(** ** The guide registry *)

Definition guide_dict (guide : string) (a : axes) : pydict entry :=
  if decide (guide = "legend") then _legend_dict a else _colorbar_dict a.

Definition set_guide_dict (guide : string) (d : pydict entry) (a : axes)
  : axes :=
  if decide (guide = "legend") then set_legend_dict d a
  else set_colorbar_dict d a.

(** [_not_none(x, [])], wrapped in a list when it is not one. *)
Definition arg_list {A} (x : guide_arg A) : list A :=
  match x with
  | ArgNone => []
  | ArgOne a => [a]
  | ArgList l => l
  end.

(** [obj.remove()] on a drawn legend or colorbar *)
Definition artist_remove (o : artist) : M unit :=
  λ w, Ok (tt, set_removed (art_id o :: removed w) w).

(** The key under which [_add_guide] files a guide requested at [loc]:
    'fill' stands for the side of a panel, and for nothing on other axes. *)
Definition fill_loc (a : axes) (loc : string) : option string :=
  if decide (loc = "fill") then side_name <$> _panel_side a else Some loc.

(** [Axes._add_guide(self, guide, obj, loc, **kwargs)] *)
Definition _add_guide (self : nat) (guide : string) (obj : payload)
    (loc : string) (kwargs : kwargs) : M unit :=
  if bool_decide (guide ∉ ["legend"; "colorbar"]) then raise TypeError
  else
    a <- get_axes self ;;
    match fill_loc a loc with
    | None => ret tt
    | Some loc =>
        (* Remove previous instances *)
        match pydict_get loc (guide_dict guide a) with
        | Some (Drawn obj_prev) =>
            modify_axes self
              (λ a, set_guide_dict guide
                      (pydict_del loc (guide_dict guide a)) a) ;;;
            if decide (guide = "colorbar") then ret tt
            else if decide (legend_ a = Some (art_id obj_prev))
            then modify_axes self (set_legend_ None)
            else artist_remove obj_prev
        | _ => ret tt
        end ;;;
        (* Replace with instance or update the queue *)
        a <- get_axes self ;;
        let store_entry e :=
          modify_axes self
            (λ a, set_guide_dict guide
                    (pydict_set loc e (guide_dict guide a)) a) in
        match obj with
        | Pair handles labels =>
            let handles := arg_list handles in
            let labels := arg_list labels in
            match pydict_get loc (guide_dict guide a) with
            | None => store_entry (Queued handles labels (dict_update ∅ kwargs))
            | Some (Queued handles_full labels_full kwargs_full) =>
                store_entry (Queued (handles_full ++ handles)
                               (labels_full ++ labels)
                               (dict_update kwargs_full kwargs))
            | Some (Drawn _) => raise TypeError
            | Some (DrawnRows os) =>
                if decide (length os = 3) then raise AttributeError
                else raise ValueError
            end
        | Obj o => store_entry (Drawn o)
        | Objs [] => raise ValueError
        | Objs os => store_entry (DrawnRows os)
        end
    end.

(** The drawing drivers [_draw_colorbar] and [_draw_legend], seen from the
    registry: called with [self], the handles, the labels, the location and
    the keyword arguments, a driver builds the guide out of matplotlib
    objects, may create and hide panels, registers what it drew with
    [_add_guide], and returns it. *)
Definition driver : Type :=
  nat → list nat → option (list string) → string → kwargs → M entry.

(** [labels or None] *)
Definition or_None {A} (l : list A) : option (list A) :=
  match l with [] => None | _ => Some l end.

(** [Axes._draw_guides(self)] *)
Definition _draw_guides (_draw_colorbar _draw_legend : driver) (self : nat)
  : M unit :=
  (* Draw queued colorbars *)
  a <- get_axes self ;;
  for_each (_colorbar_dict a)
    (λ item,
       match item.2 with
       | Drawn _ => ret tt
       | Queued handles labels kwargs =>
           cb <- _draw_colorbar self handles (or_None labels) item.1 kwargs ;;
           modify_axes self
             (λ a, set_colorbar_dict
                     (pydict_set item.1 cb (_colorbar_dict a)) a)
       | DrawnRows os =>
           if decide (length os = 3) then raise TypeError
           else raise ValueError
       end) ;;;
  (* Draw queued legends *)
  a <- get_axes self ;;
  for_each (_legend_dict a)
    (λ item,
       match item.2 with
       | Drawn _ => ret tt
       | DrawnRows [] => raise ValueError
       | DrawnRows _ => ret tt
       | Queued handles labels kwargs =>
           leg <- _draw_legend self handles (or_None labels) item.1 kwargs ;;
           modify_axes self
             (λ a, set_legend_dict
                     (pydict_set item.1 leg (_legend_dict a)) a)
       end).

(** A driver that draws nothing: it makes an object with a fresh identity
    that records the call, and registers it as the last statement of
    [_draw_legend] and of [_draw_colorbar] does. *)
Definition recording_driver (guide : string) : driver :=
  λ self handles labels loc kw,
    i <- (λ w, Ok (next_id w, set_next_id (S (next_id w)) w)) ;;
    let o := Artist i guide handles labels loc kw in
    _add_guide self guide (Obj o) loc ∅ ;;;
    ret (Drawn o).

(** ** Observations *)

(** What [see] reads in the store that a call leaves, if it returns. *)
Definition after {A B} (r : result (A * world)) (see : world → B)
  : result B :=
  match r with
  | Ok (_, w) => Ok (see w)
  | Raise e => Raise e
  end.

(** The text object that [ax._title_dict[name]] refers to. *)
Definition title_of (w : world) (r : text_ref) : option text_obj :=
  (λ a, _title_dict a r.2) <$> store w !! r.1.

Definition no_text : text_obj :=
  TextObj "" VNone (FontProps VNone VNone VNone) None None ∅ false.

(** The store with every title dictionary blanked: what remains is all
    that is not a title. *)
Definition without_titles (w : world) : world :=
  set_store (set_title_dict (λ _, no_text) <$> store w) w.

(** What [dest] holds after [_transfer_text(src, dest)] when it held [d]
    and [src] held [s], and what is left in [src]. *)
Definition received (s d : text_obj) : text_obj :=
  let d := set_fontproperties (t_font s) (set_color (t_color s) d) in
  if blank (t_text s) then d else set_text (t_text s) d.

Definition given (s : text_obj) : text_obj :=
  if blank (t_text s) then s else set_text "" s.

(** The text of an object that held [old], after [update(kw)]. *)
Definition updated_text (kw : kwargs) (old : string) : string :=
  match kw !! "text" with
  | Some v => default old (text_of_pyval v)
  | None => old
  end.

(** The keys of the colour and of the font properties, and what a text
    object holds for them. *)
Definition style_keys : list string := ["color"; "size"; "weight"; "family"].

Definition style_of (t : text_obj) (key : string) : pyval :=
  if decide (key = "color") then t_color t
  else if decide (key = "size") then fp_size (t_font t)
  else if decide (key = "weight") then fp_weight (t_font t)
  else fp_family (t_font t).

(** The direction of the transfer between a main axes and its outermost
    top panel, as the rule of the specification words it. *)
Inductive flow := MainToPanel | PanelToMain.

Definition arbitration_rule (above : pyval) (panel_hidden : bool) : flow :=
  match above with
  | VBool true => MainToPanel
  | VStr s =>
      if decide (s = "panels") then
        if panel_hidden then PanelToMain else MainToPanel
      else PanelToMain
  | _ => PanelToMain
  end.

(** The titles between which [_above_title] arbitrates, in the words of the
    specification: 'left', 'center' and 'right', and 'abc' when the a-b-c
    location is one of these three names. *)
Definition is_arbitrated (abc_loc : option slot) (name : slot) : bool :=
  match name with
  | left_title | center_title | right_title => true
  | abc_title =>
      match abc_loc with
      | Some left_title | Some center_title | Some right_title => true
      | _ => false
      end
  | _ => false
  end.

(** The outermost top panel of an axes, with its attributes. *)
Definition top_panel (w : world) (a : axes) : option (nat * axes) :=
  match list.last (_panel_dict a STop) with
  | Some pax =>
      match store w !! pax with
      | Some p => Some (pax, p)
      | None => None
      end
  | None => None
  end.

(** What the title [name] of an axes holds after the arbitration with its
    outermost top panel [top], when it held [t] before: for an axes without
    top panel, and for a title that is not arbitrated, still [t]. *)
Definition settled_title (top : option (nat * axes)) (above : pyval)
    (abc_loc : option slot) (name : slot) (t : text_obj) : text_obj :=
  match top with
  | Some (_, p) =>
      if is_arbitrated abc_loc name then
        match arbitration_rule above (_panel_hidden p) with
        | MainToPanel => given t
        | PanelToMain => received (_title_dict p name) t
        end
      else t
  | None => t
  end.

(** What the title [name] of the panel [p] holds after the arbitration,
    when the same title of the main axes held [t] before. *)
Definition settled_panel_title (p : axes) (above : pyval)
    (abc_loc : option slot) (name : slot) (t : text_obj) : text_obj :=
  if is_arbitrated abc_loc name then
    match arbitration_rule above (_panel_hidden p) with
    | MainToPanel => received t (_title_dict p name)
    | PanelToMain => given (_title_dict p name)
    end
  else _title_dict p name.

(** The panels of a stack that are not hidden. *)
Definition is_hidden (w : world) (i : nat) : bool :=
  match store w !! i with
  | Some p => _panel_hidden p
  | None => false
  end.

Definition visible_panels (w : world) (l : list nat) : list nat :=
  filter (λ i, is_hidden w i = false) l.

(** The axis that [_share_short_axis] shares for the panels of a side, and
    the calls of its walk over two stacks. *)
Definition short_axis (sd : side) : axis :=
  match sd with SLeft | SRight => X | _ => Y end.

Definition zipped_calls (x : axis) (caxs paxs : list nat)
  : list (nat * axis * nat) :=
  (λ cp, (cp.1, x, cp.2)) <$> zip caxs paxs.

(** What a call returns, without the store. *)
Definition returned {A} (r : result (A * world)) : result A :=
  match r with
  | Ok (a, _) => Ok a
  | Raise e => Raise e
  end.

(** The axes that [Figure._iter_axes(hidden=False, children=False,
    panels=False)] yields: the subplots that are visible and no hidden
    panel. *)
Definition shown (w : world) (i : nat) : bool :=
  match store w !! i with
  | Some a => visible a && negb (_panel_hidden a)
  | None => false
  end.

(** The column range (for [X]) or the row range (for [Y]) of a subplot. *)
Definition range_of (w : world) (x : axis) (i : nat) : option (Z * Z) :=
  match store w !! i with
  | Some a =>
      match _range_subplotspec a x with
      | Ok r => Some r
      | Raise _ => None
      end
  | None => None
  end.

(** The number by which [_get_share_axes] picks the reference: the first
    row of a subplot for [X], its last column for [Y]. *)
Definition share_key_of (w : world) (x : axis) (i : nat) : Z :=
  match store w !! i with
  | Some a =>
      match share_key x a with
      | Ok k => k
      | Raise _ => 0%Z
      end
  | None => 0%Z
  end.

(** [self] and the shown subplots of the same range along [x], as listed
    before the set is built. *)
Definition share_group (w : world) (x : axis) (self : nat) : list nat :=
  self :: filter (λ i, shown w i = true ∧ range_of w x i = range_of w x self)
            (subplots w).

(** The entry that [_add_guide] files for a payload. *)
Definition new_entry (obj : payload) (kw : kwargs) : entry :=
  match obj with
  | Pair handles labels =>
      Queued (arg_list handles) (arg_list labels) (dict_update ∅ kw)
  | Obj o => Drawn o
  | Objs os => DrawnRows os
  end.

Definition is_drawn (e : entry) : bool :=
  match e with Drawn _ => true | _ => false end.

(** The letter that stands for the axes number [n] in an a-b-c label, as
    many times as the label repeats it. *)
Definition abc_letters (upper_case : bool) (n : Z) : string :=
  let letter :=
    default "a"%char (String.get (Z.to_nat ((n - 1) `mod` 26)) ABC_STRING) in
  let letter := if upper_case then upper_char letter else letter in
  string_of_list_ascii (repeat letter (Z.to_nat ((n - 1) `div` 26 + 1))).

(** ** Example figures *)

Definition fresh_text (patched : bool) : text_obj :=
  TextObj "" (VStr "black") (FontProps VNone VNone VNone) None None ∅ patched.

(** An axes as [__init__] leaves it, at the position [ss] of the grid. *)
Definition fresh_axes (ss : option (Z * Z * Z * Z)) : axes :=
  Axes true ss None None false None (λ _, []) []
    (λ s, fresh_text (negb (is_outer s))) None None (VBool true) 5%Q 5%Q ∅ ∅
    [] [] None
    [("left", true); ("right", true); ("bottom", true); ("top", true)]
    true true (VNum 1%Q) (VStr "white").

Definition with_title (s : slot) (text : string) (color : string) (a : axes)
  : axes :=
  set_title_dict
    (<[s := set_color (VStr color) (set_text text (_title_dict a s))]>
       (_title_dict a)) a.

(** A panel of the axes [parent] on the side [sd]. *)
Definition fresh_panel (parent : nat) (sd : side) : axes :=
  let a := fresh_axes (Some (0, 0, 0, 0)%Z) in
  Axes (visible a) (subplotspec a) None (Some sd) false (Some parent)
    (_panel_dict a) (child_axes a) (_title_dict a) (_abc_loc a)
    (_title_loc a) (_title_above a) (_title_pad a) (_abc_title_pad a)
    (_abc_border_kwargs a) (_title_border_kwargs a) (_legend_dict a)
    (_colorbar_dict a) (legend_ a) (spines a) (xaxis_visible a)
    (yaxis_visible a) (patch_alpha a) (patch_facecolor a).

Definition figure (axs : list (nat * axes)) (subs : list nat) : world :=
  World (list_to_map axs) subs [] [] 100.

(** Two axes that are no subplots: the centre title of the first reads [t]
    in red, that of the second reads "B". *)
Definition two_titles (t : string) : world :=
  figure [(0, with_title center_title t "red" (fresh_axes None));
          (1, with_title center_title "B" "black" (fresh_axes None))]
         [].

(** A subplot with the title "Hello" and one top panel with the title
    "Panel", for a setting [above] of 'title.above' and a panel that is
    hidden or not. *)
Definition main_with_top_panel (above : pyval) (hidden : bool) : world :=
  let main := with_title center_title "Hello" "red"
                (fresh_axes (Some (0, 0, 0, 0)%Z)) in
  let main :=
    set_title_above above
      (set_panel_dict (<[STop := [1]]> (_panel_dict main)) main) in
  let panel := with_title center_title "Panel" "blue" (fresh_panel 0 STop) in
  figure [(0, main); (1, set_panel_hidden hidden panel)] [0].

(** A subplot whose titles 'left', 'center', 'right', 'abc' and 'upper
    left' read "L", "C", "R", "a" and "In", with the a-b-c location 'left'
    and 'title.above' set, and its top panel, whose titles are empty. *)
Definition all_titles_with_top_panel : world :=
  let main := fresh_axes (Some (0, 0, 0, 0)%Z) in
  let main :=
    with_title left_title "L" "red"
      (with_title center_title "C" "red"
         (with_title right_title "R" "red"
            (with_title abc_title "a" "red"
               (with_title upper_left "In" "red" main)))) in
  let main :=
    set_abc_loc (Some left_title)
      (set_title_above (VBool true)
         (set_panel_dict (<[STop := [1]]> (_panel_dict main)) main)) in
  figure [(0, main); (1, fresh_panel 0 STop)] [0].

(** A context in which no setting was changed. *)
Definition no_rc : rc_context := RC ∅ None None.

(** One subplot whose centre title reads "Hello" in black. *)
Definition one_subplot : world :=
  figure [(0, with_title center_title "Hello" "black"
                (fresh_axes (Some (0, 0, 0, 0)%Z)))] [0].

(** One subplot whose registry of [guide] holds a drawn object at 'right'. *)
Definition old_guide (guide : string) : artist :=
  Artist 7 guide [1] (Some ["a"]) "right" ∅.

Definition new_guide (guide : string) : artist :=
  Artist 8 guide [2] (Some ["b"]) "right" ∅.

Definition with_guide (guide : string) : world :=
  figure [(0, set_guide_dict guide [("right", Drawn (old_guide guide))]
                (fresh_axes (Some (0, 0, 0, 0)%Z)))] [0].

(** The two registrations of the queue example and the flush that follows
    them, with drivers that record their calls. *)
Definition queue_twice (self : nat) (loc : string) (h1 h2 : nat)
    (l1 l2 : string) (kw1 kw2 : kwargs) : M unit :=
  _add_guide self "legend" (Pair (ArgList [h1]) (ArgList [l1])) loc kw1 ;;;
  _add_guide self "legend" (Pair (ArgList [h2]) (ArgList [l2])) loc kw2.

Definition queue_example (loc : string) : M unit :=
  bind (queue_twice 0 loc 1 2 "one" "two"
          {["ncol" := VNum 1%Q; "frame" := VBool true]}
          {["ncol" := VNum 2%Q]})
    (λ _, _draw_guides (recording_driver "colorbar")
            (recording_driver "legend") 0).

(** Two subplots side by side: the first has two left panels, of which the
    inner one is hidden, and a third one added later; the second has one
    left panel. *)
Definition two_stacks : world :=
  let main (panels : list nat) (col : Z) :=
    let a := fresh_axes (Some (0, 0, col, col)%Z) in
    set_panel_dict (<[SLeft := panels]> (_panel_dict a)) a in
  figure [(0, main [2; 3; 4] 0%Z); (1, main [5] 1%Z);
          (2, set_panel_hidden true (fresh_panel 0 SLeft));
          (3, fresh_panel 0 SLeft); (4, fresh_panel 0 SLeft);
          (5, fresh_panel 1 SLeft)] [0; 1].

(** A grid of two rows and two columns: the subplot [2 * r + c] is at the
    row [r] and the column [c]. *)
Definition grid_2x2 : world :=
  let at_ (r c : Z) := fresh_axes (Some (r, r, c, c)) in
  figure [(0, at_ 0%Z 0%Z); (1, at_ 0%Z 1%Z); (2, at_ 1%Z 0%Z);
          (3, at_ 1%Z 1%Z)] [0; 1; 2; 3].

(** Two subplots at the same position of the grid. *)
Definition overlapping : world :=
  figure [(0, fresh_axes (Some (0, 0, 0, 0)%Z));
          (1, fresh_axes (Some (0, 0, 0, 0)%Z))] [0; 1].


(** ** Transfers there and back *)

(** [_transfer_text(src, dest)] and then [_transfer_text(dest, src)] *)
Definition there_and_back (src dest : text_ref) : M unit :=
  bind (_transfer_text src dest) (λ _, _transfer_text dest src).

(** ** The steps of [_update_text] *)

(** Whether the properties ask for a border with the colours of the text
    and of the border exchanged. *)
Definition border_inverted (props : kwargs) : bool :=
  truthy (default VNone (props !! "border"))
  && truthy (default (VBool false) (props !! "borderinvert")).

(** The pseudo properties that [_update_text] takes out of the properties
    for good ('bbox' is handed on when it is a dict). *)
Definition pseudo_keys : list string :=
  ["border"; "bordercolor"; "borderinvert"; "borderwidth";
   "bboxcolor"; "bboxstyle"; "bboxalpha"; "bboxpad"].

(** The three steps of [_update_text]: the border, the bounding box, and
    the properties that are left for [Text.update]. *)
Definition border_step (props : kwargs) (t : text_obj) : text_obj :=
  let border := default VNone (props !! "border") in
  let bordercolor := default (VStr "w") (props !! "bordercolor") in
  let borderinvert := default (VBool false) (props !! "borderinvert") in
  let borderwidth := default (VNum 2%Q) (props !! "borderwidth") in
  if truthy border then
    if truthy borderinvert
    then set_path_effects (Some (borderwidth, t_color t))
           (set_color bordercolor t)
    else set_path_effects (Some (borderwidth, bordercolor))
           (set_color (t_color t) t)
  else if is_False border then set_path_effects None t
  else t.

Definition bbox_step (pad : Q) (props : kwargs) (t : text_obj) : text_obj :=
  let bbox := default VNone (props !! "bbox") in
  let bboxcolor := default (VStr "w") (props !! "bboxcolor") in
  let bboxstyle := default (VStr "round") (props !! "bboxstyle") in
  let bboxalpha := default (VNum (1 # 2)%Q) (props !! "bboxalpha") in
  let bboxpad :=
    _not_none (default VNone (props !! "bboxpad")) (VNum (pad / 10)%Q) in
  if is_dict bbox then t
  else if truthy bbox then
    set_bbox (Some [("edgecolor", VStr "black"); ("facecolor", bboxcolor);
                    ("boxstyle", bboxstyle); ("alpha", bboxalpha);
                    ("pad", bboxpad)]) t
  else if is_False bbox then set_bbox None t
  else t.

Definition passed_props (props : kwargs) : kwargs :=
  let rest :=
    delete "bboxpad"
      (delete "bboxalpha"
         (delete "bboxstyle"
            (delete "bboxcolor"
               (delete "bbox"
                  (delete "borderwidth"
                     (delete "borderinvert"
                        (delete "bordercolor" (delete "border" props)))))))) in
  let bbox := default VNone (props !! "bbox") in
  if is_dict bbox then <["bbox" := bbox]> rest else rest.

(** ** What [_iter_axes] walks *)

(** The panels of the sides [sides], in the order [_iter_axes] walks them. *)
Definition panels_of (a : axes) (sides : list side) : list nat :=
  concat (map (_panel_dict a) sides).

(** What [_iter_axes] tests on the axes with identity [i]. *)
Definition iter_keeps (w : world) (hidden : bool) (i : nat) : bool :=
  match store w !! i with
  | Some a => hidden || negb (_panel_hidden a)
  | None => false
  end.

(** [jax.get_visible()] for the axes with identity [i] *)
Definition is_visible (w : world) (i : nat) : bool :=
  match store w !! i with
  | Some a => visible a
  | None => false
  end.

(** [iax.child_axes] for the axes with identity [i] *)
Definition children_of (w : world) (i : nat) : list nat :=
  match store w !! i with
  | Some a => child_axes a
  | None => []
  end.

(** [(iax, *(iax.child_axes if children else ()))] *)
Definition with_children (w : world) (children : bool) (i : nat) : list nat :=
  i :: if children then children_of w i else [].

(** The names that the argument [panels] stands for. *)
Definition panel_names (panels : panels_arg) : list string :=
  match panels with
  | PanelsBool false => []
  | PanelsBool true | PanelsNone => ["left"; "right"; "bottom"; "top"]
  | PanelsStr s => [s]
  | PanelsList l => l
  end.

(** ** The calls of the sharing setup *)

(** The axis that [_share_long_axis] shares for the panels of a side. *)
Definition long_axis (sd : side) : axis :=
  match sd with STop | SBottom => X | _ => Y end.

(** The calls that [_share_long_axis] makes for the stack [paxs]. *)
Definition long_calls (w : world) (x : axis) (paxs : list nat) (share : nat)
  : list (nat * axis * nat) :=
  (λ p, (p, x, share)) <$> visible_panels w paxs.

(** The calls of [_sharex_setup] (for [X]) and of [_sharey_setup] (for [Y])
    that [self._share{x}_setup(share)] makes on a main axes whose panels have
    no panels of their own, in the order in which they are made. *)
Definition setup_calls (w : world) (x : axis) (self share : nat) (a s : axes)
  : list (nat * axis * nat) :=
  let short sd :=
    zipped_calls x (visible_panels w (_panel_dict a sd))
      (visible_panels w (_panel_dict s sd)) in
  let long sd := long_calls w x (_panel_dict a sd) share in
  (self, x, share)
  :: match x with
     | X => short SLeft ++ short SRight ++ long SBottom ++ long STop
     | Y => short SBottom ++ short STop ++ long SLeft ++ long SRight
     end.

(** ** Entries of the registries of guides *)


(** An entry that a flush leaves alone. *)
Definition is_settled (guide : string) (e : entry) : bool :=
  match e with
  | Drawn _ => true
  | DrawnRows (_ :: _) => bool_decide (guide = "legend")
  | _ => false
  end.





(** ** Axes without their titles *)

(** An axes without its titles. *)
Definition untitled (a : axes) : axes := set_title_dict (λ _, no_text) a.

(** The copy of the two paddings that ends [_above_title]. *)
Definition copy_pads (s d : axes) : axes :=
  set_abc_title_pad (_abc_title_pad s) (set_title_pad (_title_pad s) d).

(** ** Styles of the a-b-c label *)

(** The style string that a setting of 'abc' stands for. *)
Definition abc_style (v : pyval) : option string :=
  match v with
  | VBool true => Some "a"
  | VStr s => Some s
  | _ => None
  end.

(** A subplot with the number [n] whose a-b-c label goes to the left. *)
Definition numbered_subplot (n : Z) : world :=
  let a := fresh_axes (Some (0, 0, 0, 0)%Z) in
  figure
    [(0, Axes (visible a) (subplotspec a) (Some n) (_panel_side a)
           (_panel_hidden a) (_panel_parent a) (_panel_dict a) (child_axes a)
           (_title_dict a) (Some left_title) (_title_loc a) (_title_above a)
           (_title_pad a) (_abc_title_pad a) (_abc_border_kwargs a)
           (_title_border_kwargs a) (_legend_dict a) (_colorbar_dict a)
           (legend_ a) (spines a) (xaxis_visible a) (yaxis_visible a)
           (patch_alpha a) (patch_facecolor a))] [0].

(** ** A subplot with a title *)

(** One subplot whose title "Hello" is at the centre, the stored location
    of titles. *)
Definition titled_subplot : world :=
  figure [(0, set_title_loc (Some center_title)
                (with_title center_title "Hello" "black"
                   (fresh_axes (Some (0, 0, 0, 0)%Z))))] [0].

(** ** Legends: the order of the entries *)

(** The exceptions of the list operations of the legend code. *)
Inductive legend_error := ZeroDivisionError | IndexError.

(** [[f(x) for x in l]], stopping at the first exception *)
Fixpoint try_map {E A B} (f : A → E + B) (l : list A) : E + list B :=
  match l with
  | [] => inr []
  | x :: l' =>
      match f x with
      | inl e => inl e
      | inr y =>
          match try_map f l' with
          | inl e => inl e
          | inr ys => inr (y :: ys)
          end
      end
  end.

(** A bound of a Python slice: counted from the end when negative, and
    clipped to the list. *)
Definition py_bound (len i : Z) : Z :=
  if (i <? 0)%Z then Z.max 0 (len + i) else Z.min i len.

(** [l[a:b]] *)
Definition py_slice {A} (l : list A) (a b : Z) : list A :=
  let len := Z.of_nat (length l) in
  let a := py_bound len a in
  let b := py_bound len b in
  take (Z.to_nat (b - a)) (drop (Z.to_nat a) l).

(** [l[i]] for an index that is not negative *)
Definition get_item {A} (l : list A) (i : nat) : legend_error + A :=
  match l !! i with
  | Some x => inr x
  | None => inl IndexError
  end.

(** [Axes._single_legend(self, pairs, ncol=None, order=None, **kwargs)], up
    to the call of the constructor [mlegend.Legend]: the result is the list of
    pairs and the number of columns that the constructor is called with. *)
Definition _single_legend {A} (pairs : list A) (ncol : option Z)
    (order : option string) : legend_error + (list A * Z) :=
  let ncol := default 3%Z ncol in
  if decide (order = Some "C") then
    if decide (ncol = 0%Z) then inl ZeroDivisionError
    else
      let nbase := (Z.of_nat (length pairs) `div` ncol + 1)%Z in
      let split :=
        (λ i, py_slice pairs (i * ncol) ((i + 1) * ncol)) <$> seqZ 0 nbase in
      match list.last split with
      | None => inl IndexError
      | Some final =>
          let nrows_max := length split in   (* max possible row count *)
          let ncols_final := length final in   (* columns in final row *)
          let nrows :=
            (replicate ncols_final nrows_max
             ++ replicate (Z.to_nat (ncol - Z.of_nat ncols_final))
                  (nrows_max - 1)%nat)%list in
          match
            try_map
              (λ '(col, nrow),
                 try_map
                   (λ row,
                      match get_item split row with
                      | inl e => inl e
                      | inr irow => get_item irow col
                      end) (seq 0 nrow))
              (imap pair nrows)
          with
          | inl e => inl e
          | inr columns => inr (concat columns, ncol)
          end
      end
  else inr (pairs, ncol).

(** The entries of a list laid out in rows of [c], read column by
    column. *)
Definition read_column {A} (l : list A) (c j : nat) : list A :=
  omap (λ row, l !! (row * c + j)) (seq 0 (S (length l / c))).

(** The columns of the layout of [read_column], one after the other. *)
Definition read_columns {A} (l : list A) (c : nat) : list A :=
  concat (map (read_column l c) (seq 0 c)).

(** ** Legends: rows *)

(** The pairs that [_parse_handles_labels] returns: one list, or the rows
    of a legend with centred rows. *)
Inductive legend_pairs (A : Type) :=
  | Flat (pairs : list A)
  | Rows (rows : list (list A)).
Arguments Flat {A} pairs.
Arguments Rows {A} rows.

(** [[ipairs for ipairs in pairs if ipairs]] *)
Definition nonempty_rows {A} (rows : list (list A)) : list (list A) :=
  List.filter (λ r, negb (bool_decide (length r = 0%nat))) rows.

(** The end of [Axes._parse_handles_labels]: how the pairs parsed from
    each sublist of handles, [pairs], are arranged for the options [ncol]
    and [center], where [list_of_lists] tells whether the handles came as a
    list of lists (when they did not, [pairs] holds the one list that was
    parsed). *)
Definition arrange_pairs {A} (list_of_lists : bool) (ncol : option Z)
    (center : option bool) (pairs : list (list A))
  : legend_error + legend_pairs A :=
  let ncol := default 3%Z ncol in
  let center := default list_of_lists center in
  (* Manage (handle, label) pairs in context of the 'center' option *)
  if negb list_of_lists then
    match pairs !! 0%nat with
    | None => inl IndexError
    | Some pairs =>
        if center then
          let rows :=
            (λ i, py_slice pairs (i * ncol) ((i + 1) * ncol))
              <$> seqZ 0 (Z.of_nat (length pairs)) in
          inr (Rows (nonempty_rows rows))   (* remove empty sublists *)
        else inr (Flat pairs)
    end
  else if negb center then inr (Flat (concat pairs))
  else inr (Rows (nonempty_rows pairs)).

(** All pairs of an arrangement, in order. *)
Definition all_pairs {A} (p : legend_pairs A) : list A :=
  match p with
  | Flat pairs => pairs
  | Rows rows => concat rows
  end.

(** The rows of an arrangement; a flat list has none. *)
Definition rows_of {A} (p : legend_pairs A) : list (list A) :=
  match p with
  | Flat _ => []
  | Rows rows => rows
  end.

(** ** Settings of the configuration *)

(** [Axes._get_loc(x, string)] *)
Definition _get_loc (rc : rc_context) (x : axis) (setting : string)
  : option string :=
  let '(opt1, opt2) :=
    match x with X => ("top", "bottom") | Y => ("left", "right") end in
  let b1 := rc_find rc (setting ++ "." ++ opt1) in
  let b2 := rc_find rc (setting ++ "." ++ opt2) in
  match b1, b2 with
  | None, None => None
  | _, _ =>
      let b1 := default VNone b1 in
      let b2 := default VNone b2 in
      if truthy b1 && truthy b2 then Some "both"
      else if truthy b1 then Some opt1
      else if truthy b2 then Some opt2
      else Some "neither"
  end.

(** The two sides that a location string of [_get_loc] switches on. *)
Definition sides_on (x : axis) (loc : string) : option (bool * bool) :=
  let '(opt1, opt2) :=
    match x with X => ("top", "bottom") | Y => ("left", "right") end in
  if decide (loc = "both") then Some (true, true)
  else if decide (loc = opt1) then Some (true, false)
  else if decide (loc = opt2) then Some (false, true)
  else if decide (loc = "neither") then Some (false, false)
  else None.

(** Whether a setting is on: an unchanged setting counts as off. *)
Definition setting_on (rc : rc_context) (name : string) : bool :=
  truthy (default VNone (rc_find rc name)).

(** [v is None] *)
Definition is_None (v : pyval) : bool :=
  match v with VNone => true | _ => false end.

(** Python's [a and b] *)
Definition py_and (a b : pyval) : pyval := if truthy a then b else a.

(** [Axes._get_gridline_toggle(grid, axis, which, context)].  [find name]
    stands for [rc.find(name, context=context)] and [item name] for
    [rc[name]], with [VNone] for [None]; [axis] is a name or [None].  The
    test [axis is None] follows [axis = _not_none(axis, 'x')] and is never
    true. *)
Definition _get_gridline_toggle (find item : string → pyval) (grid : pyval)
    (axis : option string) (which : string) : pyval :=
  let grid_on := find "axes.grid" in
  let which_on := find "axes.grid.which" in
  if negb (is_None grid_on) || negb (is_None which_on)
  then (* if *one* was changed *)
    let axis_on := item "axes.grid.axis" in   (* always need this property *)
    let grid_on := _not_none grid_on (item "axes.grid") in
    let which_on := _not_none which_on (item "axes.grid.which") in
    let axis := default "x" axis in
    let axis_on := eq_str axis_on axis || eq_str axis_on "both" in
    let which_on := eq_str which_on which || eq_str which_on "both" in
    _not_none grid (py_and (py_and grid_on (VBool axis_on)) (VBool which_on))
  else grid.

(** ** Geometry of inset colorbars and of centred legend rows *)

(** A rectangle [(x0, y0, width, height)] in axes-relative coordinates. *)
Definition rect : Type := Q * Q * Q * Q.

(** The four edges of a rectangle. *)
Definition left_of (b : rect) : Q := b.1.1.1.

Definition bottom_of (b : rect) : Q := b.1.1.2.

Definition right_of (b : rect) : Q := (b.1.1.1 + b.1.2)%Q.

Definition top_of (b : rect) : Q := (b.1.1.2 + b.2)%Q.

(** The bounds that [Axes._inset_colorbar_axes] computes for the inset
    axes of the colorbar ([ibounds]) and for its frame ([fbounds]), from the
    location and the lengths in axes-relative units. *)
Definition inset_colorbar_bounds (loc : string)
    (xpad ypad length width labspace : Q) : rect * rect :=
  let '(ibounds, fbounds) :=
    if decide (loc = "upper right") then
      ((1 - xpad - length, 1 - ypad - width),
       (1 - 2 * xpad - length, 1 - 2 * ypad - width - labspace))%Q
    else if decide (loc = "upper left") then
      ((xpad, 1 - ypad - width),
       (0, 1 - 2 * ypad - width - labspace))%Q
    else if decide (loc = "lower left") then
      ((xpad, ypad + labspace), (0, 0))%Q
    else
      ((1 - xpad - length, ypad + labspace),
       (1 - 2 * xpad - length, 0))%Q in
  ((ibounds.1, ibounds.2, length, width),   (* inset axes *)
   (fbounds.1, fbounds.2, 2 * xpad + length,
    2 * ypad + width + labspace))%Q.

(** [sub in s] *)
Definition contains (sub s : string) : bool :=
  match index 0 sub s with Some _ => true | None => false end.

(** The vertical span [(y1, y2)] of the box that [Axes._multiple_legend]
    gives to the row [i] of [n] rows, for the height [interval] of a row;
    [titled] tells whether the legend has a title. *)
Definition legend_row_span (loc : string) (n : nat) (titled : bool)
    (interval : Q) (i : nat) : Q * Q :=
  let i := if (0 <? i)%nat && titled then (i + 1)%nat else i in
  let i := inject_Z (Z.of_nat i) in
  let n := inject_Z (Z.of_nat n) in
  if contains "upper" loc then
    (1 - (i + 1) * interval, 1 - i * interval)%Q
  else if contains "lower" loc then
    ((n + i - 2) * interval, (n + i - 1) * interval)%Q
  else   (* center *)
    ((1 # 2) + interval * n / 2 - (i + 1) * interval,
     (1 # 2) + interval * n / 2 - i * interval)%Q.


(** * Properties *)

(** ** Running a method *)

Lemma bind_ok {A B} (m : M A) (k : A → M B) w a w' :
  m w = Ok (a, w') → bind m k w = k a w'.
Proof. intros H. unfold bind. by rewrite H. Qed.

Lemma bind_assoc {A B C} (m : M A) (f : A → M B) (g : B → M C) w :
  bind (bind m f) g w = bind m (λ x, bind (f x) g) w.
Proof. unfold bind. by destruct (m w) as [[a w']|e]. Qed.

Lemma get_axes_ok w i a : store w !! i = Some a → get_axes i w = Ok (a, w).
Proof. intros H. unfold get_axes. by rewrite H. Qed.

Lemma modify_axes_ok w i a f :
  store w !! i = Some a →
  modify_axes i f w = Ok (tt, set_store (<[i := f a]> (store w)) w).
Proof. intros H. unfold modify_axes. by rewrite H. Qed.

(** Chain one step whose result is known. *)
Ltac step E :=
  lazymatch type of E with
  | ?m ?w = Ok (?a, ?w') => rewrite (bind_ok m _ w a w' E)
  end.

Ltac step_in H E :=
  lazymatch type of E with
  | ?m ?w = Ok (?a, ?w') => rewrite (bind_ok m _ w a w' E) in H
  end.

(** ** Text objects *)

Lemma title_of_store w i n a :
  store w !! i = Some a → title_of w (i, n) = Some (_title_dict a n).
Proof. intros H. unfold title_of. simpl. by rewrite H. Qed.

Lemma title_of_inv w r t :
  title_of w r = Some t →
  ∃ a, store w !! r.1 = Some a ∧ _title_dict a r.2 = t.
Proof.
  unfold title_of. intros H.
  destruct (store w !! r.1) as [a|]; simplify_eq/=. eauto.
Qed.

Lemma get_title_ok w r t :
  title_of w r = Some t → get_title r w = Ok (t, w).
Proof.
  intros (a & Ha & <-)%title_of_inv. unfold get_title.
  step (get_axes_ok _ _ _ Ha). done.
Qed.

Lemma modify_title_ok w r t f :
  title_of w r = Some t →
  ∃ w', modify_title r f w = Ok (tt, w')
        ∧ without_titles w' = without_titles w
        ∧ ∀ r', title_of w' r' =
                if decide (r' = r) then Some (f t) else title_of w r'.
Proof.
  intros (a & Ha & <-)%title_of_inv. unfold modify_title.
  rewrite (modify_axes_ok _ _ _ _ Ha).
  eexists; split; [done|]. split.
  - unfold without_titles, set_store; simpl. f_equal.
    rewrite fmap_insert. apply insert_id. by rewrite lookup_fmap, Ha.
  - intros [i n]. destruct r as [j m]; unfold title_of; simpl in *.
    destruct (decide (i = j)) as [->|Hij].
    + rewrite lookup_insert_eq. simpl.
      destruct (decide (n = m)) as [->|Hnm].
      * rewrite decide_True by done. by rewrite fn_lookup_insert.
      * rewrite decide_False by congruence.
        rewrite fn_lookup_insert_ne by done. by rewrite Ha.
    + rewrite lookup_insert_ne by done.
      rewrite decide_False by congruence. done.
Qed.

(** A change of attributes other than the title dictionary leaves every
    title alone. *)
Lemma modify_axes_titles w i a f :
  store w !! i = Some a →
  _title_dict (f a) = _title_dict a →
  ∃ w', modify_axes i f w = Ok (tt, w')
        ∧ ∀ r, title_of w' r = title_of w r.
Proof.
  intros Ha Hf. rewrite (modify_axes_ok _ _ _ _ Ha).
  eexists; split; [done|]. intros [j n]. unfold title_of; simpl.
  destruct (decide (j = i)) as [->|].
  - rewrite lookup_insert_eq, Ha. simpl. by rewrite Hf.
  - by rewrite lookup_insert_ne.
Qed.

(** The effect of [_transfer_text] on two distinct text objects. *)
Lemma transfer_text_ok w src dest s d :
  src ≠ dest →
  title_of w src = Some s →
  title_of w dest = Some d →
  ∃ w', _transfer_text src dest w = Ok (tt, w')
        ∧ without_titles w' = without_titles w
        ∧ ∀ r, title_of w' r =
               if decide (r = dest) then Some (received s d)
               else if decide (r = src) then Some (given s)
               else title_of w r.
Proof.
  intros Hne Hs Hd. unfold _transfer_text.
  step (get_title_ok _ _ _ Hs). step (get_title_ok _ _ _ Hs).
  destruct (modify_title_ok w dest d (set_color (t_color s)) Hd)
    as (w1 & E1 & F1 & T1).
  step E1.
  assert (Hs1 : title_of w1 src = Some s).
  { rewrite T1. by rewrite decide_False. }
  assert (Hd1 : title_of w1 dest = Some (set_color (t_color s) d)).
  { rewrite T1. by rewrite decide_True. }
  step (get_title_ok _ _ _ Hs1).
  destruct (modify_title_ok w1 dest _ (set_fontproperties (t_font s)) Hd1)
    as (w2 & E2 & F2 & T2).
  step E2. unfold received, given.
  destruct (blank (t_text s)) eqn:Hb.
  - exists w2. split; [done|]. split; [congruence|].
    intros r. rewrite T2, T1.
    destruct (decide (r = dest)); [done|].
    destruct (decide (r = src)) as [->|]; done.
  - assert (Hd2 : title_of w2 dest = Some
        (set_fontproperties (t_font s) (set_color (t_color s) d))).
    { rewrite T2. by rewrite decide_True. }
    destruct (modify_title_ok w2 dest _ (set_text (t_text s)) Hd2)
      as (w3 & E3 & F3 & T3).
    step E3.
    assert (Hs3 : title_of w3 src = Some s).
    { rewrite T3, decide_False, T2, decide_False by done. done. }
    destruct (modify_title_ok w3 src _ (set_text "") Hs3)
      as (w4 & E4 & F4 & T4).
    exists w4. split; [done|]. split; [congruence|].
    intros r. rewrite T4, T3, T2, T1.
    destruct (decide (r = src)) as [->|].
    + rewrite decide_False by done. done.
    + destruct (decide (r = dest)); done.
Qed.

(** C4 (as amended): for two distinct axes [A] and [B] and a slot name, if
    the slot of [A] holds a text [t] that is not blank, then
    [_transfer_text] from the slot of [A] to the slot of [B] leaves the slot
    of [A] with the empty text and the slot of [B] with exactly [t], the
    colour and the font properties of [A], and its own other properties. *)
Theorem transfer_text_moves_text (w : world) (A B : nat) (name : slot)
    (ta tb : text_obj) :
  A ≠ B →
  title_of w (A, name) = Some ta →
  title_of w (B, name) = Some tb →
  blank (t_text ta) = false →
  ∃ w', _transfer_text (A, name) (B, name) w = Ok (tt, w')
        ∧ title_of w' (A, name) = Some (set_text "" ta)
        ∧ title_of w' (B, name) =
            Some (set_text (t_text ta)
                    (set_fontproperties (t_font ta)
                       (set_color (t_color ta) tb))).
Proof.
  intros Hne Ha Hb Ht.
  destruct (transfer_text_ok w (A, name) (B, name) ta tb)
    as (w' & E & _ & T); [congruence|done|done|].
  exists w'. split; [done|]. rewrite !T.
  rewrite decide_False by congruence. rewrite !decide_True by done.
  unfold received, given. by rewrite Ht.
Qed.

Lemma transfer_text_moves_text_witness :
  ∃ w', _transfer_text (0, center_title) (1, center_title)
          (two_titles "Hello") = Ok (tt, w')
        ∧ title_of w' (0, center_title)
          = Some (set_color (VStr "red") (fresh_text false))
        ∧ title_of w' (1, center_title)
          = Some (set_text "Hello" (set_color (VStr "red") (fresh_text false))).
Proof.
  destruct (transfer_text_moves_text (two_titles "Hello") 0 1 center_title
              (set_color (VStr "red") (set_text "Hello" (fresh_text false)))
              (set_color (VStr "black") (set_text "B" (fresh_text false))))
    as (w' & E & TA & TB); [lia|reflexivity|reflexivity|reflexivity|].
  exists w'. split; [exact E|]. split; [exact TA|exact TB].
Defined.

(** C4, counterexample: a text of one space is neither cleared from the
    source nor written to the destination. *)
Lemma transfer_text_blank_stays :
  after (_transfer_text (0, center_title) (1, center_title) (two_titles " "))
    (λ w', (t_text <$> title_of w' (0, center_title),
            t_text <$> title_of w' (1, center_title)))
  = Ok (Some " ", Some "B").
Proof. vm_compute. reflexivity. Qed.

(** ** Arbitration of the outer titles *)

(** The transfers of [_above_title], one per name, between two axes. *)
Lemma transfer_names_ok (names : list slot) (i j : nat) :
  i ≠ j → NoDup names →
  ∀ w (S D : slot → text_obj),
    (∀ n, title_of w (i, n) = Some (S n)) →
    (∀ n, title_of w (j, n) = Some (D n)) →
    ∃ w', for_each names (λ name, _transfer_text (i, name) (j, name)) w
          = Ok (tt, w')
          ∧ without_titles w' = without_titles w
          ∧ ∀ k n, title_of w' (k, n) =
                   if decide (n ∈ names) then
                     if decide (k = j) then Some (received (S n) (D n))
                     else if decide (k = i) then Some (given (S n))
                     else title_of w (k, n)
                   else title_of w (k, n).
Proof.
  intros Hij. induction names as [|n0 names IH]; intros Hnd w S D HS HD.
  - exists w. split; [done|]. split; [done|]. intros k n.
    rewrite decide_False; [done|]. apply not_elem_of_nil.
  - inversion_clear Hnd as [|? ? Hn0 Hnd']. simpl.
    destruct (transfer_text_ok w (i, n0) (j, n0) (S n0) (D n0))
      as (w1 & E1 & F1 & T1); [congruence|done|done|].
    step E1.
    destruct (IH Hnd' w1 (<[n0 := given (S n0)]> S)
                (<[n0 := received (S n0) (D n0)]> D))
      as (w' & E & F & T).
    + intros n. rewrite T1. rewrite decide_False by congruence.
      destruct (decide (n = n0)) as [->|].
      * rewrite decide_True by done. by rewrite fn_lookup_insert.
      * rewrite decide_False by congruence.
        by rewrite fn_lookup_insert_ne.
    + intros n. rewrite T1.
      destruct (decide (n = n0)) as [->|].
      * rewrite decide_True by done. by rewrite fn_lookup_insert.
      * rewrite 2!decide_False by congruence.
        by rewrite fn_lookup_insert_ne.
    + exists w'. split; [done|]. split; [congruence|].
      intros k n. rewrite T, T1.
      destruct (decide (n = n0)) as [->|Hn].
      * rewrite (decide_False (P := n0 ∈ names)) by done.
        rewrite (decide_True (P := n0 ∈ n0 :: names))
          by (rewrite elem_of_cons; tauto).
        destruct (decide (k = j)) as [->|Hk].
        { by rewrite decide_True. }
        rewrite (decide_False (P := (k, n0) = (j, n0))) by congruence.
        destruct (decide (k = i)) as [->|Hk'].
        { by rewrite decide_True. }
        by rewrite decide_False by congruence.
      * rewrite !fn_lookup_insert_ne by done.
        rewrite (decide_False (P := (k, n) = (j, n0))) by congruence.
        rewrite (decide_False (P := (k, n) = (i, n0))) by congruence.
        destruct (decide (n ∈ names)) as [Hin|Hin].
        { rewrite (decide_True (P := n ∈ n0 :: names)); [done|].
          rewrite elem_of_cons. tauto. }
        rewrite (decide_False (P := n ∈ n0 :: names)); [done|].
        rewrite elem_of_cons. tauto.
Qed.

Lemma above_names_NoDup o : NoDup (above_names o).
Proof.
  unfold above_names.
  destruct o as [l|]; [destruct (is_outer l)|]; simpl;
    by apply (bool_decide_unpack _).
Qed.

(** The condition of [_above_title] is the rule of the specification. *)
Lemma arbitration_rule_code above hidden :
  is_True above || negb hidden && eq_str above "panels"
  = match arbitration_rule above hidden with
    | MainToPanel => true
    | PanelToMain => false
    end.
Proof.
  destruct above as [|b|q|s|d]; simpl.
  - by rewrite andb_false_r.
  - rewrite andb_false_r. by destruct b.
  - by rewrite andb_false_r.
  - unfold arbitration_rule.
    destruct (decide (s = "panels")) as [->|Hs].
    + rewrite bool_decide_eq_true_2 by done. by destruct hidden.
    + rewrite bool_decide_eq_false_2 by done. by rewrite andb_false_r.
  - by rewrite andb_false_r.
Qed.

(** The tuple [names] of the code holds the titles that the specification
    names, and no other. *)
Lemma above_names_arbitrated abc_loc name :
  name ∈ above_names abc_loc ↔ is_arbitrated abc_loc name = true.
Proof.
  unfold above_names.
  destruct abc_loc as [[]|], name; simpl;
    rewrite ?elem_of_cons, ?elem_of_nil; split; intros H;
    first [done | tauto | by repeat destruct H as [H|H]].
Qed.

Lemma decide_arbitrated {A} abc_loc name (x y : A) :
  (if decide (name ∈ above_names abc_loc) then x else y)
  = if is_arbitrated abc_loc name then x else y.
Proof.
  destruct (is_arbitrated abc_loc name) eqn:H.
  - by rewrite decide_True by (by apply above_names_arbitrated).
  - rewrite decide_False; [done|].
    rewrite above_names_arbitrated, H. done.
Qed.

(** C7: for a main axes whose stack of top panels is not empty, with [pax]
    its outermost top panel, [_above_title] transfers the titles 'left',
    'center' and 'right', and 'abc' when the a-b-c location is one of these
    three names, from the main axes to the panel when 'title.above' is
    [True] or when it is 'panels' and the panel is not hidden, and from the
    panel to the main axes otherwise: each of these titles of the receiver
    holds what [_transfer_text] delivers and each of these titles of the
    sender what it leaves, and every other title of the two axes is as
    before. *)
Theorem above_title_arbitration (w : world) (self pax : nat) (a p : axes) :
  store w !! self = Some a →
  store w !! pax = Some p →
  list.last (_panel_dict a STop) = Some pax →
  self ≠ pax →
  let '(src, dest) :=
    match arbitration_rule (_title_above a) (_panel_hidden p) with
    | MainToPanel => (self, pax)
    | PanelToMain => (pax, self)
    end in
  ∃ w', _above_title self w = Ok (tt, w')
        ∧ ∀ name s d,
            title_of w (src, name) = Some s →
            title_of w (dest, name) = Some d →
            if is_arbitrated (_abc_loc a) name then
              title_of w' (dest, name) = Some (received s d)
              ∧ title_of w' (src, name) = Some (given s)
            else
              title_of w' (dest, name) = Some d
              ∧ title_of w' (src, name) = Some s.
Proof.
  intros Ha Hp Hlast Hne.
  assert (Hgen : ∀ src dest as_ ad,
    src ≠ dest → store w !! src = Some as_ → store w !! dest = Some ad →
    ∃ w', (for_each (above_names (_abc_loc a))
             (λ name, _transfer_text (src, name) (dest, name)) ;;;
           s <- get_axes src ;;
           modify_axes dest (set_title_pad (_title_pad s)) ;;;
           s <- get_axes src ;;
           modify_axes dest (set_abc_title_pad (_abc_title_pad s))) w
          = Ok (tt, w')
        ∧ ∀ name s d,
            title_of w (src, name) = Some s →
            title_of w (dest, name) = Some d →
            if is_arbitrated (_abc_loc a) name then
              title_of w' (dest, name) = Some (received s d)
              ∧ title_of w' (src, name) = Some (given s)
            else
              title_of w' (dest, name) = Some d
              ∧ title_of w' (src, name) = Some s).
  { intros src dest as_ ad Hsd Hs Hd.
    destruct (transfer_names_ok (above_names (_abc_loc a)) src dest Hsd
                (above_names_NoDup _) w (_title_dict as_) (_title_dict ad))
      as (w1 & E1 & F1 & T1).
    { intros n. by apply title_of_store. }
    { intros n. by apply title_of_store. }
    step E1.
    assert (∀ w0 i n t, title_of w0 (i, n) = Some t →
              ∃ b, store w0 !! i = Some b) as Hpresent.
    { intros w0 i n t (b & Hb & _)%title_of_inv. eauto. }
    assert (∀ i b, store w !! i = Some b → ∃ b1, store w1 !! i = Some b1)
      as Hkeep.
    { intros i b Hb. apply (Hpresent w1 i center_title (
        if decide (center_title ∈ above_names (_abc_loc a)) then
          if decide (i = dest) then received (_title_dict as_ center_title)
                                      (_title_dict ad center_title)
          else if decide (i = src) then given (_title_dict as_ center_title)
          else _title_dict b center_title
        else _title_dict b center_title)).
      rewrite T1, (title_of_store _ _ _ _ Hb).
      repeat case_decide; done. }
    destruct (Hkeep _ _ Hs) as (s1 & Hs1).
    destruct (Hkeep _ _ Hd) as (d1 & Hd1).
    step (get_axes_ok _ _ _ Hs1).
    destruct (modify_axes_titles w1 dest d1 (set_title_pad (_title_pad s1)) Hd1)
      as (w2 & E2 & T2); [done|].
    step E2.
    destruct (Hpresent w2 src center_title (_title_dict s1 center_title))
      as (s2 & Hs2).
    { rewrite T2. by apply title_of_store. }
    destruct (Hpresent w2 dest center_title (_title_dict d1 center_title))
      as (d2 & Hd2).
    { rewrite T2. by apply title_of_store. }
    step (get_axes_ok _ _ _ Hs2).
    destruct (modify_axes_titles w2 dest d2
                (set_abc_title_pad (_abc_title_pad s2)) Hd2)
      as (w3 & E3 & T3); [done|].
    exists w3. split; [done|].
    intros name s d Hts Htd. rewrite !T3, !T2, !T1.
    rewrite (title_of_store _ _ _ _ Hs) in Hts.
    rewrite (title_of_store _ _ _ _ Hd) in Htd. simplify_eq.
    rewrite (decide_True (P := dest = dest)) by done.
    rewrite (decide_False (P := src = dest)) by done.
    rewrite (decide_True (P := src = src)) by done.
    rewrite !(title_of_store _ _ _ _ Hs), !(title_of_store _ _ _ _ Hd).
    rewrite <-(decide_arbitrated (_abc_loc a) name). case_decide; done. }
  unfold _above_title. step (get_axes_ok _ _ _ Ha). rewrite Hlast.
  step (get_axes_ok _ _ _ Hp). rewrite arbitration_rule_code.
  destruct (arbitration_rule (_title_above a) (_panel_hidden p)).
  - by apply (Hgen self pax a p).
  - by apply (Hgen pax self p a).
Qed.

Lemma above_title_arbitration_witness :
  ∃ w',
    _above_title 0 all_titles_with_top_panel = Ok (tt, w')
    ∧ (λ n, t_text <$> title_of w' (0, n))
        <$> [left_title; center_title; right_title; abc_title; upper_left]
      = [Some ""; Some ""; Some ""; Some ""; Some "In"]
    ∧ (λ n, t_text <$> title_of w' (1, n))
        <$> [left_title; center_title; right_title; abc_title; upper_left]
      = [Some "L"; Some "C"; Some "R"; Some "a"; Some ""].
Proof.
  destruct (above_title_arbitration all_titles_with_top_panel 0 1
              _ _ eq_refl eq_refl eq_refl ltac:(lia))
    as (w' & E & T).
  destruct (T left_title _ _ eq_refl eq_refl) as [Hlp Hlm].
  destruct (T center_title _ _ eq_refl eq_refl) as [Hcp Hcm].
  destruct (T right_title _ _ eq_refl eq_refl) as [Hrp Hrm].
  destruct (T abc_title _ _ eq_refl eq_refl) as [Hap Ham].
  destruct (T upper_left _ _ eq_refl eq_refl) as [Hup Hum].
  exists w'. split; [exact E|]. simpl.
  rewrite Hlm, Hcm, Hrm, Ham, Hum, Hlp, Hcp, Hrp, Hap, Hup.
  split; reflexivity.
Defined.

(** ** Hiding a panel *)

(** The attributes of a panel after [_hide_panel]. *)
Lemma hide_panel_ok w pax p :
  store w !! pax = Some p →
  _hide_panel pax w
  = Ok (tt, set_store
              (<[pax :=
                   set_panel_hidden true
                     (set_patch_facecolor (VStr "none")
                        (set_patch_alpha (VNum 0%Q)
                           (set_yaxis_visible false
                              (set_xaxis_visible false
                                 (set_spines
                                    (map (λ kv, (kv.1, false)) (spines p))
                                    p)))))]> (store w)) w).
Proof.
  intros Hp. unfold _hide_panel, bind, modify_axes. rewrite Hp. simpl.
  repeat (rewrite lookup_insert_eq; simpl).
  unfold set_store. simpl. by rewrite !insert_insert_eq.
Qed.

(** C9: [_hide_panel] sets the hidden flag of the panel, makes every spine
    and the x and y axis invisible and gives the background patch the
    opacity zero (with the face colour 'none').  Nothing else changes: the
    panel keeps its title dictionary, its place in the grid, its side, its
    parent and its visibility; every other axes, hence the stack of the
    parent with the panel at its position, is as before. *)
Theorem hide_panel_frame (w : world) (pax : nat) (p : axes) :
  store w !! pax = Some p →
  ∃ w' p',
    _hide_panel pax w = Ok (tt, w')
    ∧ store w' !! pax = Some p'
    ∧ _panel_hidden p' = true
    ∧ (spines p').*1 = (spines p).*1
    ∧ (∀ v, v ∈ (spines p').*2 → v = false)
    ∧ xaxis_visible p' = false
    ∧ yaxis_visible p' = false
    ∧ patch_alpha p' = VNum 0%Q
    ∧ patch_facecolor p' = VStr "none"
    ∧ set_panel_hidden (_panel_hidden p)
        (set_patch_facecolor (patch_facecolor p)
           (set_patch_alpha (patch_alpha p)
              (set_yaxis_visible (yaxis_visible p)
                 (set_xaxis_visible (xaxis_visible p)
                    (set_spines (spines p) p'))))) = p
    ∧ (∀ i, i ≠ pax → store w' !! i = store w !! i)
    ∧ subplots w' = subplots w
    ∧ removed w' = removed w
    ∧ share_calls w' = share_calls w.
Proof.
  intros Hp. rewrite (hide_panel_ok _ _ _ Hp).
  eexists _, _. split; [done|]. simpl. rewrite lookup_insert_eq.
  split; [done|]. simpl.
  split; [done|]. split.
  { rewrite <-!list_fmap_compose. by apply list_fmap_ext. }
  split.
  { intros v. rewrite <-list_fmap_compose. intros (x & -> & _)%list_elem_of_fmap.
    done. }
  repeat (split; [done|]). split; [by destruct p|].
  split; [|done]. intros i Hi. by rewrite lookup_insert_ne.
Qed.

Lemma hide_panel_frame_witness :
  ∃ w' p',
    _hide_panel 1 (main_with_top_panel (VBool true) false) = Ok (tt, w')
    ∧ store w' !! 1 = Some p'
    ∧ _panel_hidden p' = true
    ∧ t_text (_title_dict p' center_title) = "Panel"
    ∧ _panel_dict <$> store w' !! 0 = Some (<[STop := [1]]> (λ _, [])).
Proof.
  destruct (hide_panel_frame (main_with_top_panel (VBool true) false) 1 _
              eq_refl)
    as (w' & p' & E & Hp' & Hh & _ & _ & _ & _ & _ & _ & Hframe & Ho & _).
  exists w', p'. split; [exact E|]. split; [exact Hp'|].
  split; [exact Hh|]. split.
  - exact (f_equal (λ a, t_text (_title_dict a center_title)) Hframe).
  - rewrite (Ho 0) by lia. reflexivity.
Defined.

(** ** Updating a title *)

Lemma bind_modify_axes {B} w i a f (k : unit → M B) :
  store w !! i = Some a →
  bind (modify_axes i f) k w = k tt (set_store (<[i := f a]> (store w)) w).
Proof. intros H. by rewrite (bind_ok _ _ _ _ _ (modify_axes_ok _ _ _ f H)). Qed.

Lemma bind_get_axes {B} w i a (k : axes → M B) :
  store w !! i = Some a → bind (get_axes i) k w = k a w.
Proof. intros H. by rewrite (bind_ok _ _ _ _ _ (get_axes_ok _ _ _ H)). Qed.

Lemma store_set_store s w : store (set_store s w) = s.
Proof. done. Qed.

Lemma Text_update_ok (props kw : kwargs) (t0 t : text_obj) :
  (∀ key, key ∈ "text" :: style_keys → props !! key = kw !! key) →
  t_text t0 = t_text t →
  (∀ v, kw !! "text" = Some v → is_Some (text_of_pyval v)) →
  ∃ t', Text_update props t0 = Ok t'
        ∧ t_text t' = updated_text kw (t_text t)
        ∧ ∀ key v, key ∈ style_keys → kw !! key = Some v →
                   style_of t' key = v.
Proof.
  intros Hsame Ht0 Htext. unfold Text_update, updated_text.
  assert (∀ t1 key v, key ∈ style_keys → kw !! key = Some v →
    style_of
      (set_props (dict_update (t_props t0)
                    (filter (λ kv, kv.1 ∉ core_keys) props))
         (set_fontproperties
            (FontProps (default (fp_family (t_font t0)) (props !! "family"))
               (default (fp_size (t_font t0)) (props !! "size"))
               (default (fp_weight (t_font t0)) (props !! "weight")))
            (set_color (default (t_color t0) (props !! "color")) t1))) key = v)
    as Hstyle.
  { intros t1 key v Hkey Hv.
    rewrite <-Hsame in Hv by (rewrite elem_of_cons; tauto).
    unfold style_keys in Hkey. rewrite !elem_of_cons, elem_of_nil in Hkey.
    destruct Hkey as [->|[->|[->|[->|[]]]]]; unfold style_of; simpl;
      by rewrite Hv. }
  rewrite (Hsame "text") by (rewrite elem_of_cons; tauto).
  destruct (kw !! "text") as [v|] eqn:Hv.
  - destruct (Htext v eq_refl) as [s Hs]. rewrite Hs. simpl.
    eexists; split; [done|]. split; [done|].
    intros key v' Hkey Hv'. apply (Hstyle t0 key v' Hkey Hv').
  - eexists; split; [done|]. split; [done|]. apply Hstyle.
Qed.

Lemma text_update_ok (pad : Q) (kw : kwargs) (t : text_obj) :
  (∀ v, kw !! "text" = Some v → is_Some (text_of_pyval v)) →
  ∃ t', text_update pad kw t = Ok t'
        ∧ t_text t' = updated_text kw (t_text t)
        ∧ ∀ key v, key ∈ style_keys → kw !! key = Some v →
                   style_of t' key = v.
Proof.
  intros Htext. unfold text_update.
  destruct (t_patched t); [|by apply Text_update_ok].
  unfold _update_text, dict_pop. simpl.
  repeat case_match; simplify_eq; (apply Text_update_ok; [|try done..]);
    try (intros key Hkey; unfold style_keys in Hkey;
         rewrite !elem_of_cons, elem_of_nil in Hkey;
         rewrite ?lookup_insert_ne, ?lookup_delete_ne;
         [done|intros <-; intuition discriminate..]).
Qed.

Lemma bind_lift_ok {A B} (x : A) (k : A → M B) w :
  bind (lift (Ok x)) k w = k x w.
Proof. done. Qed.

Lemma set_store_twice s s' w :
  set_store s (set_store s' w) = set_store s w.
Proof. done. Qed.

Lemma translate_slot_name loc : _translate_loc (slot_name loc) = Ok loc.
Proof. by destruct loc. Qed.

Lemma rc_fill_lookup_None rc props k :
  k ∉ props.*1 → rc_fill rc props !! k = None.
Proof.
  intros Hk. unfold rc_fill. apply not_elem_of_list_to_map_1.
  intros (kv & -> & Hin)%list_elem_of_fmap.
  apply list_elem_of_omap in Hin as (kn & Hkn & Hsome).
  destruct (rc_find rc kn.2); simplify_eq/=.
  apply Hk. apply list_elem_of_fmap. eauto.
Qed.

(** A step that assigns an attribute only when a setting is given. *)
Lemma bind_modify_if_set {B C} w i a0 a (o : option C) g (k : unit → M B) :
  store w = <[i := a]> (store a0) →
  bind (match o with
        | Some c => modify_axes i (g c)
        | None => ret tt
        end) k w
  = k tt (set_store
            (<[i := match o with Some c => g c a | None => a end]> (store a0))
            w).
Proof.
  intros Hw. destruct o as [c|].
  - rewrite (bind_modify_axes _ _ a) by (by rewrite Hw, lookup_insert_eq).
    by rewrite Hw, insert_insert_eq.
  - unfold bind, ret. f_equal. destruct w; simpl in *. by subst.
Qed.

(** *** The arbitration that ends an update *)

Lemma untitled_lookup w w' i :
  without_titles w' = without_titles w →
  untitled <$> (store w' !! i) = untitled <$> (store w !! i).
Proof.
  intros H. apply (f_equal store) in H. simpl in H.
  change (untitled <$> store w' = untitled <$> store w) in H.
  by rewrite <-!lookup_fmap, H.
Qed.

Lemma untitled_present w w' i b :
  without_titles w' = without_titles w →
  store w !! i = Some b →
  ∃ b', store w' !! i = Some b' ∧ untitled b' = untitled b.
Proof.
  intros H Hb. pose proof (untitled_lookup w w' i H) as Hl.
  rewrite Hb in Hl. destruct (store w' !! i) as [b'|]; [|done].
  exists b'. split; [done|]. simpl in Hl. congruence.
Qed.

Lemma title_of_insert_same w i b b' :
  store w !! i = Some b →
  _title_dict b' = _title_dict b →
  ∀ r, title_of (set_store (<[i := b']> (store w)) w) r = title_of w r.
Proof.
  intros Hb Ht [k n]. unfold title_of. simpl.
  destruct (decide (k = i)) as [->|].
  - rewrite lookup_insert_eq, Hb. simpl. by rewrite Ht.
  - by rewrite lookup_insert_ne.
Qed.

Lemma copy_pads_run w src dest s d :
  src ≠ dest →
  store w !! src = Some s →
  store w !! dest = Some d →
  bind (get_axes src)
    (λ s, bind (modify_axes dest (set_title_pad (_title_pad s)))
            (λ _, bind (get_axes src)
                    (λ s, modify_axes dest
                            (set_abc_title_pad (_abc_title_pad s))))) w
  = Ok (tt, set_store (<[dest := copy_pads s d]> (store w)) w).
Proof.
  intros Hne Hs Hd. step (get_axes_ok _ _ _ Hs).
  rewrite (bind_modify_axes _ _ _ _ _ Hd).
  erewrite bind_get_axes by (by rewrite store_set_store, lookup_insert_ne).
  erewrite modify_axes_ok by apply lookup_insert_eq.
  simpl. by rewrite insert_insert_eq.
Qed.

Lemma above_title_run w self pax a p :
  store w !! self = Some a →
  store w !! pax = Some p →
  list.last (_panel_dict a STop) = Some pax →
  self ≠ pax →
  ∃ src dest as_ ad w1 s1 d1,
    (src, dest)
    = (if is_True (_title_above a)
          || negb (_panel_hidden p) && eq_str (_title_above a) "panels"
       then (self, pax) else (pax, self))
    ∧ src ≠ dest
    ∧ store w !! src = Some as_
    ∧ store w !! dest = Some ad
    ∧ _above_title self w
      = Ok (tt, set_store (<[dest := copy_pads s1 d1]> (store w1)) w1)
    ∧ without_titles w1 = without_titles w
    ∧ store w1 !! src = Some s1
    ∧ store w1 !! dest = Some d1
    ∧ untitled s1 = untitled as_
    ∧ untitled d1 = untitled ad
    ∧ ∀ k n, title_of w1 (k, n) =
             if decide (n ∈ above_names (_abc_loc a)) then
               if decide (k = dest)
               then Some (received (_title_dict as_ n) (_title_dict ad n))
               else if decide (k = src) then Some (given (_title_dict as_ n))
               else title_of w (k, n)
             else title_of w (k, n).
Proof.
  intros Ha Hp Hlast Hne.
  assert (∀ src dest as_ ad,
    src ≠ dest → store w !! src = Some as_ → store w !! dest = Some ad →
    ∃ w1 s1 d1,
      bind (for_each (above_names (_abc_loc a))
              (λ name, _transfer_text (src, name) (dest, name)))
        (λ _, bind (get_axes src)
           (λ s, bind (modify_axes dest (set_title_pad (_title_pad s)))
              (λ _, bind (get_axes src)
                 (λ s, modify_axes dest
                         (set_abc_title_pad (_abc_title_pad s)))))) w
      = Ok (tt, set_store (<[dest := copy_pads s1 d1]> (store w1)) w1)
      ∧ without_titles w1 = without_titles w
      ∧ store w1 !! src = Some s1
      ∧ store w1 !! dest = Some d1
      ∧ untitled s1 = untitled as_
      ∧ untitled d1 = untitled ad
      ∧ ∀ k n, title_of w1 (k, n) =
               if decide (n ∈ above_names (_abc_loc a)) then
                 if decide (k = dest)
                 then Some (received (_title_dict as_ n) (_title_dict ad n))
                 else if decide (k = src) then Some (given (_title_dict as_ n))
                 else title_of w (k, n)
               else title_of w (k, n)) as Hgen.
  { intros src dest as_ ad Hsd Hs Hd.
    destruct (transfer_names_ok (above_names (_abc_loc a)) src dest Hsd
                (above_names_NoDup _) w (_title_dict as_) (_title_dict ad))
      as (w1 & E1 & F1 & T1).
    { intros n. by apply title_of_store. }
    { intros n. by apply title_of_store. }
    destruct (untitled_present w w1 src as_ F1 Hs) as (s1 & Hs1 & Hus).
    destruct (untitled_present w w1 dest ad F1 Hd) as (d1 & Hd1 & Hud).
    exists w1, s1, d1. step E1.
    split; [by apply copy_pads_run|]. done. }
  unfold _above_title. step (get_axes_ok _ _ _ Ha). rewrite Hlast.
  step (get_axes_ok _ _ _ Hp).
  destruct (is_True (_title_above a)
            || negb (_panel_hidden p) && eq_str (_title_above a) "panels").
  - destruct (Hgen self pax a p Hne Ha Hp) as (w1 & s1 & d1 & H).
    exists self, pax, a, p, w1, s1, d1. by repeat (split; [done|]).
  - destruct (Hgen pax self p a (not_eq_sym Hne) Hp Ha) as (w1 & s1 & d1 & H).
    exists pax, self, p, a, w1, s1, d1.
    split; [done|]. split; [by apply not_eq_sym|]. by repeat (split; [done|]).
Qed.

Lemma untitled_attributes a b :
  untitled a = untitled b →
  _panel_dict a = _panel_dict b
  ∧ _title_above a = _title_above b
  ∧ _abc_loc a = _abc_loc b
  ∧ _panel_hidden a = _panel_hidden b.
Proof.
  intros H.
  split; [exact (f_equal _panel_dict H)|].
  split; [exact (f_equal _title_above H)|].
  split; [exact (f_equal _abc_loc H)|].
  exact (f_equal _panel_hidden H).
Qed.

(** The end of [_update_title] and of [_update_abc]: the update of the
    title [name] with the properties [kw], and the arbitration with the
    outermost top panel that follows it. *)
Lemma update_then_above w self a name kw :
  store w !! self = Some a →
  (∀ v, kw !! "text" = Some v → is_Some (text_of_pyval v)) →
  (∀ pax, list.last (_panel_dict a STop) = Some pax →
          pax ≠ self ∧ is_Some (store w !! pax)) →
  ∃ w' a' t',
    bind (update_title_obj (self, name) kw) (λ _, _above_title self) w
    = Ok (tt, w')
    ∧ store w' !! self = Some a'
    ∧ t_text t' = updated_text kw (t_text (_title_dict a name))
    ∧ (∀ key v, key ∈ style_keys → kw !! key = Some v →
                style_of t' key = v)
    ∧ _title_dict a' name
      = settled_title (top_panel w a) (_title_above a) (_abc_loc a) name t'
    ∧ ∀ pax p, top_panel w a = Some (pax, p) →
               title_of w' (pax, name)
               = Some (settled_panel_title p (_title_above a) (_abc_loc a)
                         name t').
Proof.
  intros Ha Htext Htop.
  destruct (text_update_ok (_title_pad a) kw (_title_dict a name) Htext)
    as (t' & E & Ht' & Hs').
  unfold update_title_obj. rewrite !bind_assoc. simpl.
  step (get_axes_ok _ _ _ Ha). rewrite bind_assoc, E, bind_lift_ok.
  destruct (modify_title_ok w (self, name) (_title_dict a name) (λ _, t'))
    as (w4 & E4 & F4 & T4).
  { by apply title_of_store. }
  simpl in E4. step E4.
  destruct (untitled_present w w4 self a F4 Ha) as (a4 & Ha4 & Hu4).
  destruct (untitled_attributes _ _ Hu4) as (Hpd & Hab & Hal & _).
  assert (_title_dict a4 name = t') as Ht4.
  { pose proof (T4 (self, name)) as H. rewrite decide_True in H by done.
    rewrite (title_of_store _ _ _ _ Ha4) in H. by injection H. }
  unfold top_panel.
  destruct (list.last (_panel_dict a STop)) as [pax|] eqn:Hlast.
  - destruct (Htop pax eq_refl) as [Hne [p Hp]]. rewrite Hp.
    destruct (untitled_present w w4 pax p F4 Hp) as (p4 & Hp4 & Hup).
    destruct (untitled_attributes _ _ Hup) as (_ & _ & _ & Hph).
    assert (∀ n, _title_dict p4 n = _title_dict p n) as Htp.
    { intros n. pose proof (T4 (pax, n)) as H.
      rewrite decide_False in H by (intros [= ? _]; done).
      rewrite (title_of_store _ _ _ _ Hp4), (title_of_store _ _ _ _ Hp) in H.
      by injection H. }
    destruct (above_title_run w4 self pax a4 p4 Ha4 Hp4)
      as (src & dest & as_ & ad & w1 & s1 & d1 & Hsd & Hne' & Hs & Hd & Erun
          & F1 & Hs1 & Hd1 & Hus & Hud & T1); [by rewrite Hpd|done|].
    rewrite arbitration_rule_code, Hab, Hph in Hsd. rewrite Hal in T1.
    set (wf := set_store (<[dest := copy_pads s1 d1]> (store w1)) w1) in *.
    assert (∀ r, title_of wf r = title_of w1 r) as Hsame.
    { by apply (title_of_insert_same w1 dest d1). }
    destruct (arbitration_rule (_title_above a) (_panel_hidden p)) eqn:Hrule;
      injection Hsd as -> ->.
    + (* from the axes to the panel *)
      assert (as_ = a4) as -> by congruence.
      assert (ad = p4) as -> by congruence.
      exists wf, s1, t'. split; [exact Erun|]. split.
      { unfold wf. by rewrite store_set_store, lookup_insert_ne. }
      split; [done|]. split; [done|].
      pose proof (title_of_store _ _ name _ Hs1) as Hself.
      pose proof (T1 self name) as Hself'. rewrite Hself in Hself'.
      rewrite (decide_False (P := self = pax)),
        (decide_True (P := self = self)) in Hself' by done.
      rewrite (title_of_store _ _ _ _ Hs) in Hself'.
      unfold settled_title, settled_panel_title. rewrite Hrule. split.
      * rewrite <-(decide_arbitrated (_abc_loc a) name).
        case_decide; injection Hself' as ->; by rewrite ?Ht4.
      * intros pax' p' [= <- <-]. rewrite Hsame, T1.
        rewrite <-(decide_arbitrated (_abc_loc a) name).
        rewrite (decide_True (P := pax = pax)) by done. rewrite Hrule.
        case_decide; [by rewrite Ht4, Htp|].
        by rewrite (title_of_store _ _ _ _ Hd), Htp.
    + (* from the panel to the axes *)
      assert (as_ = p4) as -> by congruence.
      assert (ad = a4) as -> by congruence.
      exists wf, (copy_pads s1 d1), t'. split; [exact Erun|]. split.
      { unfold wf. by rewrite store_set_store, lookup_insert_eq. }
      split; [done|]. split; [done|].
      pose proof (title_of_store _ _ name _ Hd1) as Hself.
      pose proof (T1 self name) as Hself'. rewrite Hself in Hself'.
      rewrite (decide_True (P := self = self)) in Hself' by done.
      rewrite (title_of_store _ _ _ _ Hd) in Hself'.
      unfold settled_title, settled_panel_title. rewrite Hrule. split.
      * change (_title_dict (copy_pads s1 d1) name) with (_title_dict d1 name).
        rewrite <-(decide_arbitrated (_abc_loc a) name).
        case_decide; injection Hself' as ->; by rewrite ?Ht4, ?Htp.
      * intros pax' p' [= <- <-]. rewrite Hsame, T1.
        rewrite <-(decide_arbitrated (_abc_loc a) name).
        rewrite (decide_False (P := pax = self)),
          (decide_True (P := pax = pax)) by done. rewrite Hrule.
        case_decide; [by rewrite Htp|].
        by rewrite (title_of_store _ _ _ _ Hs), Htp.
  - assert (_above_title self w4 = Ok (tt, w4)) as ->.
    { unfold _above_title. step (get_axes_ok _ _ _ Ha4).
      by rewrite Hpd, Hlast. }
    exists w4, a4, t'. split; [done|]. split; [done|]. split; [done|].
    split; [done|]. split; [done|]. intros ? ? [=].
Qed.

Lemma top_panel_insert w self a a3 :
  _panel_dict a3 = _panel_dict a →
  (∀ pax, list.last (_panel_dict a STop) = Some pax → pax ≠ self) →
  top_panel (set_store (<[self := a3]> (store w)) w) a3 = top_panel w a.
Proof.
  intros Hpd Hne. unfold top_panel. rewrite Hpd.
  destruct (list.last (_panel_dict a STop)) as [pax|] eqn:Hlast; [|done].
  by rewrite store_set_store, lookup_insert_ne
    by (apply not_eq_sym, Hne; done).
Qed.

(** C6 (as amended): [_update_title] at a slot name, with style overrides
    that hold no 'text' (the stored border settings hold none either, and
    the outermost top panel, if there is one, is another axes of the
    figure), first gives the title of the slot the text that it had when
    the text argument is [None], the text argument otherwise, and the
    colour and the font properties among the overrides: this is [t'].  On
    an axes without top panel, and for a slot that is none of 'left',
    'center' and 'right' (nor 'abc' with the a-b-c location at one of
    these), the slot holds [t'] when the call returns.  Otherwise the title
    and the same title of the outermost top panel are arbitrated at the end
    of the call: when titles go to the panel, the slot gives its text, if
    that is not blank, with its colour and its font to the panel, and is
    left empty; when they go to the axes, the slot receives the colour and
    the font of the title of the panel, and its text if that is not
    blank. *)
Theorem update_title_keeps_text (rc : rc_context) (w : world) (self : nat)
    (a : axes) (loc : slot) (title : option string) (kwargs : kwargs) :
  store w !! self = Some a →
  kwargs !! "text" = None →
  _title_border_kwargs a !! "text" = None →
  (∀ pax, list.last (_panel_dict a STop) = Some pax →
          pax ≠ self ∧ is_Some (store w !! pax)) →
  ∃ w' a' t',
    _update_title rc self (Some (slot_name loc)) title kwargs w = Ok (tt, w')
    ∧ store w' !! self = Some a'
    ∧ t_text t' = default (t_text (_title_dict a loc)) title
    ∧ (∀ key v, key ∈ style_keys → kwargs !! key = Some v →
                style_of t' key = v)
    ∧ (top_panel w a = None ∨ is_arbitrated (_abc_loc a) loc = false →
       _title_dict a' loc = t')
    ∧ _title_dict a' loc
      = settled_title (top_panel w a) (_title_above a) (_abc_loc a) loc t'
    ∧ ∀ pax p, top_panel w a = Some (pax, p) →
               title_of w' (pax, loc)
               = Some (settled_panel_title p (_title_above a) (_abc_loc a)
                         loc t').
Proof.
  intros Ha Hkw Hborder Htop.
  remember (_update_title rc self (Some (slot_name loc)) title kwargs w)
    as run eqn:Hrun.
  unfold _update_title in Hrun.
  set (kw0 := match rc_fill rc _ !! "color" with
              | Some c => _ | None => _ end) in Hrun.
  set (kwb := rc_fill rc [("border", _); _; _; _; _; _; _]) in Hrun.
  assert (kw0 !! "text" = None) as Hkw0.
  { unfold kw0.
    destruct (rc_fill rc _ !! "color") as [c|]; [destruct (eq_str c "auto")|];
      rewrite ?lookup_delete_ne by done;
      apply rc_fill_lookup_None; simpl;
      rewrite ?elem_of_cons, elem_of_nil; intuition discriminate. }
  assert (kwb !! "text" = None) as Hkwb.
  { apply rc_fill_lookup_None; simpl;
      rewrite ?elem_of_cons, elem_of_nil; intuition discriminate. }
  rewrite (bind_modify_axes _ _ _ _ _ Ha) in Hrun.
  erewrite (bind_modify_if_set _ self w) in Hrun by done.
  erewrite (bind_modify_if_set _ self w) in Hrun by done.
  rewrite translate_slot_name, bind_lift_ok, !set_store_twice in Hrun.
  match type of Hrun with
  | context [set_store (<[self := ?x]> (store w)) w] =>
      set (a3 := x) in Hrun;
      set (w3 := set_store (<[self := a3]> (store w)) w) in Hrun
  end.
  assert (store w3 !! self = Some a3) as Hw3 by apply lookup_insert_eq.
  assert (untitled a3 = untitled
            (set_title_border_kwargs (_title_border_kwargs a3)
               (set_abc_title_pad (_abc_title_pad a3)
                  (set_title_pad (_title_pad a3) a)))) as Hsame.
  { unfold a3. by destruct (rc_title_pad rc), (rc_abc_titlepad rc). }
  destruct (untitled_attributes _ _ Hsame) as (Hpd & Hab & Hal & _).
  simpl in Hpd, Hab, Hal.
  assert (_title_dict a3 = _title_dict a) as Htd.
  { unfold a3. by destruct (rc_title_pad rc), (rc_abc_titlepad rc). }
  assert (_title_border_kwargs a3 !! "text" = None) as Hb3.
  { assert (_title_border_kwargs a3 = dict_update (_title_border_kwargs a) kwb)
      as ->.
    { unfold a3. by destruct (rc_title_pad rc), (rc_abc_titlepad rc). }
    unfold dict_update. rewrite lookup_union_None. done. }
  assert (top_panel w3 a3 = top_panel w a) as Htp.
  { apply top_panel_insert; [done|]. intros pax Hpax. by apply Htop. }
  assert (∀ pax, list.last (_panel_dict a3 STop) = Some pax →
                 pax ≠ self ∧ is_Some (store w3 !! pax)) as Htop3.
  { intros pax Hpax. rewrite Hpd in Hpax.
    destruct (Htop pax Hpax) as [Hne Hp]. split; [done|].
    unfold w3. by rewrite store_set_store, lookup_insert_ne. }
  clearbody w3 a3 kw0 kwb.
  step_in Hrun (get_axes_ok _ _ _ Hw3).
  set (kw := dict_update _ kwargs) in Hrun.
  assert (kw !! "text" = VStr <$> title) as Htext.
  { unfold kw, dict_update. rewrite lookup_union_r by done.
    destruct title as [t|]; simpl.
    - by rewrite lookup_insert_eq.
    - destruct (is_outer loc); [done|].
      rewrite lookup_union_None. done. }
  destruct (update_then_above w3 self a3 loc kw Hw3)
    as (w' & a' & t' & E & Ha' & Ht' & Hs' & Hself & Hpanel); [|done|].
  { intros v. rewrite Htext. destruct title; intros; simplify_eq/=. eauto. }
  rewrite Htp, Hab, Hal in Hself, Hpanel.
  exists w', a', t'. split; [by rewrite Hrun|]. split; [done|]. split.
  { rewrite Ht'. unfold updated_text. rewrite Htext, Htd. by destruct title. }
  split.
  { intros key v Hkey Hv. apply Hs'; [done|].
    unfold kw, dict_update. by apply lookup_union_Some_l. }
  split; [|done].
  intros [Hnone|Hinner]; rewrite Hself; unfold settled_title.
  - by rewrite Hnone.
  - rewrite Hinner. by destruct (top_panel w a) as [[]|].
Qed.

Lemma update_title_keeps_text_witness :
  ∃ w' a',
    _update_title no_rc 0 (Some "upper left") None {["color" := VStr "green"]}
      all_titles_with_top_panel = Ok (tt, w')
    ∧ store w' !! 0 = Some a'
    ∧ t_text (_title_dict a' upper_left) = "In"
    ∧ t_color (_title_dict a' upper_left) = VStr "green".
Proof.
  destruct (update_title_keeps_text no_rc all_titles_with_top_panel 0 _
              upper_left None {["color" := VStr "green"]} eq_refl)
    as (w' & a' & t' & E & Ha' & Ht & Hs & Hkept & _).
  - reflexivity.
  - reflexivity.
  - intros pax [= <-]. split; [lia|by eexists].
  - exists w', a'. split; [exact E|]. split; [exact Ha'|].
    rewrite (Hkept (or_intror eq_refl)). split; [exact Ht|].
    apply (Hs "color" (VStr "green")); [|reflexivity].
    unfold style_keys. rewrite elem_of_cons. by left.
Defined.

(** C6, counterexample: on a subplot with a top panel and 'title.above'
    set, an update of the colour alone empties the centre title of the
    subplot: its text goes to the panel. *)
Lemma update_title_text_moves_to_panel :
  after (_update_title no_rc 0 (Some "center") None
           {["color" := VStr "green"]}
           (main_with_top_panel (VBool true) false))
    (λ w', (t_text <$> title_of w' (0, center_title),
            t_text <$> title_of w' (1, center_title)))
  = Ok (Some "", Some "Hello").
Proof. vm_compute. reflexivity. Qed.

(** ** The guide registry *)

Lemma pydict_get_set_eq {V} k (v : V) d :
  pydict_get k (pydict_set k v d) = Some v.
Proof.
  induction d as [|[k' v'] d IH]; simpl.
  - by rewrite decide_True.
  - destruct (decide (k' = k)) as [->|Hk]; simpl.
    + by rewrite decide_True.
    + by rewrite decide_False.
Qed.

Lemma pydict_get_None {V} k (d : pydict V) :
  pydict_get k d = None ↔ k ∉ d.*1.
Proof.
  induction d as [|[k' v'] d IH]; simpl.
  - split; [intros _; apply not_elem_of_nil|done].
  - rewrite not_elem_of_cons. destruct (decide (k' = k)) as [->|Hk].
    + split; [done|]. by intros [[] _].
    + rewrite IH. split; [by intros ?|by intros [_ ?]].
Qed.


(** In a dictionary, whose keys are distinct, a popped key is gone. *)
Lemma pydict_get_del {V} k (d : pydict V) :
  NoDup d.*1 → pydict_get k (pydict_del k d) = None.
Proof.
  induction d as [|[k' v'] d IH]; simpl; [done|].
  intros Hnd. inversion_clear Hnd as [|? ? Hk' Hd].
  destruct (decide (k' = k)) as [->|Hk]; simpl.
  - by apply pydict_get_None.
  - rewrite decide_False by done. by apply IH.
Qed.


(** A new key goes to the end. *)
Lemma pydict_set_fresh {V} k (v : V) d :
  pydict_get k d = None → pydict_set k v d = (d ++ [(k, v)])%list.
Proof.
  induction d as [|[k' v'] d IH]; simpl; [done|].
  destruct (decide (k' = k)); [done|]. intros ?. by rewrite IH.
Qed.

Lemma pydict_del_Forall {V} (P : string * V → Prop) k d :
  Forall P d → Forall P (pydict_del k d).
Proof.
  induction 1 as [|[k' v'] d HP Hd IH]; simpl; [done|].
  destruct (decide (k' = k)); [done|]. by constructor.
Qed.


(** C3 (as amended): when the key of a location holds a drawn object
    [old], [_add_guide] first retires it and then files the new entry at the
    key, which thereby moves to the end of the registry.  A legend that is
    not the legend attached to the axes as [legend_] is retired by one call
    of its [remove]; the attached legend is retired by clearing [legend_],
    with no call of [remove]; a colorbar is dropped from the registry with
    no call of [remove]. *)
Theorem add_guide_retires_drawn (w : world) (self : nat) (a : axes)
    (guide loc key : string) (obj : payload) (kw : kwargs) (old : artist) :
  store w !! self = Some a →
  guide ∈ ["legend"; "colorbar"] →
  fill_loc a loc = Some key →
  NoDup (guide_dict guide a).*1 →
  pydict_get key (guide_dict guide a) = Some (Drawn old) →
  obj ≠ Objs [] →
  ∃ w' a',
    _add_guide self guide obj loc kw w = Ok (tt, w')
    ∧ store w' !! self = Some a'
    ∧ guide_dict guide a'
      = (pydict_del key (guide_dict guide a) ++ [(key, new_entry obj kw)])%list
    ∧ removed w'
      = (if decide (guide = "legend" ∧ legend_ a ≠ Some (art_id old))
         then art_id old :: removed w else removed w)
    ∧ legend_ a'
      = (if decide (guide = "legend" ∧ legend_ a = Some (art_id old))
         then None else legend_ a).
Proof.
  intros Ha Hguide Hloc Hnd Hold Hobj.
  remember (_add_guide self guide obj loc kw w) as run eqn:Hrun.
  unfold _add_guide in Hrun.
  rewrite bool_decide_eq_false_2 in Hrun by (by intros []).
  step_in Hrun (get_axes_ok _ _ _ Ha). rewrite Hloc, Hold in Hrun.
  rewrite bind_assoc in Hrun.
  rewrite (bind_modify_axes _ _ _ _ _ Ha) in Hrun.
  set (d1 := pydict_del key (guide_dict guide a)) in Hrun.
  assert (pydict_get key d1 = None) as Hgone by (by apply pydict_get_del).
  set (a1 := set_guide_dict guide d1 a) in Hrun.
  assert (∃ w1 a2,
    (if decide (guide = "colorbar") then ret tt
     else if decide (legend_ a = Some (art_id old))
          then modify_axes self (set_legend_ None)
          else artist_remove old)
      (set_store (<[self := a1]> (store w)) w) = Ok (tt, w1)
    ∧ store w1 !! self = Some a2
    ∧ guide_dict guide a2 = d1
    ∧ (∀ e, guide_dict guide
              (set_guide_dict guide (pydict_set key e (guide_dict guide a2)) a2)
            = pydict_set key e d1
          ∧ legend_ (set_guide_dict guide
                       (pydict_set key e (guide_dict guide a2)) a2)
            = legend_ a2)
    ∧ removed w1
      = (if decide (guide = "legend" ∧ legend_ a ≠ Some (art_id old))
         then art_id old :: removed w else removed w)
    ∧ legend_ a2
      = (if decide (guide = "legend" ∧ legend_ a = Some (art_id old))
         then None else legend_ a)) as (w1 & a2 & E1 & Ha2 & Hd2 & Hset & Hr & Hl).
  { assert (∀ (P : Prop) `{Decision P} (x y z : list nat),
              (P → x = y) → (¬ P → x = z) →
              x = if decide P then y else z) as Hif.
    { intros P ? x y z ? ?. by destruct (decide P); auto. }
    assert (∀ (P : Prop) `{Decision P} (x y z : option nat),
              (P → x = y) → (¬ P → x = z) →
              x = if decide P then y else z) as Hif'.
    { intros P ? x y z ? ?. by destruct (decide P); auto. }
    rewrite !elem_of_cons, elem_of_nil in Hguide.
    destruct Hguide as [->|[->|[]]].
    - rewrite decide_False by done.
      destruct (decide (legend_ a = Some (art_id old))) as [Heq|Hne].
      + erewrite modify_axes_ok by apply lookup_insert_eq.
        eexists _, _. split; [done|].
        split; [apply lookup_insert_eq|]. split; [done|].
        split; [done|]. split.
        * apply Hif; [by intros [_ ?]|done].
        * apply Hif'; [done|]. intros Hn. destruct Hn. done.
      + eexists _, _. split; [done|].
        split; [apply lookup_insert_eq|]. split; [done|].
        split; [done|]. split.
        * apply Hif; [done|]. intros Hn. destruct Hn. done.
        * apply Hif'; [by intros [_ ?]|done].
    - rewrite decide_True by done.
      eexists _, _. split; [done|].
      split; [apply lookup_insert_eq|]. split; [done|].
      split; [done|]. split.
      + apply Hif; [by intros [? _]|done].
      + apply Hif'; [by intros [? _]|done]. }
  assert (d1 = pydict_del key (guide_dict guide a)) as Hd1 by done.
  clearbody a1 d1. step_in Hrun E1. step_in Hrun (get_axes_ok _ _ _ Ha2).
  rewrite Hd2 in Hrun.
  assert (run = Ok (tt, set_store
            (<[self := set_guide_dict guide
                         (pydict_set key (new_entry obj kw)
                            (guide_dict guide a2)) a2]> (store w1)) w1))
    as Hfin.
  { rewrite Hrun.
    destruct obj as [handles labels|o|[|o os]]; simpl.
    - rewrite Hgone. by rewrite (modify_axes_ok _ _ _ _ Ha2).
    - by rewrite (modify_axes_ok _ _ _ _ Ha2).
    - done.
    - by rewrite (modify_axes_ok _ _ _ _ Ha2). }
  rewrite Hfin. eexists _, _. split; [done|]. simpl.
  split; [apply lookup_insert_eq|].
  destruct (Hset (new_entry obj kw)) as [-> ->].
  split; [|done]. rewrite <-Hd1. by apply pydict_set_fresh.
Qed.

Lemma add_guide_retires_drawn_witness :
  ∃ w' a',
    _add_guide 0 "legend" (Obj (new_guide "legend")) "right" ∅
      (with_guide "legend") = Ok (tt, w')
    ∧ store w' !! 0 = Some a'
    ∧ _legend_dict a' = [("right", Drawn (new_guide "legend"))]
    ∧ removed w' = [7].
Proof.
  destruct (add_guide_retires_drawn (with_guide "legend") 0
              (set_guide_dict "legend"
                 [("right", Drawn (old_guide "legend"))]
                 (fresh_axes (Some (0, 0, 0, 0)%Z)))
              "legend" "right" "right" (Obj (new_guide "legend")) ∅
              (old_guide "legend"))
    as (w' & a' & E & Ha' & Hd & Hr & _);
    [reflexivity|by apply (bool_decide_unpack _)|reflexivity
    |by apply (bool_decide_unpack _)|reflexivity|discriminate|].
  exists w', a'. split; [exact E|]. split; [exact Ha'|].
  split; [exact Hd|exact Hr].
Defined.

(** C3, counterexample: a drawn colorbar is replaced with no call of its
    [remove]. *)
Lemma add_guide_colorbar_not_removed :
  after (_add_guide 0 "colorbar" (Obj (new_guide "colorbar")) "right" ∅
           (with_guide "colorbar"))
    (λ w', (removed w', _colorbar_dict <$> store w' !! 0))
  = Ok ([], Some [("right", Drawn (new_guide "colorbar"))]).
Proof. vm_compute. reflexivity. Qed.

(** ** Queueing and flushing *)

Lemma bind_ret_tt (m : M unit) w : bind m (λ _, ret tt) w = m w.
Proof. unfold bind, ret. by destruct (m w) as [[[] w']|e]. Qed.

Lemma for_each_app {A} (l1 l2 : list A) body w :
  for_each (l1 ++ l2) body w = bind (for_each l1 body) (λ _, for_each l2 body) w.
Proof.
  revert w. induction l1 as [|x l1 IH]; intros w; simpl; [done|].
  unfold bind. destruct (body x w) as [[[] w1]|e]; [|done].
  rewrite IH. done.
Qed.

Lemma for_each_skip {A} (l : list A) body w :
  Forall (λ x, body x = ret tt) l → for_each l body w = Ok (tt, w).
Proof.
  induction 1 as [|x l Hx Hl IH]; simpl; [done|].
  by rewrite Hx.
Qed.

Lemma pydict_del_absent {V} k (d : pydict V) :
  pydict_get k d = None → pydict_del k d = d.
Proof.
  induction d as [|[k' v'] d IH]; simpl; [done|].
  destruct (decide (k' = k)); [done|]. intros ?. by rewrite IH.
Qed.

Lemma pydict_get_app_last {V} k (v : V) d :
  pydict_get k d = None → pydict_get k (d ++ [(k, v)])%list = Some v.
Proof.
  induction d as [|[k' v'] d IH]; simpl.
  - by rewrite decide_True.
  - destruct (decide (k' = k)); [done|]. apply IH.
Qed.

Lemma pydict_set_app_last {V} k (v v' : V) d :
  pydict_get k d = None →
  pydict_set k v' (d ++ [(k, v)])%list = (d ++ [(k, v')])%list.
Proof.
  induction d as [|[k0 v0] d IH]; simpl.
  - by rewrite decide_True.
  - destruct (decide (k0 = k)); [done|]. intros ?. by rewrite IH.
Qed.

Lemma guide_dict_legend a : guide_dict "legend" a = _legend_dict a.
Proof. done. Qed.

Lemma set_guide_dict_legend d a :
  set_guide_dict "legend" d a = set_legend_dict d a.
Proof. done. Qed.

(** The first request queued at a key that is free or holds a drawn
    legend. *)
Lemma queue_first_ok w self a loc key handles labels kw :
  store w !! self = Some a →
  fill_loc a loc = Some key →
  NoDup (_legend_dict a).*1 →
  Forall (λ item, is_drawn item.2) (_legend_dict a) →
  ∃ w' a',
    _add_guide self "legend" (Pair (ArgList handles) (ArgList labels)) loc kw w
    = Ok (tt, w')
    ∧ store w' !! self = Some a'
    ∧ _legend_dict a'
      = (pydict_del key (_legend_dict a)
         ++ [(key, Queued handles labels (dict_update ∅ kw))])%list
    ∧ _colorbar_dict a' = _colorbar_dict a
    ∧ _panel_side a' = _panel_side a.
Proof.
  intros Ha Hloc Hnd Hdrawn.
  remember (_add_guide self "legend" _ loc kw w) as run eqn:Hrun.
  unfold _add_guide in Hrun.
  rewrite bool_decide_eq_false_2 in Hrun
    by (intros Hn; apply Hn; by apply (bool_decide_unpack _)).
  change (guide_dict "legend") with _legend_dict in Hrun.
  change (set_guide_dict "legend") with set_legend_dict in Hrun.
  step_in Hrun (get_axes_ok _ _ _ Ha). rewrite Hloc in Hrun.
  assert (pydict_get key (pydict_del key (_legend_dict a)) = None) as Hgone
    by (by apply pydict_get_del).
  destruct (pydict_get key (_legend_dict a)) as [e|] eqn:Hget.
  - assert (∃ old, e = Drawn old) as [old ->].
    { assert (is_drawn e) as He.
      { clear -Hget Hdrawn. induction Hdrawn as [|[k v] d Hv Hd IH];
          simpl in *; [done|].
        destruct (decide (k = key)); simplify_eq; auto. }
      destruct e; try done. eauto. }
    rewrite bind_assoc in Hrun.
    rewrite (bind_modify_axes _ _ _ _ _ Ha) in Hrun.
    rewrite decide_False in Hrun by done.
    destruct (decide (legend_ a = Some (art_id old))).
    + rewrite (bind_modify_axes _ _ (set_legend_dict _ a)) in Hrun
        by apply lookup_insert_eq.
      erewrite bind_get_axes in Hrun by apply lookup_insert_eq.
      simpl in Hrun. rewrite Hgone in Hrun.
      erewrite modify_axes_ok in Hrun by apply lookup_insert_eq.
      rewrite Hrun. eexists _, _. split; [done|].
      split; [apply lookup_insert_eq|]. simpl.
      split; [|done]. by apply pydict_set_fresh.
    + unfold artist_remove in Hrun. unfold bind at 1 in Hrun.
      erewrite bind_get_axes in Hrun by apply lookup_insert_eq.
      simpl in Hrun. rewrite Hgone in Hrun.
      erewrite modify_axes_ok in Hrun by apply lookup_insert_eq.
      rewrite Hrun. eexists _, _. split; [done|].
      split; [apply lookup_insert_eq|]. simpl.
      split; [|done]. by apply pydict_set_fresh.
  - unfold ret at 1, bind at 1 in Hrun.
    step_in Hrun (get_axes_ok _ _ _ Ha).
      simpl in Hrun. rewrite Hget in Hrun.
    rewrite (modify_axes_ok _ _ _ _ Ha) in Hrun.
    rewrite Hrun. eexists _, _. split; [done|].
    split; [apply lookup_insert_eq|]. simpl.
    split; [|done]. rewrite pydict_del_absent by done.
    by apply pydict_set_fresh.
Qed.

(** A further request at a key that holds a queue. *)
Lemma queue_more_ok w self a loc key hf lf kf handles labels kw :
  store w !! self = Some a →
  fill_loc a loc = Some key →
  pydict_get key (_legend_dict a) = Some (Queued hf lf kf) →
  ∃ w' a',
    _add_guide self "legend" (Pair (ArgList handles) (ArgList labels)) loc kw w
    = Ok (tt, w')
    ∧ store w' !! self = Some a'
    ∧ _legend_dict a'
      = pydict_set key
          (Queued (hf ++ handles) (lf ++ labels) (dict_update kf kw))
          (_legend_dict a)
    ∧ _colorbar_dict a' = _colorbar_dict a
    ∧ _panel_side a' = _panel_side a.
Proof.
  intros Ha Hloc Hget.
  remember (_add_guide self "legend" _ loc kw w) as run eqn:Hrun.
  unfold _add_guide in Hrun.
  rewrite bool_decide_eq_false_2 in Hrun
    by (intros Hn; apply Hn; by apply (bool_decide_unpack _)).
  change (guide_dict "legend") with _legend_dict in Hrun.
  change (set_guide_dict "legend") with set_legend_dict in Hrun.
  step_in Hrun (get_axes_ok _ _ _ Ha). rewrite Hloc in Hrun.
  rewrite Hget in Hrun. unfold ret at 1, bind at 1 in Hrun.
  step_in Hrun (get_axes_ok _ _ _ Ha).
  simpl in Hrun. rewrite Hget in Hrun.
  rewrite (modify_axes_ok _ _ _ _ Ha) in Hrun.
  rewrite Hrun. eexists _, _. split; [done|].
  split; [apply lookup_insert_eq|]. done.
Qed.

(** C5 (as amended): on an axes whose registries hold drawn objects only,
    and for a location other than 'fill' on an axes that is no panel (the
    key of 'fill' on a panel is the side of the panel), registering
    [([h1], [l1])] and then [([h2], [l2])] as legend requests leaves at the
    key one queue with the handles [[h1; h2]], the labels [[l1; l2]] and the
    keyword arguments of the first updated with those of the second; the
    flush that follows makes exactly one call of the drawing driver, with
    these handles, labels and keyword arguments and the key as location,
    and files what it returns at the key. *)
Theorem queued_legend_flush (_draw_colorbar _draw_legend : driver)
    (w : world) (self : nat) (a : axes) (loc key : string) (h1 h2 : nat)
    (l1 l2 : string) (kw1 kw2 : kwargs) :
  store w !! self = Some a →
  fill_loc a loc = Some key →
  NoDup (_legend_dict a).*1 →
  Forall (λ item, is_drawn item.2) (_legend_dict a) →
  Forall (λ item, is_drawn item.2) (_colorbar_dict a) →
  let merged := dict_update (dict_update ∅ kw1) kw2 in
  let draw := _draw_legend self [h1; h2] (Some [l1; l2]) key merged in
  ∃ w2 a2,
    queue_twice self loc h1 h2 l1 l2 kw1 kw2 w = Ok (tt, w2)
    ∧ store w2 !! self = Some a2
    ∧ pydict_get key (_legend_dict a2)
      = Some (Queued [h1; h2] [l1; l2] merged)
    ∧ _draw_guides _draw_colorbar _draw_legend self w2
      = (leg <- draw ;;
         modify_axes self
           (λ a, set_legend_dict (pydict_set key leg (_legend_dict a)) a)) w2
    ∧ ∀ leg w3 a3,
        draw w2 = Ok (leg, w3) →
        store w3 !! self = Some a3 →
        ∃ w' a',
          _draw_guides _draw_colorbar _draw_legend self w2 = Ok (tt, w')
          ∧ store w' !! self = Some a'
          ∧ pydict_get key (_legend_dict a') = Some leg.
Proof.
  intros Ha Hloc Hnd Hleg Hcb merged draw.
  destruct (queue_first_ok w self a loc key [h1] [l1] kw1 Ha Hloc Hnd Hleg)
    as (w1 & a1 & E1 & Ha1 & Hd1 & Hc1 & Hs1).
  assert (pydict_get key (pydict_del key (_legend_dict a)) = None) as Hgone
    by (by apply pydict_get_del).
  destruct (queue_more_ok w1 self a1 loc key [h1] [l1] (dict_update ∅ kw1)
              [h2] [l2] kw2 Ha1) as (w2 & a2 & E2 & Ha2 & Hd2 & Hc2 & Hs2).
  { unfold fill_loc in *. by rewrite Hs1. }
  { rewrite Hd1. by apply pydict_get_app_last. }
  rewrite Hd1, pydict_set_app_last in Hd2 by done. simpl in Hd2.
  fold merged in Hd2.
  assert (_draw_guides _draw_colorbar _draw_legend self w2
          = (leg <- draw ;;
             modify_axes self
               (λ a, set_legend_dict (pydict_set key leg (_legend_dict a)) a))
              w2) as Hflush.
  { unfold _draw_guides. step (get_axes_ok _ _ _ Ha2).
    erewrite bind_ok.
    2:{ apply for_each_skip. rewrite Hc2, Hc1.
        eapply List.Forall_impl; [|exact Hcb].
        intros [k e] He; simpl in *. by destruct e. }
    step (get_axes_ok _ _ _ Ha2). rewrite Hd2, for_each_app.
    erewrite bind_ok.
    2:{ apply for_each_skip.
        eapply List.Forall_impl; [|by apply pydict_del_Forall, Hleg].
        intros [k e] He; simpl in *. by destruct e. }
    simpl. by rewrite bind_ret_tt. }
  exists w2, a2. split.
  { unfold queue_twice. by step E1. }
  split; [done|]. split.
  { rewrite Hd2. by apply pydict_get_app_last. }
  split; [done|].
  intros leg w3 a3 Hdraw Ha3. rewrite Hflush. step Hdraw.
  rewrite (modify_axes_ok _ _ _ _ Ha3).
  eexists _, _. split; [done|]. split; [apply lookup_insert_eq|].
  apply pydict_get_set_eq.
Qed.

Lemma queued_legend_flush_witness :
  ∃ w' a',
    queue_example "left" (with_guide "colorbar") = Ok (tt, w')
    ∧ store w' !! 0 = Some a'
    ∧ _legend_dict a'
      = [("left",
          Drawn (Artist 100 "legend" [1; 2] (Some ["one"; "two"]) "left"
                   {["ncol" := VNum 2%Q; "frame" := VBool true]}))].
Proof.
  destruct (queued_legend_flush
              (recording_driver "colorbar") (recording_driver "legend")
              (with_guide "colorbar") 0
              (set_guide_dict "colorbar"
                 [("right", Drawn (old_guide "colorbar"))]
                 (fresh_axes (Some (0, 0, 0, 0)%Z)))
              "left" "left" 1 2 "one" "two"
              {["ncol" := VNum 1%Q; "frame" := VBool true]}
              {["ncol" := VNum 2%Q]})
    as (w2 & a2 & E & Ha2 & Hq & Hflush & Hdone);
    [reflexivity|reflexivity|constructor|constructor
    |by repeat constructor|].
  assert (after (queue_example "left" (with_guide "colorbar"))
            (λ w', _legend_dict <$> store w' !! 0)
          = Ok (Some [("left",
              Drawn (Artist 100 "legend" [1; 2] (Some ["one"; "two"]) "left"
                       {["ncol" := VNum 2%Q; "frame" := VBool true]}))]))
    as Hrun by (vm_compute; reflexivity).
  destruct (queue_example "left" (with_guide "colorbar")) as [[[] w']|e];
    [|discriminate].
  simpl in Hrun. destruct (store w' !! 0) as [a'|] eqn:Ha'; [|discriminate].
  exists w', a'. split; [reflexivity|]. split; [exact Ha'|].
  simpl in Hrun. congruence.
Defined.

(** C5, counterexample: the location 'fill' on an axes that is no panel
    files nothing, and the flush yields no legend. *)
Lemma queued_legend_fill_ignored :
  after (queue_example "fill" (with_guide "colorbar"))
    (λ w', _legend_dict <$> store w' !! 0)
  = Ok (Some []).
Proof. vm_compute. reflexivity. Qed.

(** ** The a-b-c label *)

Lemma search_aA_first pre c post :
  search_aA pre = None →
  c = "a"%char ∨ c = "A"%char →
  search_aA (pre ++ String c post) = Some c.
Proof.
  intros Hpre Hc. induction pre as [|x pre IH]; simpl in *.
  - by destruct Hc as [->| ->].
  - destruct (Ascii.eqb x "a" || Ascii.eqb x "A")%bool; [done|]. by apply IH.
Qed.

Lemma replace_first_first pre c new post :
  search_aA pre = None →
  c = "a"%char ∨ c = "A"%char →
  replace_first c new (pre ++ String c post) = pre ++ new ++ post.
Proof.
  intros Hpre Hc. induction pre as [|x pre IH]; simpl in *.
  - by rewrite Ascii.eqb_refl.
  - destruct (Ascii.eqb x "a" || Ascii.eqb x "A")%bool eqn:Hx; [done|].
    apply orb_false_elim in Hx as [Ha HA].
    assert (Ascii.eqb x c = false) as ->.
    { by destruct Hc as [->| ->]. }
    by rewrite IH.
Qed.

Lemma upper_repeat c k :
  upper (string_of_list_ascii (repeat c k))
  = string_of_list_ascii (repeat (upper_char c) k).
Proof. induction k as [|k IH]; simpl; [done|]. by rewrite IH. Qed.

Lemma ABC_STRING_get i :
  (i < 26)%nat → is_Some (String.get i ABC_STRING).
Proof.
  intros Hi. do 26 (destruct i as [|i]; [by eexists|]). lia.
Qed.

(** The label of [_update_abc] for a style string whose first 'a' or 'A'
    is the character [c], and an axes number of at least one. *)
Lemma abc_label_form (pre post : string) (c : ascii) (n : Z) :
  (1 ≤ n)%Z →
  search_aA pre = None →
  c = "a"%char ∨ c = "A"%char →
  abc_label (pre ++ String c post) n
  = Some (pre ++ abc_letters (Ascii.eqb c "A") n ++ post).
Proof.
  intros Hn Hpre Hc. unfold abc_label, abc_letters, repeat_char.
  rewrite (search_aA_first _ _ _ Hpre Hc).
  destruct (ABC_STRING_get (Z.to_nat ((n - 1) `mod` 26))) as [l Hl].
  { pose proof (Z.mod_pos_bound (n - 1) 26). lia. }
  rewrite Hl. simpl. f_equal.
  rewrite (replace_first_first _ _ _ _ Hpre Hc). do 2 f_equal.
  destruct (Ascii.eqb c "A"); [apply upper_repeat|done].
Qed.

Lemma resolve_loc_pure o cur loc w :
  resolve_loc o cur w = Ok (loc, w) →
  ∀ w0, resolve_loc o cur w0 = Ok (loc, w0).
Proof.
  unfold resolve_loc. intros H w0.
  assert (∀ m : M slot,
            (m = match cur with Some s => ret s | None => raise KeyError end) →
            m w = Ok (loc, w) → m w0 = Ok (loc, w0)) as Hstored.
  { intros m ->. destruct cur; [|done]. unfold ret. by intros [= ->]. }
  destruct o as [v|]; [|by apply (Hstored _ eq_refl)].
  destruct (truthy v); [|by apply (Hstored _ eq_refl)].
  destruct v as [| | |l|]; try done.
  unfold lift in *. destruct (_translate_loc l); [|done].
  by injection H as ->.
Qed.

(** C10: on an axes with a number [n] of at least one, for a setting 'abc'
    that is a style string whose first 'a' or 'A' is the character [c],
    [_update_abc] gives the a-b-c title the text [t']: the style string
    with that character replaced by the letter of index [(n - 1) mod 26] of
    the alphabet, repeated [(n - 1) div 26 + 1] times, in upper case when
    [c] is 'A' (for a location of the label that is valid, no 'text' among
    the overrides nor in the stored border settings, and an outermost top
    panel, if there is one, that is another axes of the figure).  On an
    axes without top panel, and for a label at none of 'left', 'center' and
    'right', the a-b-c title holds this text when the call returns;
    otherwise the title is arbitrated with the a-b-c title of the outermost
    top panel at the end of the call, as the titles are. *)
Theorem update_abc_repeats_letter (rc : rc_context) (w : world) (self : nat)
    (a : axes) (kwargs : kwargs) (loc : slot) (pre post : string) (c : ascii)
    (n : Z) :
  store w !! self = Some a →
  number a = Some n →
  (1 ≤ n)%Z →
  rc_find rc "abc" = Some (VStr (pre ++ String c post)) →
  search_aA pre = None →
  c = "a"%char ∨ c = "A"%char →
  resolve_loc (rc_find rc "abc.loc") (_abc_loc a) w = Ok (loc, w) →
  kwargs !! "text" = None →
  _abc_border_kwargs a !! "text" = None →
  (∀ pax, list.last (_panel_dict a STop) = Some pax →
          pax ≠ self ∧ is_Some (store w !! pax)) →
  ∃ w' a' t',
    _update_abc rc self kwargs w = Ok (tt, w')
    ∧ store w' !! self = Some a'
    ∧ t_text t' = pre ++ abc_letters (Ascii.eqb c "A") n ++ post
    ∧ (top_panel w a = None ∨ is_arbitrated (Some loc) abc_title = false →
       _title_dict a' abc_title = t')
    ∧ _title_dict a' abc_title
      = settled_title (top_panel w a) (_title_above a) (Some loc) abc_title t'
    ∧ ∀ pax p, top_panel w a = Some (pax, p) →
               title_of w' (pax, abc_title)
               = Some (settled_panel_title p (_title_above a) (Some loc)
                         abc_title t').
Proof.
  intros Ha Hnum Hn Hv Hpre Hc Hloc Hkw Hborder Htop.
  remember (_update_abc rc self kwargs w) as run eqn:Hrun.
  unfold _update_abc in Hrun.
  set (kw0 := rc_fill rc [("size", _); _; _; _]) in Hrun.
  set (kwb := rc_fill rc [("border", _); _; _; _; _; _; _]) in Hrun.
  assert (kw0 !! "text" = None) as Hkw0.
  { apply rc_fill_lookup_None; simpl;
      rewrite ?elem_of_cons, elem_of_nil; intuition discriminate. }
  assert (kwb !! "text" = None) as Hkwb.
  { apply rc_fill_lookup_None; simpl;
      rewrite ?elem_of_cons, elem_of_nil; intuition discriminate. }
  rewrite (bind_modify_axes _ _ _ _ _ Ha) in Hrun.
  set (a1 := set_abc_border_kwargs _ a) in Hrun.
  erewrite bind_get_axes in Hrun by apply lookup_insert_eq.
  rewrite Hv in Hrun. simpl in Hrun.
  change (number a1) with (number a) in Hrun.
  change (_abc_loc a1) with (_abc_loc a) in Hrun.
  assert (negb (String.eqb (pre ++ String c post) "") = true) as Htruthy.
  { by destruct pre. }
  rewrite Htruthy, (search_aA_first _ _ _ Hpre Hc), Hnum,
    (abc_label_form _ _ _ _ Hn Hpre Hc) in Hrun.
  set (label := pre ++ abc_letters (Ascii.eqb c "A") n ++ post) in *.
  unfold ret at 1, bind at 1 in Hrun.
  rewrite (bind_ok _ _ _ _ _ (resolve_loc_pure _ _ _ _ Hloc _)) in Hrun.
  erewrite bind_modify_axes in Hrun by apply lookup_insert_eq.
  rewrite store_set_store, set_store_twice, insert_insert_eq in Hrun.
  set (a3 := set_abc_loc (Some loc) a1) in Hrun.
  set (w3 := set_store (<[self := a3]> (store w)) w) in Hrun.
  assert (store w3 !! self = Some a3) as Hw3 by apply lookup_insert_eq.
  step_in Hrun (get_axes_ok _ _ _ Hw3).
  set (kw := dict_update _ kwargs) in Hrun.
  assert (kw !! "text" = Some (VStr label)) as Htext.
  { unfold kw, dict_update. rewrite lookup_union_r by done.
    destruct (is_outer loc); [by rewrite lookup_insert_eq|].
    apply lookup_union_Some_raw. right. split; [|by rewrite lookup_insert_eq].
    unfold a3, a1. simpl. unfold dict_update.
    rewrite lookup_union_None. done. }
  assert (top_panel w3 a3 = top_panel w a) as Htp.
  { apply top_panel_insert; [done|]. intros pax Hpax. by apply Htop. }
  destruct (update_then_above w3 self a3 abc_title kw Hw3)
    as (w' & a' & t' & E & Ha' & Ht' & _ & Hself & Hpanel).
  { intros v. rewrite Htext. intros [= <-]. by eexists. }
  { intros pax Hpax. destruct (Htop pax Hpax) as [Hne Hp]. split; [done|].
    unfold w3. by rewrite store_set_store, lookup_insert_ne. }
  rewrite Htp in Hself, Hpanel.
  change (_title_above a3) with (_title_above a) in Hself, Hpanel.
  change (_abc_loc a3) with (Some loc) in Hself, Hpanel.
  exists w', a', t'. split; [by rewrite Hrun|]. split; [done|]. split.
  { rewrite Ht'. unfold updated_text. by rewrite Htext. }
  split; [|done].
  intros [Hnone|Hinner]; rewrite Hself; unfold settled_title.
  - by rewrite Hnone.
  - rewrite Hinner. by destruct (top_panel w a) as [[]|].
Qed.

Lemma update_abc_repeats_letter_witness :
  (∃ w' a',
     _update_abc (RC {["abc" := VStr "a"]} None None) 0 ∅
       (numbered_subplot 27) = Ok (tt, w')
     ∧ store w' !! 0 = Some a'
     ∧ t_text (_title_dict a' abc_title) = "aa")
  ∧ (∃ w' a',
       _update_abc (RC {["abc" := VStr "(A)"]} None None) 0 ∅
         (numbered_subplot 28) = Ok (tt, w')
       ∧ store w' !! 0 = Some a'
       ∧ t_text (_title_dict a' abc_title) = "(BB)").
Proof.
  split.
  - destruct (update_abc_repeats_letter (RC {["abc" := VStr "a"]} None None)
                (numbered_subplot 27) 0 _ ∅ left_title "" "" "a" 27 eq_refl)
      as (w' & a' & t' & E & Ha' & Ht & Hkept & _);
      [reflexivity|lia|reflexivity|reflexivity|by left|reflexivity
      |reflexivity|reflexivity|intros pax [=]|].
    exists w', a'. split; [exact E|]. split; [exact Ha'|].
    rewrite (Hkept (or_introl eq_refl)). exact Ht.
  - destruct (update_abc_repeats_letter (RC {["abc" := VStr "(A)"]} None None)
                (numbered_subplot 28) 0 _ ∅ left_title "(" ")" "A" 28 eq_refl)
      as (w' & a' & t' & E & Ha' & Ht & Hkept & _);
      [reflexivity|lia|reflexivity|reflexivity|by right|reflexivity
      |reflexivity|reflexivity|intros pax [=]|].
    exists w', a'. split; [exact E|]. split; [exact Ha'|].
    rewrite (Hkept (or_introl eq_refl)). exact Ht.
Defined.

(** ** Sharing the short axis of panels *)

Lemma filter_axes_visible w l :
  (∀ i, i ∈ l → is_Some (store w !! i)) →
  filter_axes (λ pax, ret (negb (_panel_hidden pax))) l w
  = Ok (visible_panels w l, w).
Proof.
  induction l as [|i l IH]; intros Hl; simpl; [done|].
  destruct (Hl i) as [p Hp]; [by apply elem_of_cons; left|].
  step (get_axes_ok _ _ _ Hp). unfold ret at 1, bind at 1.
  rewrite (bind_ok _ _ _ _ _ (IH ltac:(intros j Hj; apply Hl, elem_of_cons; by right))).
  unfold ret, visible_panels. rewrite filter_cons.
  assert (is_hidden w i = _panel_hidden p) as Hh.
  { unfold is_hidden. by rewrite Hp. }
  destruct (_panel_hidden p); simpl.
  - by rewrite decide_False by (by rewrite Hh).
  - by rewrite decide_True.
Qed.

(** On a panel, [_sharex_setup] and [_sharey_setup] go no further than
    the call itself. *)
Lemma share_setup_panel d x w i j p :
  store w !! i = Some p →
  is_Some (_panel_side p) →
  _share_setup (S d) x i j w
  = Ok (tt, set_share_calls ((i, x, j) :: share_calls w) w).
Proof.
  intros Hp Hside. simpl. unfold record_share at 1, bind at 1.
  set (w1 := set_share_calls _ w).
  assert (store w1 !! i = Some p) as Hp1 by done.
  assert (∀ sd, _share_short_axis (_share_setup d) i (Some j) sd w1
                = Ok (tt, w1)) as Hshort.
  { intros sd. unfold _share_short_axis. step (get_axes_ok _ _ _ Hp1).
    by rewrite bool_decide_eq_true_2. }
  assert (∀ sd, _share_long_axis (_share_setup d) i (Some j) sd w1
                = Ok (tt, w1)) as Hlong.
  { intros sd. unfold _share_long_axis. step (get_axes_ok _ _ _ Hp1).
    by rewrite bool_decide_eq_true_2. }
  destruct x; repeat (first [step (Hshort SLeft) | step (Hshort SRight)
    | step (Hshort SBottom) | step (Hshort STop) | step (Hlong SBottom)
    | step (Hlong SLeft)]); auto.
Qed.

Lemma share_pairs_ok d x w (pairs : list (nat * nat)) :
  (∀ cp, cp ∈ pairs →
         ∃ p, store w !! cp.1 = Some p ∧ is_Some (_panel_side p)) →
  for_each pairs (λ cp, _share_setup (S d) x cp.1 cp.2) w
  = Ok (tt, set_share_calls
              (rev ((λ cp, (cp.1, x, cp.2)) <$> pairs) ++ share_calls w) w).
Proof.
  revert w. induction pairs as [|[c q] pairs IH]; intros w Hp; simpl.
  - by destruct w.
  - destruct (Hp (c, q)) as (p & Hc & Hside); [by apply elem_of_cons; left|].
    step (share_setup_panel d x w c q p Hc Hside).
    rewrite IH.
    + simpl. by rewrite <-app_assoc.
    + intros cp Hcp. apply Hp, elem_of_cons. by right.
Qed.

(** C8: for a main axes [self] and a sibling [share], [_share_short_axis]
    walks the visible panels of the two stacks of one side in step, from the
    inside outwards, and calls the share setup for each pair: as many calls
    as the shorter of the two visible stacks has panels.  A visible panel
    beyond that length, in either stack, takes part in no call. *)
Theorem share_short_axis_truncates (d : nat) (w : world) (self share : nat)
    (a s : axes) (sd : side) :
  store w !! self = Some a →
  store w !! share = Some s →
  _panel_side a = None →
  (∀ i, i ∈ _panel_dict a sd →
        ∃ p, store w !! i = Some p ∧ is_Some (_panel_side p)) →
  (∀ i, i ∈ _panel_dict s sd → is_Some (store w !! i)) →
  NoDup (_panel_dict a sd) →
  NoDup (_panel_dict s sd) →
  let caxs := visible_panels w (_panel_dict a sd) in
  let paxs := visible_panels w (_panel_dict s sd) in
  let calls := zipped_calls (short_axis sd) caxs paxs in
  _share_short_axis (_share_setup (S d)) self (Some share) sd w
  = Ok (tt, set_share_calls (rev calls ++ share_calls w) w)
  ∧ length calls = length caxs `min` length paxs
  ∧ (∀ k c, (length caxs `min` length paxs ≤ k)%nat → caxs !! k = Some c →
            ∀ call, call ∈ calls → call.1.1 ≠ c)
  ∧ (∀ k p, (length caxs `min` length paxs ≤ k)%nat → paxs !! k = Some p →
            ∀ call, call ∈ calls → call.2 ≠ p).
Proof.
  intros Ha Hs Hmain Hcs Hps Hndc Hndp caxs paxs calls.
  assert (NoDup caxs) as Hndc' by (by apply list.NoDup_filter).
  assert (NoDup paxs) as Hndp' by (by apply list.NoDup_filter).
  split; [|split; [|split]].
  - unfold _share_short_axis. step (get_axes_ok _ _ _ Ha).
    rewrite Hmain. rewrite bool_decide_eq_false_2 by (by intros [? ?]).
    step (get_axes_ok _ _ _ Hs).
    assert (∀ i, i ∈ _panel_dict a sd → is_Some (store w !! i)) as Hcs'.
    { intros i Hi. destruct (Hcs i Hi) as (p & -> & _). eauto. }
    rewrite (bind_ok _ _ _ _ _ (filter_axes_visible w (_panel_dict a sd) Hcs')).
    rewrite (bind_ok _ _ _ _ _ (filter_axes_visible w (_panel_dict s sd) Hps)).
    fold caxs paxs. rewrite share_pairs_ok; [done|].
    intros [c q] Hin. simpl. apply elem_of_zip_l in Hin.
    apply Hcs. unfold caxs, visible_panels in Hin.
    by apply list_elem_of_filter in Hin as [_ ?].
  - unfold calls, zipped_calls. by rewrite length_fmap, length_zip.
  - intros k c Hk Hc call Hcall Heq.
    apply list_elem_of_fmap in Hcall as ([c' q] & -> & Hin). simpl in Heq.
    subst c'. apply list_elem_of_lookup in Hin as [j Hj].
    apply lookup_zip_with_Some in Hj as (c' & q' & Heq & Hcj & Hqj).
    simplify_eq. pose proof (NoDup_lookup _ _ _ _ Hndc' Hc Hcj) as ->.
    apply lookup_lt_Some in Hcj, Hqj. lia.
  - intros k q Hk Hq call Hcall Heq.
    apply list_elem_of_fmap in Hcall as ([c q'] & -> & Hin). simpl in Heq.
    subst q'. apply list_elem_of_lookup in Hin as [j Hj].
    apply lookup_zip_with_Some in Hj as (c' & q' & Heq & Hcj & Hqj).
    simplify_eq. pose proof (NoDup_lookup _ _ _ _ Hndp' Hq Hqj) as ->.
    apply lookup_lt_Some in Hcj, Hqj. lia.
Qed.

Lemma share_short_axis_truncates_witness :
  after (_share_short_axis (_share_setup 1) 0 (Some 1) SLeft two_stacks)
    share_calls
  = Ok [(3, X, 5)].
Proof.
  destruct (share_short_axis_truncates 0 two_stacks 0 1 _ _ SLeft
              eq_refl eq_refl eq_refl) as (E & _).
  - intros i Hi. change (i ∈ [2; 3; 4]) in Hi.
    rewrite !elem_of_cons, elem_of_nil in Hi.
    destruct Hi as [->|[->|[->|[]]]];
      (eexists; split; [reflexivity|by eexists]).
  - intros i Hi. change (i ∈ [5]) in Hi.
    rewrite !elem_of_cons, elem_of_nil in Hi.
    destruct Hi as [->|[]]. by eexists.
  - by apply (bool_decide_unpack _).
  - by apply (bool_decide_unpack _).
  - rewrite E. reflexivity.
Defined.

(** ** The axes that share an axis with a subplot *)

(** [np.argmax] and [np.argmin]: the index found holds a value that none
    beats, and no earlier index holds that value. *)
Lemma arg_first_spec (beats : Z → Z → bool) (l : list Z) :
  (∀ x, beats x x = false) →
  (∀ x y m, beats y x = true → beats y m = false → beats x m = false) →
  l ≠ [] →
  ∃ m, l !! arg_first beats l = Some m
       ∧ (∀ y, y ∈ l → beats y m = false)
       ∧ (∀ j y, (j < arg_first beats l)%nat → l !! j = Some y → y ≠ m).
Proof.
  intros Hirr Htr. induction l as [|x l IH]; [done|]. intros _. simpl.
  destruct (forallb (λ y, negb (beats y x)) l) eqn:Hall.
  - exists x. split; [done|]. split; [|intros j y Hj; lia].
    intros y [->|Hy]%elem_of_cons; [done|].
    rewrite forallb_forall in Hall. apply list_elem_of_In, Hall in Hy.
    by apply negb_true_iff.
  - assert (∃ y, y ∈ l ∧ beats y x = true) as (y & Hy & Hyx).
    { clear -Hall. induction l as [|y l IH]; simpl in *; [done|].
      destruct (beats y x) eqn:Hb; simpl in *.
      - exists y. split; [by apply elem_of_cons; left|done].
      - destruct (IH Hall) as (z & Hz & Hzx). exists z.
        split; [by apply elem_of_cons; right|done]. }
    destruct IH as (m & Hm & Hmax & Hfirst); [by intros ->; inversion Hy|].
    exists m. split; [done|]. split.
    + intros z [->|Hz]%elem_of_cons; [|by apply Hmax].
      apply (Htr x y); [done|by apply Hmax].
    + intros [|j] z Hj Hz; simpl in *.
      * simplify_eq. intros ->. by rewrite Hmax in Hyx.
      * apply (Hfirst j); [lia|done].
Qed.

Lemma arg_first_lt beats l : l ≠ [] → (arg_first beats l < length l)%nat.
Proof.
  induction l as [|x l IH]; [done|]. intros _. simpl.
  destruct (forallb _ l) eqn:Hall; [lia|].
  assert (l ≠ []) as Hl by (by intros ->).
  specialize (IH Hl). lia.
Qed.

Lemma filter_axes_pure (f : axes → bool) w l :
  (∀ i, i ∈ l → is_Some (store w !! i)) →
  filter_axes (λ a, ret (f a)) l w
  = Ok (List.filter (λ i, match store w !! i with
                          | Some a => f a
                          | None => false
                          end) l, w).
Proof.
  induction l as [|i l IH]; intros Hl; simpl; [done|].
  destruct (Hl i) as [a Ha]; [by apply elem_of_cons; left|].
  assert (∀ j, j ∈ l → is_Some (store w !! j)) as Hl2.
  { intros j Hj. apply Hl, elem_of_cons. by right. }
  step (get_axes_ok _ _ _ Ha). unfold ret at 1, bind at 1.
  step (IH Hl2). rewrite Ha. done.
Qed.

Lemma iter_axes_main w i a :
  store w !! i = Some a →
  _iter_axes i false false (PanelsBool false) w
  = Ok (if visible a && negb (_panel_hidden a) then [i] else [], w).
Proof.
  intros Ha. unfold _iter_axes.
  change (parse_panels (PanelsBool false)) with (Ok (@nil side)).
  rewrite bind_lift_ok. step (get_axes_ok _ _ _ Ha).
  assert (∀ j, j ∈ [i] → is_Some (store w !! j)) as Hin.
  { intros j Hj. apply list_elem_of_singleton in Hj as ->. eauto. }
  change (concat (map (_panel_dict a) [])) with (@nil nat).
  change (λ iax : axes, ret (false || negb (_panel_hidden iax)))
    with (λ iax : axes, ret (negb (_panel_hidden iax))).
  step (filter_axes_pure (λ iax, negb (_panel_hidden iax)) w [i] Hin).
  simpl. rewrite Ha.
  destruct (_panel_hidden a); simpl.
  - unfold ret at 1, bind at 1. simpl. by rewrite andb_false_r.
  - rewrite bind_assoc. step (get_axes_ok _ _ _ Ha).
    unfold ret at 1 2, bind at 1 2.
    change (λ jax : axes, ret (visible jax)) with (λ jax, ret (visible jax)).
    rewrite (filter_axes_pure visible w [i] Hin). simpl. rewrite Ha.
    rewrite andb_true_r. by destruct (visible a).
Qed.

Lemma iter_shown w l :
  (∀ i, i ∈ l → is_Some (store w !! i)) →
  Figure_iter_subplots l false false (PanelsBool false) w
  = Ok (filter (λ i, shown w i = true) l, w).
Proof.
  induction l as [|i l IH]; intros Hl; simpl; [done|].
  destruct (Hl i) as [a Ha]; [by apply elem_of_cons; left|].
  step (get_axes_ok _ _ _ Ha). rewrite filter_cons.
  assert (shown w i = visible a && negb (_panel_hidden a)) as Hshown.
  { unfold shown. by rewrite Ha. }
  assert (∀ j, j ∈ l → is_Some (store w !! j)) as Hl'.
  { intros j Hj. apply Hl, elem_of_cons. by right. }
  assert ((if negb (_panel_hidden a)
           then _iter_axes i false false (PanelsBool false)
           else ret []) w
          = Ok (if visible a && negb (_panel_hidden a) then [i] else [], w))
    as Hhere.
  { destruct (_panel_hidden a) eqn:Hh; simpl.
    - by rewrite andb_false_r.
    - rewrite (iter_axes_main _ _ _ Ha), Hh. done. }
  step Hhere. step (IH Hl'). unfold ret. rewrite <-Hshown.
  destruct (shown w i) eqn:Hsh.
  - by rewrite decide_True.
  - by rewrite decide_False.
Qed.

Lemma filter_range_ok w x irange l :
  (∀ i, i ∈ l → ∃ b, store w !! i = Some b ∧ is_Some (subplotspec b)) →
  filter_axes
    (λ ax, r <- lift (_range_subplotspec ax x) ;; ret (range_eqb r irange))
    l w
  = Ok (filter (λ i, range_of w x i = Some irange) l, w).
Proof.
  induction l as [|i l IH]; intros Hl; simpl; [done|].
  destruct (Hl i) as (b & Hb & [ss Hss]); [by apply elem_of_cons; left|].
  assert (∀ j, j ∈ l →
            ∃ b, store w !! j = Some b ∧ is_Some (subplotspec b)) as Hl'.
  { intros j Hj. apply Hl, elem_of_cons. by right. }
  step (get_axes_ok _ _ _ Hb).
  assert (∃ r, _range_subplotspec b x = Ok r) as [r Hr].
  { unfold _range_subplotspec. rewrite Hss.
    destruct ss as [[[r1 r2] c1] c2]. destruct x; eauto. }
  rewrite Hr, bind_assoc, bind_lift_ok. unfold ret at 1, bind at 1.
  step (IH Hl'). unfold ret. rewrite filter_cons.
  assert (range_of w x i = Some r) as Hri.
  { unfold range_of. by rewrite Hb, Hr. }
  rewrite Hri. unfold range_eqb.
  destruct r as [lo hi], irange as [lo2 hi2]; simpl.
  destruct (Z.eqb_spec lo lo2), (Z.eqb_spec hi hi2); simpl;
    first [rewrite decide_True by congruence
          |rewrite decide_False by congruence]; done.
Qed.

Lemma share_keys_ok w x l :
  (∀ i, i ∈ l → ∃ b, store w !! i = Some b ∧ is_Some (subplotspec b)) →
  share_keys x l w = Ok (share_key_of w x <$> l, w).
Proof.
  induction l as [|i l IH]; intros Hl; simpl; [done|].
  destruct (Hl i) as (b & Hb & [ss Hss]); [by apply elem_of_cons; left|].
  assert (∀ j, j ∈ l →
            ∃ b, store w !! j = Some b ∧ is_Some (subplotspec b)) as Hl'.
  { intros j Hj. apply Hl, elem_of_cons. by right. }
  step (get_axes_ok _ _ _ Hb).
  assert (∃ k, share_key x b = Ok k) as [k Hk].
  { unfold share_key, _range_subplotspec. rewrite Hss.
    destruct ss as [[[r1 r2] c1] c2]. destruct x; simpl; eauto. }
  rewrite Hk, bind_lift_ok. step (IH Hl').
  unfold ret. unfold share_key_of at 2. by rewrite Hb, Hk.
Qed.

(** The call on a subplot of a figure all of whose subplots are in the
    grid: it returns, with the reference picked by [argmax] or [argmin] over
    the set in its order of iteration. *)
Lemma get_share_axes_ok (set_iter : list nat → list nat) w self a x :
  (∀ l, set_iter l ≡ₚ remove_dups l) →
  store w !! self = Some a →
  is_Some (subplotspec a) →
  (∀ i, i ∈ subplots w →
        ∃ b, store w !! i = Some b ∧ is_Some (subplotspec b)) →
  let axs := set_iter (share_group w x self) in
  let keys := share_key_of w x <$> axs in
  let i := (match x with X => argmax | Y => argmin end) keys in
  ∃ pax,
    axs !! i = Some pax
    ∧ _get_share_axes set_iter self x (PanelsBool false) w
      = Ok (pax :: take i axs ++ drop (S i) axs, w).
Proof.
  intros Hset Ha [ss Hss] Hsubs axs keys i.
  assert (∃ r, _range_subplotspec a x = Ok r) as [irange Hr].
  { unfold _range_subplotspec. rewrite Hss.
    destruct ss as [[[r1 r2] c1] c2]. destruct x; eauto. }
  assert (range_of w x self = Some irange) as Hrs.
  { unfold range_of. by rewrite Ha, Hr. }
  assert (∀ j, j ∈ axs →
            ∃ b, store w !! j = Some b ∧ is_Some (subplotspec b)) as Haxs.
  { intros j Hj. unfold axs in Hj. rewrite Hset in Hj.
    rewrite elem_of_remove_dups in Hj. unfold share_group in Hj.
    apply elem_of_cons in Hj as [->|Hj]; [by eauto|].
    apply list_elem_of_filter in Hj as [_ Hj]. by apply Hsubs. }
  assert (axs ≠ []) as Hne.
  { intros Hnil. assert (self ∈ axs) as Hin.
    { unfold axs. rewrite Hset, elem_of_remove_dups.
      by apply elem_of_cons; left. }
    rewrite Hnil in Hin. by apply elem_of_nil in Hin. }
  assert (keys ≠ []) as Hkne.
  { unfold keys. by destruct axs. }
  assert (i < length axs)%nat as Hi.
  { unfold i. replace (length axs) with (length keys)
      by (unfold keys; by rewrite length_fmap).
    destruct x; by apply arg_first_lt. }
  destruct (lookup_lt_is_Some_2 axs i Hi) as [pax Hpax].
  exists pax. split; [done|].
  assert (∀ j, j ∈ subplots w → is_Some (store w !! j)) as Hsubs'.
  { intros j Hj. destruct (Hsubs j Hj) as (b & -> & _). eauto. }
  unfold _get_share_axes. step (get_axes_ok _ _ _ Ha). rewrite Hss.
  rewrite Hr, bind_lift_ok. unfold Figure_iter_axes.
  rewrite bind_assoc.
  change (parse_panels (PanelsBool false)) with (Ok (@nil side)).
  rewrite bind_lift_ok. unfold bind at 1.
  rewrite (iter_shown w (subplots w) Hsubs').
  erewrite bind_ok.
  2:{ apply filter_range_ok.
      intros j [_ Hj]%list_elem_of_filter. by apply Hsubs. }
  rewrite list_filter_filter.
  assert (filter (λ j, range_of w x j = Some irange ∧ shown w j = true)
            (subplots w)
          = filter (λ j, shown w j = true
                         ∧ range_of w x j = range_of w x self) (subplots w))
    as ->.
  { apply list_filter_iff. intros j. rewrite Hrs. tauto. }
  fold (share_group w x self). fold axs. step (share_keys_ok w x axs Haxs).
  fold keys. fold i. unfold list_pop. rewrite Hpax.
  clearbody i. clearbody keys. by destruct keys.
Qed.

Lemma pop_Permutation {A} (l : list A) i x :
  l !! i = Some x → x :: take i l ++ drop (S i) l ≡ₚ l.
Proof.
  intros Hi. rewrite <-(take_drop_middle l i x Hi) at 3.
  by rewrite Permutation_middle.
Qed.

(** C1 (as amended): on a subplot of a figure whose subplots are all in
    the grid, [_get_share_axes] with the default [panels=False] raises
    nothing, also when two or more candidates occupy the identical extreme
    position: it returns the list headed by the reference, followed by the
    other candidates in the order of the set.  The reference is a candidate
    of extreme position (no candidate starts at a later row for x, none
    ends at an earlier column for y), and among the candidates at that
    position it is the one that the set of candidates yields first; the
    candidates that the set yields after it, those at the same position
    among them, follow in the rest of the list. *)
Theorem get_share_axes_tie_first (set_iter : list nat → list nat)
    (w : world) (self : nat) (a : axes) (x : axis) :
  (∀ l, set_iter l ≡ₚ remove_dups l) →
  store w !! self = Some a →
  is_Some (subplotspec a) →
  (∀ i, i ∈ subplots w →
        ∃ b, store w !! i = Some b ∧ is_Some (subplotspec b)) →
  let axs := set_iter (share_group w x self) in
  ∃ i pax,
    _get_share_axes set_iter self x (PanelsBool false) w
    = Ok (pax :: take i axs ++ drop (S i) axs, w)
    ∧ axs !! i = Some pax
    ∧ (∀ b, b ∈ axs →
            match x with
            | X => (share_key_of w X b ≤ share_key_of w X pax)%Z
            | Y => (share_key_of w Y pax ≤ share_key_of w Y b)%Z
            end)
    ∧ (∀ j b, (j < i)%nat → axs !! j = Some b →
              share_key_of w x b ≠ share_key_of w x pax)
    ∧ (∀ j b, (i < j)%nat → axs !! j = Some b →
              b ∈ (take i axs ++ drop (S i) axs)%list).
Proof.
  intros Hset Ha Hss Hsubs axs.
  destruct (get_share_axes_ok set_iter w self a x Hset Ha Hss Hsubs)
    as (pax & Hpax & E).
  fold axs in Hpax, E.
  set (keys := share_key_of w x <$> axs) in *.
  set (i := (match x with X => argmax | Y => argmin end) keys) in *.
  assert (keys ≠ []) as Hkne.
  { unfold keys. destruct axs; [done|]. done. }
  assert (∃ m, keys !! i = Some m
               ∧ (∀ y, y ∈ keys →
                       match x with X => (y ≤ m)%Z | Y => (m ≤ y)%Z end)
               ∧ ∀ j y, (j < i)%nat → keys !! j = Some y → y ≠ m)
    as (m & Hm & Hextreme & Hfirst).
  { unfold i. destruct x.
    - destruct (arg_first_spec Z.gtb keys) as (m & ? & Hmax & ?); eauto;
        try (intros; rewrite ?Z.gtb_ltb, ?Z.ltb_ge, ?Z.ltb_lt in *; lia).
      exists m. split; [done|]. split; [|done].
      intros y Hy. specialize (Hmax y Hy).
      by rewrite Z.gtb_ltb, Z.ltb_ge in Hmax.
    - destruct (arg_first_spec Z.ltb keys) as (m & ? & Hmin & ?); eauto;
        try (intros; rewrite ?Z.ltb_ge, ?Z.ltb_lt in *; lia).
      exists m. split; [done|]. split; [|done].
      intros y Hy. specialize (Hmin y Hy). by rewrite Z.ltb_ge in Hmin. }
  unfold keys in Hm. rewrite list_lookup_fmap, Hpax in Hm. simplify_eq/=.
  exists i, pax. split; [done|]. split; [done|]. split; [|split].
  - intros b Hb.
    assert (share_key_of w x b ∈ keys) as Hkey.
    { unfold keys. apply list_elem_of_fmap. eauto. }
    specialize (Hextreme _ Hkey). by destruct x.
  - intros j b Hj Hb. apply (Hfirst j); [done|].
    unfold keys. by rewrite list_lookup_fmap, Hb.
  - intros j b Hj Hb. apply elem_of_app. right.
    apply list_elem_of_lookup. exists (j - S i)%nat.
    rewrite lookup_drop. by replace (S i + (j - S i))%nat with j by lia.
Qed.

Lemma get_share_axes_tie_first_witness :
  returned (_get_share_axes remove_dups 1 X (PanelsBool false) overlapping)
  = Ok [0; 1].
Proof.
  destruct (get_share_axes_tie_first remove_dups overlapping 1
              (fresh_axes (Some (0, 0, 0, 0)%Z)) X)
    as (i & pax & E & _).
  - reflexivity.
  - reflexivity.
  - by eexists.
  - intros j Hj. change (j ∈ [0; 1]) in Hj.
    rewrite !elem_of_cons, elem_of_nil in Hj.
    destruct Hj as [->|[->|[]]]; (eexists; split; [reflexivity|by eexists]).
  - reflexivity.
Defined.

(** C1, counterexample: for two subplots at the identical position of the
    grid the call returns, with the subplot 0 as the reference. *)
Lemma get_share_axes_tie_returns :
  returned (_get_share_axes remove_dups 0 X (PanelsBool false) overlapping)
  = Ok [0; 1]
  ∧ subplotspec <$> store overlapping !! 0
    = subplotspec <$> store overlapping !! 1.
Proof. split; reflexivity. Qed.

(** C2 (as amended): on a subplot of a figure whose subplots are all in
    the grid, [_get_share_axes] returns a list without repetition of the
    subplot itself and the shown subplots of the same column range (sharing
    of x) or row range (sharing of y).  Its head is the reference: for x no
    other member starts at a later row (it is the bottommost), for y no
    other member ends at an earlier column (it is the leftmost). *)
Theorem get_share_axes_reference (set_iter : list nat → list nat)
    (w : world) (self : nat) (a : axes) (x : axis) :
  (∀ l, set_iter l ≡ₚ remove_dups l) →
  store w !! self = Some a →
  is_Some (subplotspec a) →
  (∀ i, i ∈ subplots w →
        ∃ b, store w !! i = Some b ∧ is_Some (subplotspec b)) →
  ∃ pax rest,
    _get_share_axes set_iter self x (PanelsBool false) w = Ok (pax :: rest, w)
    ∧ pax :: rest ≡ₚ remove_dups (share_group w x self)
    ∧ ∀ b, b ∈ rest →
           match x with
           | X => (share_key_of w X b ≤ share_key_of w X pax)%Z
           | Y => (share_key_of w Y pax ≤ share_key_of w Y b)%Z
           end.
Proof.
  intros Hset Ha Hss Hsubs.
  destruct (get_share_axes_ok set_iter w self a x Hset Ha Hss Hsubs)
    as (pax & Hpax & E).
  set (axs := set_iter (share_group w x self)) in *.
  set (keys := share_key_of w x <$> axs) in *.
  set (i := (match x with X => argmax | Y => argmin end) keys) in *.
  exists pax, (take i axs ++ drop (S i) axs)%list. split; [done|]. split.
  { rewrite (pop_Permutation _ _ _ Hpax). apply Hset. }
  intros b Hb.
  assert (b ∈ axs) as Hin.
  { rewrite <-(pop_Permutation _ _ _ Hpax). apply elem_of_cons. by right. }
  assert (share_key_of w x b ∈ keys) as Hkey.
  { unfold keys. apply list_elem_of_fmap. eauto. }
  assert (keys ≠ []) as Hkne by (by intros Hnil; rewrite Hnil in Hkey;
                                  apply elem_of_nil in Hkey).
  assert (keys !! i = Some (share_key_of w x pax)) as Hm.
  { unfold keys. by rewrite list_lookup_fmap, Hpax. }
  unfold i in Hm. destruct x.
  - destruct (arg_first_spec Z.gtb keys) as (m & Hm' & Hmax & _); eauto.
    { intros; rewrite ?Z.gtb_ltb, ?Z.ltb_ge, ?Z.ltb_lt in *; lia. }
    { intros ? ? ?; rewrite ?Z.gtb_ltb, ?Z.ltb_ge, ?Z.ltb_lt in *; lia. }
    unfold argmax in Hm. rewrite Hm in Hm'. simplify_eq.
    specialize (Hmax _ Hkey). rewrite Z.gtb_ltb, Z.ltb_ge in Hmax. done.
  - destruct (arg_first_spec Z.ltb keys) as (m & Hm' & Hmax & _); eauto.
    { intros; rewrite ?Z.ltb_ge, ?Z.ltb_lt in *; lia. }
    { intros ? ? ?; rewrite ?Z.ltb_ge, ?Z.ltb_lt in *; lia. }
    unfold argmin in Hm. rewrite Hm in Hm'. simplify_eq.
    specialize (Hmax _ Hkey). rewrite Z.ltb_ge in Hmax. done.
Qed.

Lemma get_share_axes_reference_witness :
  returned (_get_share_axes remove_dups 1 Y (PanelsBool false) grid_2x2)
  = Ok [0; 1].
Proof.
  destruct (get_share_axes_reference remove_dups grid_2x2 1
              (fresh_axes (Some (0, 0, 1, 1)%Z)) Y)
    as (pax & rest & E & _).
  - reflexivity.
  - reflexivity.
  - by eexists.
  - intros j Hj. change (j ∈ [0; 1; 2; 3]) in Hj.
    rewrite !elem_of_cons, elem_of_nil in Hj.
    destruct Hj as [->|[->|[->|[->|[]]]]];
      (eexists; split; [reflexivity|by eexists]).
  - reflexivity.
Defined.

(** C2, counterexample: in the grid of two rows and two columns, the
    sharing of x for the subplot at the row 0 and the column 1 has the
    subplot below it as the reference, and leaves out the subplot to its
    left, whose row span is the same. *)
Lemma get_share_axes_x_is_bottommost :
  returned (_get_share_axes remove_dups 1 X (PanelsBool false) grid_2x2)
  = Ok [3; 1]
  ∧ range_of grid_2x2 Y 0 = range_of grid_2x2 Y 1
  ∧ range_of grid_2x2 X 0 = Some (0, 0)%Z
  ∧ range_of grid_2x2 X 3 = Some (1, 1)%Z.
Proof. repeat split; reflexivity. Qed.

(** ** Transfers of text, there and back *)

Lemma received_given_back (s d : text_obj) :
  blank (t_text s) = false →
  received (received s d) (given s) = s
  ∧ given (received s d)
    = set_text "" (set_fontproperties (t_font s) (set_color (t_color s) d)).
Proof.
  intros Hb. unfold received, given. rewrite Hb. simpl. rewrite Hb.
  by destruct s.
Qed.

(** X1: a text that is not blank, transferred from one title to another
    and then back ([_transfer_text(src, dest)] followed by
    [_transfer_text(dest, src)]), is in the source title again, which is
    exactly as it was before; the destination title is left with the empty
    text and with the colour and the font properties of the source; every
    other title and everything that is not a title is unchanged. *)
Theorem transfer_text_round_trip (w : world) (src dest : text_ref)
    (s d : text_obj) :
  src ≠ dest →
  title_of w src = Some s →
  title_of w dest = Some d →
  blank (t_text s) = false →
  ∃ w', there_and_back src dest w = Ok (tt, w')
        ∧ title_of w' src = Some s
        ∧ title_of w' dest
          = Some (set_text ""
                    (set_fontproperties (t_font s) (set_color (t_color s) d)))
        ∧ (∀ r, r ≠ src → r ≠ dest → title_of w' r = title_of w r)
        ∧ without_titles w' = without_titles w.
Proof.
  intros Hne Hs Hd Hb.
  destruct (transfer_text_ok w src dest s d Hne Hs Hd) as (w1 & E1 & F1 & T1).
  assert (title_of w1 dest = Some (received s d)) as Hd1.
  { rewrite T1. by rewrite decide_True. }
  assert (title_of w1 src = Some (given s)) as Hs1.
  { rewrite T1. rewrite decide_False by done. by rewrite decide_True. }
  destruct (transfer_text_ok w1 dest src _ _ (not_eq_sym Hne) Hd1 Hs1)
    as (w2 & E2 & F2 & T2).
  destruct (received_given_back s d Hb) as [Hback Hleft].
  exists w2. unfold there_and_back. step E1.
  split; [done|]. split; [|split; [|split]].
  - rewrite T2. rewrite decide_True by done. by rewrite Hback.
  - rewrite T2. rewrite decide_False by done. rewrite decide_True by done.
    by rewrite Hleft.
  - intros r Hr1 Hr2. rewrite T2, !decide_False by done.
    rewrite T1, !decide_False by done. done.
  - congruence.
Qed.

Lemma transfer_text_round_trip_witness :
  ∃ w', there_and_back (0, center_title) (1, center_title)
          (two_titles "Hello") = Ok (tt, w')
        ∧ title_of w' (0, center_title) = title_of (two_titles "Hello") (0, center_title)
        ∧ t_text <$> title_of w' (1, center_title) = Some "".
Proof.
  destruct (transfer_text_round_trip (two_titles "Hello") (0, center_title)
              (1, center_title)
              (set_color (VStr "red") (set_text "Hello" (fresh_text false)))
              (set_color (VStr "black") (set_text "B" (fresh_text false))))
    as (w' & E & Hs & Hd & _); [done|reflexivity|reflexivity|reflexivity|].
  exists w'. split; [exact E|]. split; [by rewrite Hs|]. by rewrite Hd.
Defined.

(** X2: [_transfer_text] with one and the same text object as source and
    destination erases a text that is not blank: the object is left with
    the empty text (its colour and font properties as they were), since
    the text is first written to the destination and then cleared from the
    source. Every other title and everything that is not a title is
    unchanged. *)
Theorem transfer_text_to_itself (w : world) (r : text_ref) (t : text_obj) :
  title_of w r = Some t →
  blank (t_text t) = false →
  ∃ w', _transfer_text r r w = Ok (tt, w')
        ∧ title_of w' r = Some (set_text "" t)
        ∧ (∀ r', r' ≠ r → title_of w' r' = title_of w r')
        ∧ without_titles w' = without_titles w.
Proof.
  intros Ht Hb. unfold _transfer_text.
  step (get_title_ok _ _ _ Ht). step (get_title_ok _ _ _ Ht).
  destruct (modify_title_ok w r t (set_color (t_color t)) Ht)
    as (w1 & E1 & F1 & T1).
  step E1.
  assert (title_of w1 r = Some (set_color (t_color t) t)) as H1.
  { rewrite T1. by rewrite decide_True. }
  step (get_title_ok _ _ _ H1).
  destruct (modify_title_ok w1 r _ (set_fontproperties (t_font t)) H1)
    as (w2 & E2 & F2 & T2).
  simpl in E2. step E2. rewrite Hb.
  assert (title_of w2 r = Some (set_fontproperties (t_font t)
                                  (set_color (t_color t) t))) as H2.
  { rewrite T2. by rewrite decide_True. }
  destruct (modify_title_ok w2 r _ (set_text (t_text t)) H2)
    as (w3 & E3 & F3 & T3).
  step E3.
  assert (title_of w3 r = Some (set_text (t_text t)
            (set_fontproperties (t_font t) (set_color (t_color t) t)))) as H3.
  { rewrite T3. by rewrite decide_True. }
  destruct (modify_title_ok w3 r _ (set_text "") H3) as (w4 & E4 & F4 & T4).
  exists w4. split; [done|]. split; [|split].
  - rewrite T4. rewrite decide_True by done. by destruct t.
  - intros r' Hr. rewrite T4, T3, T2, T1, !decide_False by done. done.
  - congruence.
Qed.

Lemma transfer_text_to_itself_witness :
  ∃ w', _transfer_text (0, center_title) (0, center_title)
          (two_titles "Hello") = Ok (tt, w')
        ∧ t_text <$> title_of w' (0, center_title) = Some "".
Proof.
  destruct (transfer_text_to_itself (two_titles "Hello") (0, center_title)
              (set_color (VStr "red") (set_text "Hello" (fresh_text false))))
    as (w' & E & Ht & _); [reflexivity|reflexivity|].
  exists w'. split; [exact E|]. by rewrite Ht.
Defined.

(** ** Repeated updates of a text *)

Lemma set_path_effects_same p t : t_path_effects t = p → set_path_effects p t = t.
Proof. intros <-. by destruct t. Qed.

Lemma set_bbox_same b t : t_bbox t = b → set_bbox b t = t.
Proof. intros <-. by destruct t. Qed.

Lemma set_color_same c t : t_color t = c → set_color c t = t.
Proof. intros <-. by destruct t. Qed.

Lemma Text_update_fields (P : kwargs) (u t' : text_obj) :
  Text_update P u = Ok t' →
  t_path_effects t' = t_path_effects u
  ∧ t_bbox t' = t_bbox u
  ∧ t_color t' = default (t_color u) (P !! "color")
  ∧ t_props t'
    = dict_update (t_props u) (filter (λ kv, kv.1 ∉ core_keys) P).
Proof.
  unfold Text_update. intros H.
  destruct (P !! "text") as [v|]; [destruct (text_of_pyval v)|];
    simplify_eq; done.
Qed.

Lemma Text_update_idem (P : kwargs) (u t' : text_obj) :
  Text_update P u = Ok t' → Text_update P t' = Ok t'.
Proof.
  unfold Text_update. intros H.
  assert (∀ (x : pyval) o, default (default x o) o = default x o) as Hdd
    by (by intros x []).
  assert (∀ X : kwargs,
            dict_update (dict_update X (filter (λ kv, kv.1 ∉ core_keys) P))
              (filter (λ kv, kv.1 ∉ core_keys) P)
            = dict_update X (filter (λ kv, kv.1 ∉ core_keys) P)) as Huu.
  { intros X. unfold dict_update. by rewrite (assoc_L (∪)), (idemp_L (∪)). }
  destruct (P !! "text") as [v|]; [destruct (text_of_pyval v) as [s|]|];
    simplify_eq; f_equal; destruct u as [? ? [? ? ?] ? ? ? ?];
    unfold set_text, set_props, set_fontproperties, set_color; simpl;
    rewrite ?Hdd, Huu; done.
Qed.

Lemma Text_update_returns (P : kwargs) (u : text_obj) :
  (∀ v, P !! "text" = Some v → is_Some (text_of_pyval v)) →
  ∃ t', Text_update P u = Ok t'.
Proof.
  intros H. unfold Text_update.
  destruct (P !! "text") as [v|]; [|by eexists].
  destruct (H v eq_refl) as [s ->]. by eexists.
Qed.

Lemma update_text_steps (pad : Q) (props : kwargs) (t : text_obj) :
  _update_text pad props t
  = Text_update (passed_props props) (bbox_step pad props (border_step props t)).
Proof.
  unfold _update_text, dict_pop, passed_props, bbox_step, border_step.
  cbv beta iota zeta.
  rewrite !lookup_delete_ne by done.
  destruct (truthy (default VNone (props !! "border")));
    [destruct (truthy (default (VBool false) (props !! "borderinvert")))
    |destruct (is_False (default VNone (props !! "border")))];
    (destruct (is_dict (default VNone (props !! "bbox")));
     [|destruct (truthy (default VNone (props !! "bbox")));
       [|destruct (is_False (default VNone (props !! "bbox")))]]);
    reflexivity.
Qed.

Lemma passed_props_text props : passed_props props !! "text" = props !! "text".
Proof.
  unfold passed_props. cbv zeta.
  destruct (is_dict _); rewrite ?lookup_insert_ne by done;
    by rewrite !lookup_delete_ne by done.
Qed.

Lemma passed_props_pseudo props key :
  key ∈ pseudo_keys → passed_props props !! key = None.
Proof.
  intros Hkey. unfold passed_props, pseudo_keys in *. cbv zeta.
  rewrite !elem_of_cons, elem_of_nil in Hkey.
  destruct (is_dict _); destruct_or!; try done; subst key;
    rewrite ?lookup_insert_ne by done;
    repeat first [ apply lookup_delete_eq
                 | rewrite lookup_delete_ne by done ].
Qed.

Lemma bbox_step_fields pad props t :
  t_path_effects (bbox_step pad props t) = t_path_effects t
  ∧ t_props (bbox_step pad props t) = t_props t
  ∧ t_color (bbox_step pad props t) = t_color t.
Proof.
  unfold bbox_step. cbv zeta.
  destruct (is_dict _); [done|].
  destruct (truthy _); [done|]. by destruct (is_False _).
Qed.

Lemma border_step_props props t :
  t_props (border_step props t) = t_props t
  ∧ t_bbox (border_step props t) = t_bbox t.
Proof.
  unfold border_step. cbv zeta.
  destruct (truthy _); [by destruct (truthy _)|]. by destruct (is_False _).
Qed.

Lemma border_step_again props t u :
  border_inverted props = false →
  t_path_effects u = t_path_effects (border_step props t) →
  border_step props u = u.
Proof.
  unfold border_inverted, border_step. cbv zeta. intros Hinv Hu.
  destruct (truthy (default VNone (props !! "border"))).
  - simpl in Hinv. rewrite Hinv in *. simpl in Hu.
    rewrite (set_color_same _ u eq_refl). by apply set_path_effects_same.
  - destruct (is_False _); [|done]. by apply set_path_effects_same.
Qed.

Lemma bbox_step_again pad props t u :
  t_bbox u = t_bbox (bbox_step pad props t) → bbox_step pad props u = u.
Proof.
  unfold bbox_step. cbv zeta. intros Hu.
  destruct (is_dict _); [done|].
  destruct (truthy _); [by apply set_bbox_same|].
  destruct (is_False _); [by apply set_bbox_same|done].
Qed.

(** X3: [_update_text] is idempotent when the border is not inverted: if
    'border' and 'borderinvert' are not both true and the property 'text',
    when given, has a printed form, the call returns, and a second call
    with the same properties on its result changes nothing. (With an
    inverted border the second call swaps text colour and border colour
    again.) *)
Theorem update_text_idempotent (pad : Q) (props : kwargs) (t : text_obj) :
  border_inverted props = false →
  (∀ v, props !! "text" = Some v → is_Some (text_of_pyval v)) →
  ∃ t', _update_text pad props t = Ok t'
        ∧ _update_text pad props t' = Ok t'.
Proof.
  intros Hinv Htext.
  destruct (Text_update_returns (passed_props props)
              (bbox_step pad props (border_step props t))) as [t' Ht'].
  { intros v. rewrite passed_props_text. apply Htext. }
  exists t'. rewrite !update_text_steps. split; [done|].
  destruct (Text_update_fields _ _ _ Ht') as (Hpe & Hbb & _ & _).
  destruct (bbox_step_fields pad props (border_step props t)) as (Hpe' & _).
  rewrite (border_step_again props t t' Hinv) by congruence.
  rewrite (bbox_step_again pad props (border_step props t) t') by done.
  exact (Text_update_idem _ _ _ Ht').
Qed.

Lemma update_text_idempotent_witness :
  ∃ t', _update_text 5 {["border" := VBool true; "color" := VStr "red"]}
          (fresh_text true) = Ok t'
        ∧ _update_text 5 {["border" := VBool true; "color" := VStr "red"]} t'
          = Ok t'.
Proof.
  apply (update_text_idempotent 5
           {["border" := VBool true; "color" := VStr "red"]}
           (fresh_text true)).
  - reflexivity.
  - intros v Hv. vm_compute in Hv. discriminate.
Defined.

(** X4: the pseudo properties 'border', 'bordercolor', 'borderinvert',
    'borderwidth', 'bboxcolor', 'bboxstyle', 'bboxalpha' and 'bboxpad' are
    consumed by [_update_text]: none of them is handed on to
    [Text.update], so what the text object itself holds at these keys is
    what it held before the call. *)
Theorem update_text_keeps_pseudo_properties (pad : Q) (props : kwargs)
    (t : text_obj) :
  (∀ v, props !! "text" = Some v → is_Some (text_of_pyval v)) →
  ∃ t', _update_text pad props t = Ok t'
        ∧ ∀ key, key ∈ pseudo_keys → t_props t' !! key = t_props t !! key.
Proof.
  intros Htext.
  destruct (Text_update_returns (passed_props props)
              (bbox_step pad props (border_step props t))) as [t' Ht'].
  { intros v. rewrite passed_props_text. apply Htext. }
  exists t'. rewrite update_text_steps. split; [done|].
  intros key Hkey.
  destruct (Text_update_fields _ _ _ Ht') as (_ & _ & _ & ->).
  destruct (bbox_step_fields pad props (border_step props t)) as (_ & -> & _).
  destruct (border_step_props props t) as [-> _].
  unfold dict_update. rewrite lookup_union_r; [done|].
  rewrite map_lookup_filter_None. left. by apply passed_props_pseudo.
Qed.

Lemma update_text_keeps_pseudo_properties_witness :
  ∃ t', _update_text 5 {["border" := VBool true; "alpha" := VNum 1]}
          (fresh_text true) = Ok t'
        ∧ ∀ key, key ∈ pseudo_keys → t_props t' !! key = None.
Proof.
  apply (update_text_keeps_pseudo_properties 5
           {["border" := VBool true; "alpha" := VNum 1]} (fresh_text true)).
  intros v Hv. vm_compute in Hv. discriminate.
Defined.

(** ** The axes that [_iter_axes] yields *)

Lemma List_filter_elem_of {A} (f : A → bool) l x :
  x ∈ List.filter f l ↔ x ∈ l ∧ f x = true.
Proof. rewrite !list_elem_of_In. apply filter_In. Qed.

(** X5: where the axes, the panels of the sides asked for and their
    children exist, [_iter_axes] returns without changing the state, and
    what it yields is: the axes itself and then the panels of the sides in
    their order, without the hidden panels unless [hidden] is true, each
    followed by its child axes when [children] is true, and of all these
    the visible ones. So every axes it yields is visible, and without
    children every one is the axes or one of the panels asked for, and
    passed the test on hidden panels. *)
Theorem iter_axes_yields (w : world) (self : nat) (a : axes)
    (hidden children : bool) (panels : panels_arg) (sides : list side) :
  store w !! self = Some a →
  parse_panels panels = Ok sides →
  (∀ i, i ∈ panels_of a sides → is_Some (store w !! i)) →
  (∀ i c, i ∈ self :: panels_of a sides → c ∈ children_of w i →
          is_Some (store w !! c)) →
  ∃ l,
    _iter_axes self hidden children panels w = Ok (l, w)
    ∧ l = List.filter (is_visible w)
            (flat_map (with_children w children)
               (List.filter (iter_keeps w hidden) (self :: panels_of a sides)))
    ∧ (∀ i, i ∈ l → is_visible w i = true)
    ∧ (children = false → ∀ i, i ∈ l →
         i ∈ self :: panels_of a sides ∧ iter_keeps w hidden i = true).
Proof.
  intros Ha Hsides Hpanels Hchildren. eexists. split; [|split; [reflexivity|]].
  - unfold _iter_axes. rewrite Hsides, bind_lift_ok.
    step (get_axes_ok _ _ _ Ha). fold (panels_of a sides).
    assert (∀ i, i ∈ self :: panels_of a sides → is_Some (store w !! i))
      as Hall.
    { intros i [->|Hi]%elem_of_cons; [eauto|by apply Hpanels]. }
    step (filter_axes_pure (λ iax, hidden || negb (_panel_hidden iax)) w _ Hall).
    fold (iter_keeps w hidden).
    set (kept := List.filter _ _).
    assert (∀ i, i ∈ kept → i ∈ self :: panels_of a sides) as Hkept.
    { intros i Hi. by apply List_filter_elem_of in Hi as [? _]. }
    set (each := fix each (l : list nat) : M (list nat) := _).
    assert (∀ l, (∀ i, i ∈ l → i ∈ self :: panels_of a sides) →
                 each l w = Ok (flat_map (with_children w children) l, w))
      as Heach.
    { induction l as [|i l IH]; intros Hl; [done|].
      destruct (Hall i) as [b Hb]; [apply Hl; by left|].
      change (each (i :: l))
        with (iax <- get_axes i ;; rest <- each l ;;
              ret ((i :: if children then child_axes iax else []) ++ rest)%list).
      step (get_axes_ok _ _ _ Hb).
      rewrite (bind_ok _ _ _ _ _ (IH ltac:(intros j Hj; apply Hl; by right))).
      unfold ret. simpl. unfold with_children, children_of. by rewrite Hb. }
    step (Heach kept Hkept).
    rewrite (filter_axes_pure visible w).
    + done.
    + intros c Hc. apply list_elem_of_In, in_flat_map in Hc as (i & Hi & Hc).
      apply list_elem_of_In in Hi, Hc. unfold with_children in Hc.
      apply elem_of_cons in Hc as [->|Hc]; [by apply Hall, Hkept|].
      destruct children; [|by apply elem_of_nil in Hc].
      by apply (Hchildren i c); [apply Hkept|].
  - split.
    + intros i Hi. by apply List_filter_elem_of in Hi as [_ ?].
    + intros -> i Hi. apply List_filter_elem_of in Hi as [Hi _].
      apply list_elem_of_In, in_flat_map in Hi as (j & Hj & Hi).
      apply list_elem_of_In in Hj, Hi. unfold with_children in Hi.
      apply list_elem_of_singleton in Hi as ->.
      by apply List_filter_elem_of in Hj.
Qed.

Lemma iter_axes_yields_witness :
  returned (_iter_axes 0 false false (PanelsStr "left") two_stacks)
  = Ok [0; 3; 4].
Proof.
  destruct (iter_axes_yields two_stacks 0 _ false false (PanelsStr "left")
              [SLeft] eq_refl eq_refl) as (l & E & -> & _).
  - intros i Hi. change (i ∈ [2; 3; 4]) in Hi.
    rewrite !elem_of_cons, elem_of_nil in Hi.
    destruct Hi as [->|[->|[->|[]]]]; by eexists.
  - intros i c Hi Hc. change (i ∈ [0; 2; 3; 4]) in Hi.
    rewrite !elem_of_cons, elem_of_nil in Hi.
    destruct Hi as [->|[->|[->|[->|[]]]]]; by apply elem_of_nil in Hc.
  - rewrite E. reflexivity.
Defined.

(** X6: [_iter_axes] raises [ValueError], in every state, when the
    argument [panels] names a side that is none of 'left', 'right',
    'bottom' and 'top'. *)
Theorem iter_axes_invalid_side (w : world) (self : nat)
    (hidden children : bool) (panels : panels_arg) (s : string) :
  s ∈ panel_names panels →
  s ∉ ["left"; "right"; "bottom"; "top"] →
  _iter_axes self hidden children panels w = Raise ValueError.
Proof.
  intros Hin Hs. unfold _iter_axes.
  assert (parse_panels panels = Raise ValueError) as ->; [|done].
  unfold parse_panels. fold (panel_names panels).
  destruct (mapM side_of_name (panel_names panels)) as [sides|] eqn:Hm; [|done].
  exfalso. assert (is_Some (side_of_name s)) as [sd Hsd].
  { pose proof (proj1 (mapM_is_Some side_of_name _) (mk_is_Some _ _ Hm)) as Hall.
    rewrite list.Forall_forall in Hall. by apply (Hall s). }
  apply Hs. unfold side_of_name in Hsd.
  repeat case_decide; subst; rewrite ?elem_of_cons; auto. done.
Qed.

Lemma iter_axes_invalid_side_witness :
  _iter_axes 0 false false (PanelsList ["left"; "upper"]) two_stacks
  = Raise ValueError.
Proof.
  apply (iter_axes_invalid_side two_stacks 0 false false
           (PanelsList ["left"; "upper"]) "upper").
  - by apply (bool_decide_unpack _).
  - by apply (bool_decide_unpack _).
Defined.

(** ** Sharing of the long axes, and the whole setup *)

Lemma list_elem_of_rev {A} (x : A) (l : list A) : x ∈ rev l ↔ x ∈ l.
Proof. rewrite !list_elem_of_In. symmetry. apply in_rev. Qed.

Lemma for_each_fmap {A B} (f : A → B) (l : list A) (body : B → M unit) w :
  for_each (f <$> l) body w = for_each l (λ x, body (f x)) w.
Proof.
  revert w. induction l as [|x l IH]; intros w; simpl; [done|].
  unfold bind. destruct (body (f x) w) as [[[] w']|e]; [apply IH|done].
Qed.

Lemma share_long_axis_ok d w self share a sd :
  store w !! self = Some a →
  _panel_side a = None →
  (∀ i, i ∈ _panel_dict a sd →
        ∃ p, store w !! i = Some p ∧ is_Some (_panel_side p)) →
  _share_long_axis (_share_setup (S d)) self (Some share) sd w
  = Ok (tt, set_share_calls
              (rev (long_calls w (long_axis sd) (_panel_dict a sd) share)
               ++ share_calls w) w).
Proof.
  intros Ha Hmain Hps. unfold _share_long_axis.
  step (get_axes_ok _ _ _ Ha). rewrite Hmain.
  rewrite bool_decide_eq_false_2 by (by intros [? ?]).
  assert (∀ i, i ∈ _panel_dict a sd → is_Some (store w !! i)) as Hps'.
  { intros i Hi. destruct (Hps i Hi) as (p & -> & _). eauto. }
  rewrite (bind_ok _ _ _ _ _ (filter_axes_visible w (_panel_dict a sd) Hps')).
  fold (long_axis sd).
  rewrite <-(for_each_fmap (λ p, (p, share))
               (visible_panels w (_panel_dict a sd))
               (λ cp, _share_setup (S d) (long_axis sd) cp.1 cp.2)).
  rewrite share_pairs_ok.
  - unfold long_calls. by rewrite <-list_fmap_compose.
  - intros cp [p [-> Hp]]%list_elem_of_fmap. simpl. apply Hps.
    unfold visible_panels in Hp. by apply list_elem_of_filter in Hp as [_ ?].
Qed.

Lemma share_short_axis_ok d w self share a s sd :
  store w !! self = Some a →
  store w !! share = Some s →
  _panel_side a = None →
  (∀ i, i ∈ _panel_dict a sd →
        ∃ p, store w !! i = Some p ∧ is_Some (_panel_side p)) →
  (∀ i, i ∈ _panel_dict s sd → is_Some (store w !! i)) →
  _share_short_axis (_share_setup (S d)) self (Some share) sd w
  = Ok (tt, set_share_calls
              (rev (zipped_calls (short_axis sd)
                      (visible_panels w (_panel_dict a sd))
                      (visible_panels w (_panel_dict s sd)))
               ++ share_calls w) w).
Proof.
  intros Ha Hs Hmain Hcs Hps. unfold _share_short_axis.
  step (get_axes_ok _ _ _ Ha).
  rewrite Hmain. rewrite bool_decide_eq_false_2 by (by intros [? ?]).
  step (get_axes_ok _ _ _ Hs).
  assert (∀ i, i ∈ _panel_dict a sd → is_Some (store w !! i)) as Hcs'.
  { intros i Hi. destruct (Hcs i Hi) as (p & -> & _). eauto. }
  rewrite (bind_ok _ _ _ _ _ (filter_axes_visible w (_panel_dict a sd) Hcs')).
  rewrite (bind_ok _ _ _ _ _ (filter_axes_visible w (_panel_dict s sd) Hps)).
  rewrite share_pairs_ok; [done|].
  intros [c q] Hin. simpl. apply elem_of_zip_l in Hin.
  apply Hcs. unfold visible_panels in Hin.
  by apply list_elem_of_filter in Hin as [_ ?].
Qed.

(** X7: [_share_long_axis] on an axes that is not a panel makes one call
    of the sharing setup for each visible panel of the side, in the order
    of the stack, along the long axis of the side (x for 'top' and
    'bottom', y for 'left' and 'right') and with the axes to share with as
    the argument; it changes no axes, and a hidden panel of the side takes
    part in none of the calls made. *)
Theorem share_long_axis_calls (d : nat) (w : world) (self share : nat)
    (a : axes) (sd : side) :
  store w !! self = Some a →
  _panel_side a = None →
  (∀ i, i ∈ _panel_dict a sd →
        ∃ p, store w !! i = Some p ∧ is_Some (_panel_side p)) →
  let paxs := visible_panels w (_panel_dict a sd) in
  ∃ w',
    _share_long_axis (_share_setup (S d)) self (Some share) sd w = Ok (tt, w')
    ∧ store w' = store w
    ∧ share_calls w'
      = (rev ((λ p, (p, long_axis sd, share)) <$> paxs) ++ share_calls w)%list
    ∧ ∀ p, p ∈ _panel_dict a sd → is_hidden w p = true →
           ∀ call, call ∈ share_calls w' → call ∉ share_calls w →
                   call.1.1 ≠ p.
Proof.
  intros Ha Hmain Hps paxs. eexists. split; [by apply share_long_axis_ok|].
  split; [done|]. split; [done|].
  intros p _ Hhid call Hcall Hnew Heq. simpl in Hcall.
  apply elem_of_app in Hcall as [Hcall|Hcall]; [|done].
  rewrite list_elem_of_rev in Hcall. unfold long_calls in Hcall.
  apply list_elem_of_fmap in Hcall as (q & -> & Hq). simpl in Heq. subst q.
  unfold visible_panels in Hq. apply list_elem_of_filter in Hq as [Hq _].
  congruence.
Qed.

Lemma share_long_axis_calls_witness :
  after (_share_long_axis (_share_setup 1) 0 (Some 1) SLeft two_stacks)
    share_calls
  = Ok [(4, Y, 1); (3, Y, 1)].
Proof.
  destruct (share_long_axis_calls 0 two_stacks 0 1 _ SLeft eq_refl eq_refl)
    as (w' & E & _ & Hcalls & _).
  - intros i Hi. change (i ∈ [2; 3; 4]) in Hi.
    rewrite !elem_of_cons, elem_of_nil in Hi.
    destruct Hi as [->|[->|[->|[]]]];
      (eexists; split; [reflexivity|by eexists]).
  - rewrite E. simpl. rewrite Hcalls. reflexivity.
Defined.

(** X8: the calls that [_sharex_setup] or [_sharey_setup] makes on an axes
    that is not a panel, whose panels are panels and exist: after the call
    itself come the pairs of the two short stacks side by side, then the
    panels of the two long stacks, each with the axes to share with; all
    of these calls are along the axis of the first call, and nothing but
    the record of the calls changes. *)
Theorem share_setup_calls (d : nat) (x : axis) (w : world) (self share : nat)
    (a s : axes) :
  store w !! self = Some a →
  store w !! share = Some s →
  _panel_side a = None →
  (∀ sd i, i ∈ _panel_dict a sd →
           ∃ p, store w !! i = Some p ∧ is_Some (_panel_side p)) →
  (∀ sd i, i ∈ _panel_dict s sd → is_Some (store w !! i)) →
  let calls := setup_calls w x self share a s in
  _share_setup (S (S d)) x self share w
  = Ok (tt, set_share_calls (rev calls ++ share_calls w) w)
  ∧ ∀ call, call ∈ calls → call.1.2 = x.
Proof.
  intros Ha Hs Hmain Hcs Hps calls. split.
  - change (_share_setup (S (S d)) x self share)
      with (bind (record_share x self share)
              (λ _, match x with
                    | X =>
                        bind (_share_short_axis (_share_setup (S d)) self
                                (Some share) SLeft)
                          (λ _, bind (_share_short_axis (_share_setup (S d))
                                        self (Some share) SRight)
                                  (λ _, bind (_share_long_axis
                                                (_share_setup (S d)) self
                                                (Some share) SBottom)
                                          (λ _, _share_long_axis
                                                  (_share_setup (S d)) self
                                                  (Some share) STop)))
                    | Y =>
                        bind (_share_short_axis (_share_setup (S d)) self
                                (Some share) SBottom)
                          (λ _, bind (_share_short_axis (_share_setup (S d))
                                        self (Some share) STop)
                                  (λ _, bind (_share_long_axis
                                                (_share_setup (S d)) self
                                                (Some share) SLeft)
                                          (λ _, _share_long_axis
                                                  (_share_setup (S d)) self
                                                  (Some share) SRight)))
                    end)).
    assert (record_share x self share w
            = Ok (tt, set_share_calls ((self, x, share) :: share_calls w) w))
      as E0 by done.
    step E0.
    assert (∀ w1 sd, store w1 = store w →
              _share_short_axis (_share_setup (S d)) self (Some share) sd w1
              = Ok (tt, set_share_calls
                          (rev (zipped_calls (short_axis sd)
                                  (visible_panels w (_panel_dict a sd))
                                  (visible_panels w (_panel_dict s sd)))
                           ++ share_calls w1) w1)) as Hshort.
    { intros w1 sd Hw1.
      rewrite (share_short_axis_ok d w1 self share a s sd)
        by (rewrite ?Hw1; eauto).
      unfold visible_panels, is_hidden. by rewrite Hw1. }
    assert (∀ w1 sd, store w1 = store w →
              _share_long_axis (_share_setup (S d)) self (Some share) sd w1
              = Ok (tt, set_share_calls
                          (rev (long_calls w (long_axis sd) (_panel_dict a sd)
                                  share)
                           ++ share_calls w1) w1)) as Hlong.
    { intros w1 sd Hw1.
      rewrite (share_long_axis_ok d w1 self share a sd)
        by (rewrite ?Hw1; eauto).
      unfold long_calls, visible_panels, is_hidden. by rewrite Hw1. }
    unfold calls, setup_calls.
    destruct x; cbv beta iota.
    all: repeat
      match goal with
      | |- bind (_share_short_axis _ _ _ ?sd) _ ?w1 = _ =>
          rewrite (bind_ok _ _ _ _ _ (Hshort w1 sd eq_refl))
      | |- bind (_share_long_axis _ _ _ ?sd) _ ?w1 = _ =>
          rewrite (bind_ok _ _ _ _ _ (Hlong w1 sd eq_refl))
      | |- _share_long_axis _ _ _ ?sd ?w1 = _ =>
          rewrite (Hlong w1 sd eq_refl)
      end.
    all: simpl; rewrite !rev_app_distr, <-!app_assoc; done.
  - intros call Hcall. unfold calls, setup_calls in Hcall.
    apply elem_of_cons in Hcall as [->|Hcall]; [done|].
    assert (∀ l1 l2, call ∈ zipped_calls x l1 l2 → call.1.2 = x) as Hz.
    { intros l1 l2 (cp & -> & _)%list_elem_of_fmap. done. }
    assert (∀ l, call ∈ long_calls w x l share → call.1.2 = x) as Hl.
    { intros l (p & -> & _)%list_elem_of_fmap. done. }
    destruct x; rewrite !elem_of_app in Hcall; destruct_or!; eauto.
Qed.

Lemma share_setup_calls_witness :
  after (_sharex_setup 2 0 1 two_stacks) share_calls
  = Ok [(3, X, 5); (0, X, 1)].
Proof.
  destruct (share_setup_calls 0 X two_stacks 0 1 _ _ eq_refl eq_refl eq_refl)
    as (E & _).
  - intros sd i Hi.
    destruct sd;
      [change (i ∈ [2; 3; 4]) in Hi
      |change (i ∈ @nil nat) in Hi; by apply elem_of_nil in Hi..].
    rewrite !elem_of_cons, elem_of_nil in Hi.
    destruct Hi as [->|[->|[->|[]]]];
      (eexists; split; [reflexivity|by eexists]).
  - intros sd i Hi.
    destruct sd;
      [change (i ∈ [5]) in Hi
      |change (i ∈ @nil nat) in Hi; by apply elem_of_nil in Hi..].
    rewrite !elem_of_cons, elem_of_nil in Hi.
    destruct Hi as [->|[]]. by eexists.
  - unfold _sharex_setup. rewrite E. reflexivity.
Defined.

(** ** The registries of guides *)


















(** X11: [_draw_guides] does nothing on an axes whose registries hold
    drawn guides only: no drawing function is called (the result holds for
    all of them) and the state is unchanged. *)
Theorem draw_guides_nothing_queued (_draw_colorbar _draw_legend : driver)
    (w : world) (self : nat) (a : axes) :
  store w !! self = Some a →
  Forall (λ item, is_settled "colorbar" item.2 = true) (_colorbar_dict a) →
  Forall (λ item, is_settled "legend" item.2 = true) (_legend_dict a) →
  _draw_guides _draw_colorbar _draw_legend self w = Ok (tt, w).
Proof.
  intros Ha Hcb Hleg. unfold _draw_guides.
  step (get_axes_ok _ _ _ Ha).
  erewrite bind_ok.
  2:{ apply for_each_skip. eapply List.Forall_impl; [|exact Hcb].
      intros [k [h l kw|o|[|o os]]]; simpl; done. }
  step (get_axes_ok _ _ _ Ha). apply for_each_skip.
  eapply List.Forall_impl; [|exact Hleg].
  intros [k [h l kw|o|[|o os]]]; simpl; done.
Qed.

Lemma draw_guides_nothing_queued_witness :
  _draw_guides (recording_driver "colorbar") (recording_driver "legend") 0
    (with_guide "legend")
  = Ok (tt, with_guide "legend").
Proof.
  apply (draw_guides_nothing_queued _ _ (with_guide "legend") 0 _ eq_refl).
  - by apply (bool_decide_unpack _).
  - by apply (bool_decide_unpack _).
Defined.

(** ** Titles above the panels, twice *)

Lemma received_again s d : received (given s) (received s d) = received s d.
Proof.
  unfold received, given. destruct (blank (t_text s)) eqn:Hb; simpl.
  - by rewrite Hb.
  - done.
Qed.

Lemma given_again s : given (given s) = given s.
Proof.
  unfold given. destruct (blank (t_text s)) eqn:Hb; simpl; by rewrite ?Hb.
Qed.

(** X12: [_above_title] is idempotent on an axes with a top panel: the
    call returns, and a second call leaves every title of every axes, and
    everything that is not a title, as the first call left it. Titles that
    were moved to the panel (or back to the axes) are not moved again. *)
Theorem above_title_idempotent (w : world) (self pax : nat) (a p : axes) :
  store w !! self = Some a →
  store w !! pax = Some p →
  list.last (_panel_dict a STop) = Some pax →
  self ≠ pax →
  ∃ w1 w2,
    _above_title self w = Ok (tt, w1)
    ∧ _above_title self w1 = Ok (tt, w2)
    ∧ (∀ r, title_of w2 r = title_of w1 r)
    ∧ without_titles w2 = without_titles w1.
Proof.
  intros Ha Hp Hlast Hne.
  destruct (above_title_run w self pax a p Ha Hp Hlast Hne)
    as (src & dest & as_ & ad & w1 & s1 & d1 & Hdir & Hsd & Hs & Hd & E & F1
        & Hs1 & Hd1 & Hus & Hud & T1).
  set (w3 := set_store (<[dest := copy_pads s1 d1]> (store w1)) w1) in *.
  assert (store w3 !! src = Some s1) as Hs3
    by (unfold w3; by rewrite store_set_store, lookup_insert_ne).
  assert (store w3 !! dest = Some (copy_pads s1 d1)) as Hd3
    by (unfold w3; by rewrite store_set_store, lookup_insert_eq).
  assert (∀ r, title_of w3 r = title_of w1 r) as T3
    by exact (title_of_insert_same w1 dest d1 (copy_pads s1 d1) Hd1 eq_refl).
  (* the axes [self] and [pax] after the first call *)
  assert (∃ a3 p3,
    store w3 !! self = Some a3 ∧ store w3 !! pax = Some p3
    ∧ _panel_dict a3 = _panel_dict a ∧ _title_above a3 = _title_above a
    ∧ _abc_loc a3 = _abc_loc a ∧ _panel_hidden p3 = _panel_hidden p)
    as (a3 & p3 & Ha3 & Hp3 & Hpd & Hta & Hal & Hph).
  { destruct (is_True (_title_above a) || _); injection Hdir as -> ->.
    - assert (as_ = a) as -> by congruence.
      assert (ad = p) as -> by congruence.
      exists s1, (copy_pads s1 d1). split; [done|]. split; [done|].
      split; [exact (f_equal _panel_dict Hus)|].
      split; [exact (f_equal _title_above Hus)|].
      split; [exact (f_equal _abc_loc Hus)|].
      exact (f_equal _panel_hidden Hud).
    - assert (as_ = p) as -> by congruence.
      assert (ad = a) as -> by congruence.
      exists (copy_pads s1 d1), s1. split; [done|]. split; [done|].
      split; [exact (f_equal _panel_dict Hud)|].
      split; [exact (f_equal _title_above Hud)|].
      split; [exact (f_equal _abc_loc Hud)|].
      exact (f_equal _panel_hidden Hus). }
  destruct (above_title_run w3 self pax a3 p3 Ha3 Hp3
              ltac:(by rewrite Hpd) Hne)
    as (src' & dest' & as3 & ad3 & w4 & s4 & d4 & Hdir' & _ & Hs' & Hd' & E'
        & F4 & Hs4 & Hd4 & Hus4 & Hud4 & T4).
  rewrite Hta, Hph, <-Hdir in Hdir'. injection Hdir' as -> ->.
  rewrite Hs3 in Hs'. injection Hs' as <-.
  rewrite Hd3 in Hd'. injection Hd' as <-. rewrite Hal in T4.
  exists w3. eexists. split; [exact E|]. split; [exact E'|]. split.
  - intros [k n].
    rewrite (title_of_insert_same w4 dest d4 (copy_pads s4 d4) Hd4 eq_refl).
    rewrite T4, !T3.
    pose proof (T1 src n) as Tsrc. pose proof (T1 dest n) as Tdest.
    rewrite (title_of_store _ _ _ _ Hs1) in Tsrc.
    rewrite (title_of_store _ _ _ _ Hd1) in Tdest.
    rewrite (title_of_store _ _ _ _ Hs), (decide_False (P := src = dest)),
      (decide_True (P := src = src)) in Tsrc by done.
    rewrite (title_of_store _ _ _ _ Hd), (decide_True (P := dest = dest))
      in Tdest by done.
    destruct (decide (n ∈ above_names (_abc_loc a))); [|done].
    injection Tsrc as Tsrc. injection Tdest as Tdest.
    change (_title_dict (copy_pads s1 d1) n) with (_title_dict d1 n).
    rewrite Tsrc, Tdest, received_again, given_again.
    destruct (decide (k = dest)) as [->|].
    { by rewrite (title_of_store _ _ _ _ Hd1), Tdest. }
    destruct (decide (k = src)) as [->|]; [|done].
    by rewrite (title_of_store _ _ _ _ Hs1), Tsrc.
  - transitivity (without_titles w4); [|done].
    unfold without_titles, set_store. simpl. f_equal.
    rewrite fmap_insert.
    apply insert_id. rewrite lookup_fmap, Hd4. simpl. f_equal.
    assert (_title_pad s4 = _title_pad s1) as Hp1
      by exact (f_equal _title_pad Hus4).
    assert (_abc_title_pad s4 = _abc_title_pad s1) as Hp2
      by exact (f_equal _abc_title_pad Hus4).
    change (untitled d4 = copy_pads s4 (untitled d4)).
    rewrite Hud4. unfold copy_pads. by rewrite Hp1, Hp2.
Qed.

Lemma above_title_idempotent_witness :
  ∃ w1 w2,
    _above_title 0 (main_with_top_panel (VBool true) false) = Ok (tt, w1)
    ∧ _above_title 0 w1 = Ok (tt, w2)
    ∧ (∀ r, title_of w2 r = title_of w1 r)
    ∧ without_titles w2 = without_titles w1.
Proof.
  apply (above_title_idempotent (main_with_top_panel (VBool true) false) 0 1
           _ _ eq_refl eq_refl eq_refl).
  lia.
Defined.

(** ** The a-b-c label of an axes *)

Lemma abc_label_Some style n :
  is_Some (search_aA style) → is_Some (abc_label style n).
Proof.
  intros [c Hc]. unfold abc_label. rewrite Hc.
  destruct (ABC_STRING_get (Z.to_nat ((n - 1) `mod` 26))) as [l Hl].
  { pose proof (Z.mod_pos_bound (n - 1) 26). lia. }
  rewrite Hl. by eexists.
Qed.

(** X13: [_update_abc] raises [ValueError] when the setting 'abc' is
    true-like and is neither [True] nor a string with a letter 'a' or 'A':
    for instance the string '(i)'. *)
Theorem update_abc_invalid_style (rc : rc_context) (w : world) (self : nat)
    (a : axes) (kwargs : kwargs) (v : pyval) :
  store w !! self = Some a →
  rc_find rc "abc" = Some v →
  truthy v = true →
  v ≠ VBool true →
  (∀ style, v = VStr style → search_aA style = None) →
  _update_abc rc self kwargs w = Raise ValueError.
Proof.
  intros Ha Hv Htr Hnt Hstyle. unfold _update_abc.
  rewrite (bind_modify_axes _ _ _ _ _ Ha).
  erewrite bind_get_axes by apply lookup_insert_eq.
  rewrite Hv. simpl.
  destruct v as [|[]|q|style|d]; simpl in *; try done.
  - by rewrite Htr.
  - rewrite Htr. by rewrite (Hstyle style eq_refl).
  - by rewrite Htr.
Qed.

Lemma update_abc_invalid_style_witness :
  _update_abc (RC {["abc" := VStr "(i)"]} None None) 0 ∅ one_subplot
  = Raise ValueError.
Proof.
  apply (update_abc_invalid_style (RC {["abc" := VStr "(i)"]} None None)
           one_subplot 0 _ ∅ (VStr "(i)") eq_refl).
  - reflexivity.
  - reflexivity.
  - discriminate.
  - intros style [= <-]. reflexivity.
Defined.

(** X14: on an axes without top panel, for a style with a letter 'a' or
    'A' (or the setting [True], which stands for 'a'), with the location
    of the label unchanged and no text among the overrides, [_update_abc]
    returns; on an axes with a number the text of the a-b-c label is then
    the label computed from the style and the number, on an axes without
    number the text is unchanged; and the label has the colour and the
    font properties found among the overrides. *)
Theorem update_abc_text (rc : rc_context) (w : world) (self : nat) (a : axes)
    (kwargs : kwargs) (loc : slot) (v : pyval) (style : string) :
  store w !! self = Some a →
  _panel_dict a STop = [] →
  kwargs !! "text" = None →
  _abc_border_kwargs a !! "text" = None →
  rc_find rc "abc.loc" = None →
  _abc_loc a = Some loc →
  rc_find rc "abc" = Some v →
  abc_style v = Some style →
  is_Some (search_aA style) →
  ∃ w' a',
    _update_abc rc self kwargs w = Ok (tt, w')
    ∧ store w' !! self = Some a'
    ∧ match number a with
      | Some n => abc_label style n = Some (t_text (_title_dict a' abc_title))
      | None =>
          t_text (_title_dict a' abc_title) = t_text (_title_dict a abc_title)
      end
    ∧ ∀ key val, key ∈ style_keys → kwargs !! key = Some val →
                 style_of (_title_dict a' abc_title) key = val.
Proof.
  intros Ha Htop Hkw Hborder Hloc Hstored Hv Hstyle Hsearch.
  remember (_update_abc rc self kwargs w) as run eqn:Hrun.
  unfold _update_abc in Hrun.
  set (kw0 := rc_fill rc [("size", _); _; _; _]) in Hrun.
  set (kwb := rc_fill rc [("border", _); _; _; _; _; _; _]) in Hrun.
  assert (kw0 !! "text" = None) as Hkw0.
  { apply rc_fill_lookup_None; simpl;
      rewrite ?elem_of_cons, elem_of_nil; intuition discriminate. }
  assert (kwb !! "text" = None) as Hkwb.
  { apply rc_fill_lookup_None; simpl;
      rewrite ?elem_of_cons, elem_of_nil; intuition discriminate. }
  rewrite (bind_modify_axes _ _ _ _ _ Ha) in Hrun.
  set (a1 := set_abc_border_kwargs _ a) in Hrun.
  erewrite bind_get_axes in Hrun by apply lookup_insert_eq.
  rewrite Hv, Hloc in Hrun. simpl in Hrun.
  change (number a1) with (number a) in Hrun.
  change (_abc_loc a1) with (_abc_loc a) in Hrun. rewrite Hstored in Hrun.
  destruct Hsearch as [c Hc].
  (* the keyword arguments with the label *)
  set (label := match number a with
                | Some n => abc_label style n
                | None => None
                end).
  set (kw1 := match label with
              | Some l => <["text" := VStr l]> kw0
              | None => kw0
              end).
  assert (∀ n, number a = Some n → is_Some label) as Hlabel.
  { intros n Hn. unfold label. rewrite Hn. apply abc_label_Some. eauto. }
  assert (∀ B (k : gmap string pyval → M B) w0,
    bind (if truthy (if is_True v then VStr "a" else v) then
            match (if is_True v then VStr "a" else v) with
            | VStr style =>
                match search_aA style with
                | None => raise ValueError
                | Some _ =>
                    match number a with
                    | None => ret kw0
                    | Some n =>
                        match abc_label style n with
                        | Some label => ret (<["text" := VStr label]> kw0)
                        | None => raise AttributeError
                        end
                    end
                end
            | _ => raise ValueError
            end
          else ret kw0) k w0 = k kw1 w0) as Hkw1.
  { intros B k w0. unfold kw1, label.
    assert ((if is_True v then VStr "a" else v) = VStr style) as ->.
    { destruct v as [|[]|q|s|d]; simplify_eq/=; done. }
    assert (truthy (VStr style) = true) as ->.
    { simpl. destruct style; [done|]. done. }
    rewrite Hc. destruct (number a) as [n|] eqn:Hn; [|done].
    destruct (abc_label_Some style n ltac:(eauto)) as [l ->]. done. }
  rewrite Hkw1 in Hrun. unfold ret at 1, bind at 1 in Hrun.
  erewrite bind_modify_axes in Hrun by apply lookup_insert_eq.
  rewrite store_set_store, set_store_twice, insert_insert_eq in Hrun.
  set (a3 := set_abc_loc (Some loc) a1) in Hrun.
  set (w3 := set_store (<[self := a3]> (store w)) w) in Hrun.
  assert (store w3 !! self = Some a3) as Hw3 by apply lookup_insert_eq.
  step_in Hrun (get_axes_ok _ _ _ Hw3).
  set (kw := dict_update _ kwargs) in Hrun.
  assert (kw !! "text" = VStr <$> label) as Htext.
  { unfold kw, dict_update. rewrite lookup_union_r by done.
    assert (kw1 !! "text" = VStr <$> label) as Hk1.
    { unfold kw1. destruct label; [by rewrite lookup_insert_eq|done]. }
    destruct (is_outer loc); [done|].
    destruct label as [l|] eqn:Hl.
    - apply lookup_union_Some_raw. right. split; [|done].
      unfold a3, a1. simpl. unfold dict_update.
      rewrite lookup_union_None. done.
    - rewrite lookup_union_None. split; [|done].
      unfold a3, a1. simpl. unfold dict_update.
      rewrite lookup_union_None. done. }
  assert (_title_dict a3 = _title_dict a) as Htd by done.
  assert (_panel_dict a3 = _panel_dict a) as Hpd by done.
  clearbody w3 a3.
  destruct (text_update_ok (_title_pad a3) kw (_title_dict a3 abc_title))
    as (t' & E & Ht' & Hs').
  { intros val. rewrite Htext. destruct label; intros; simplify_eq/=. eauto. }
  unfold update_title_obj in Hrun. rewrite bind_assoc in Hrun.
  simpl in Hrun. step_in Hrun (get_axes_ok _ _ _ Hw3).
  rewrite E, bind_assoc, bind_lift_ok in Hrun.
  destruct (modify_title_ok w3 (self, abc_title) (_title_dict a3 abc_title)
              (λ _, t')) as (w4 & E4 & F4 & T4).
  { unfold title_of. simpl. by rewrite Hw3. }
  simpl in E4. step_in Hrun E4.
  destruct (title_of_inv w4 (self, abc_title) t') as (a4 & Ha4 & Ht4).
  { rewrite T4. by rewrite decide_True. }
  simpl in Ha4, Ht4.
  assert (_panel_dict a4 STop = []) as Htop4.
  { apply (f_equal store) in F4. unfold without_titles in F4. simpl in F4.
    apply (f_equal (λ m, _panel_dict <$> m !! self)) in F4.
    rewrite !lookup_fmap, Ha4, Hw3 in F4. simpl in F4.
    injection F4 as ->. by rewrite Hpd. }
  unfold _above_title in Hrun. step_in Hrun (get_axes_ok _ _ _ Ha4).
  rewrite Htop4 in Hrun. simpl in Hrun.
  exists w4, a4. split; [done|].
  split; [done|]. rewrite Ht4. split.
  - rewrite Ht'. unfold updated_text. rewrite Htext, Htd.
    destruct (number a) as [n|] eqn:Hn.
    + destruct (Hlabel n eq_refl) as [l Hl]. rewrite Hl. simpl.
      by unfold label in Hl.
    + by unfold label.
  - intros key val Hkey Hval. apply Hs'; [done|].
    unfold kw, dict_update. by apply lookup_union_Some_l.
Qed.

Lemma update_abc_text_witness :
  ∃ w' a',
    _update_abc (RC {["abc" := VStr "(A)"]} None None) 0 ∅
      (numbered_subplot 28) = Ok (tt, w')
    ∧ store w' !! 0 = Some a'
    ∧ t_text (_title_dict a' abc_title) = "(BB)".
Proof.
  destruct (update_abc_text (RC {["abc" := VStr "(A)"]} None None)
              (numbered_subplot 28) 0 _ ∅ left_title (VStr "(A)") "(A)"
              eq_refl)
    as (w' & a' & E & Ha' & Hlabel & _);
    [reflexivity..|by eexists|].
  exists w', a'. split; [exact E|]. split; [exact Ha'|].
  change (Some "(BB)" = Some (t_text (_title_dict a' abc_title))) in Hlabel.
  by injection Hlabel as <-.
Defined.

(** ** Titles that change their location *)

(** X15: when the setting 'title.loc' names a location other than the
    stored one, [_update_title] without a title argument moves the title:
    on an axes without top panel, whose title at the old location is not
    blank, the new location is stored, the title there has the old text,
    and the title at the old location is left empty. *)
Theorem update_title_relocates (rc : rc_context) (w : world) (self : nat)
    (a : axes) (kwargs : kwargs) (old new : slot) :
  store w !! self = Some a →
  _panel_dict a STop = [] →
  kwargs !! "text" = None →
  _title_border_kwargs a !! "text" = None →
  _title_loc a = Some old →
  rc_find rc "title.loc" = Some (VStr (slot_name new)) →
  new ≠ old →
  blank (t_text (_title_dict a old)) = false →
  ∃ w' a',
    _update_title rc self None None kwargs w = Ok (tt, w')
    ∧ store w' !! self = Some a'
    ∧ _title_loc a' = Some new
    ∧ t_text (_title_dict a' new) = t_text (_title_dict a old)
    ∧ t_text (_title_dict a' old) = "".
Proof.
  intros Ha Htop Hkw Hborder Hold Hrc Hne Hblank.
  remember (_update_title rc self None None kwargs w) as run eqn:Hrun.
  unfold _update_title in Hrun.
  set (kw0 := match rc_fill rc _ !! "color" with
              | Some c => _ | None => _ end) in Hrun.
  set (kwb := rc_fill rc [("border", _); _; _; _; _; _; _]) in Hrun.
  assert (kw0 !! "text" = None) as Hkw0.
  { unfold kw0.
    destruct (rc_fill rc _ !! "color") as [c|]; [destruct (eq_str c "auto")|];
      rewrite ?lookup_delete_ne by done;
      apply rc_fill_lookup_None; simpl;
      rewrite ?elem_of_cons, elem_of_nil; intuition discriminate. }
  assert (kwb !! "text" = None) as Hkwb.
  { apply rc_fill_lookup_None; simpl;
      rewrite ?elem_of_cons, elem_of_nil; intuition discriminate. }
  rewrite (bind_modify_axes _ _ _ _ _ Ha) in Hrun.
  erewrite (bind_modify_if_set _ self w) in Hrun by done.
  erewrite (bind_modify_if_set _ self w) in Hrun by done.
  rewrite !set_store_twice in Hrun.
  match type of Hrun with
  | context [set_store (<[self := ?x]> (store w)) w] =>
      set (a3 := x) in Hrun;
      set (w3 := set_store (<[self := a3]> (store w)) w) in Hrun
  end.
  assert (store w3 !! self = Some a3) as Hw3 by apply lookup_insert_eq.
  assert (_title_dict a3 = _title_dict a) as Htd.
  { unfold a3. by destruct (rc_title_pad rc), (rc_abc_titlepad rc). }
  assert (_panel_dict a3 = _panel_dict a) as Hpd.
  { unfold a3. by destruct (rc_title_pad rc), (rc_abc_titlepad rc). }
  assert (_title_loc a3 = _title_loc a) as Htl.
  { unfold a3. by destruct (rc_title_pad rc), (rc_abc_titlepad rc). }
  assert (_title_border_kwargs a3 !! "text" = None) as Hb3.
  { assert (_title_border_kwargs a3 = dict_update (_title_border_kwargs a) kwb)
      as ->.
    { unfold a3. by destruct (rc_title_pad rc), (rc_abc_titlepad rc). }
    unfold dict_update. rewrite lookup_union_None. done. }
  clearbody w3 a3 kw0 kwb.
  rewrite bind_assoc in Hrun. step_in Hrun (get_axes_ok _ _ _ Hw3).
  rewrite Hrc, Htl, Hold in Hrun.
  assert (resolve_loc (Some (VStr (slot_name new))) (Some old) w3
          = Ok (new, w3)) as Hres.
  { unfold resolve_loc.
    assert (truthy (VStr (slot_name new)) = true) as -> by (by destruct new).
    by rewrite translate_slot_name. }
  rewrite bind_assoc in Hrun. step_in Hrun Hres.
  rewrite bind_assoc in Hrun.
  rewrite (bind_modify_axes _ _ _ _ _ Hw3) in Hrun.
  rewrite decide_False in Hrun by done.
  set (a5 := set_title_loc (Some new) a3) in Hrun.
  set (w5 := set_store (<[self := a5]> (store w3)) w3) in Hrun.
  assert (store w5 !! self = Some a5) as Hw5 by apply lookup_insert_eq.
  destruct (transfer_text_ok w5 (self, old) (self, new)
              (_title_dict a old) (_title_dict a new))
    as (w6 & E6 & F6 & T6).
  { congruence. }
  { rewrite (title_of_store _ _ _ _ Hw5). simpl. by rewrite Htd. }
  { rewrite (title_of_store _ _ _ _ Hw5). simpl. by rewrite Htd. }
  rewrite bind_assoc in Hrun. step_in Hrun E6.
  unfold ret at 1, bind at 1 in Hrun.
  destruct (untitled_present w5 w6 self a5 F6 Hw5) as (a6 & Hw6 & Hu6).
  step_in Hrun (get_axes_ok _ _ _ Hw6).
  assert (_title_border_kwargs a6 = _title_border_kwargs a3) as Hb6
    by exact (f_equal _title_border_kwargs Hu6).
  assert (_panel_dict a6 = _panel_dict a) as Hpd6.
  { rewrite <-Hpd. exact (f_equal _panel_dict Hu6). }
  assert (_title_loc a6 = Some new) as Htl6
    by exact (f_equal _title_loc Hu6).
  set (kw := dict_update _ kwargs) in Hrun.
  assert (kw !! "text" = None) as Htext.
  { unfold kw, dict_update. rewrite lookup_union_None. split; [done|].
    destruct (is_outer new); [done|].
    rewrite lookup_union_None, Hb6. done. }
  assert (title_of w6 (self, new)
          = Some (received (_title_dict a old) (_title_dict a new))) as Hnew6.
  { rewrite T6. by rewrite decide_True. }
  assert (title_of w6 (self, old) = Some (given (_title_dict a old))) as Hold6.
  { rewrite T6. rewrite decide_False by congruence. by rewrite decide_True. }
  rewrite (title_of_store _ _ _ _ Hw6) in Hnew6.
  rewrite (title_of_store _ _ _ _ Hw6) in Hold6.
  injection Hnew6 as Hnew6. injection Hold6 as Hold6. simpl in Hnew6, Hold6.
  destruct (text_update_ok (_title_pad a6) kw (_title_dict a6 new))
    as (t' & E & Ht' & _).
  { intros v. by rewrite Htext. }
  unfold update_title_obj in Hrun. rewrite bind_assoc in Hrun.
  simpl in Hrun. step_in Hrun (get_axes_ok _ _ _ Hw6).
  rewrite E, bind_assoc, bind_lift_ok in Hrun.
  destruct (modify_title_ok w6 (self, new) (_title_dict a6 new) (λ _, t'))
    as (w7 & E7 & F7 & T7).
  { by rewrite (title_of_store _ _ _ _ Hw6). }
  simpl in E7. step_in Hrun E7.
  destruct (untitled_present w6 w7 self a6 F7 Hw6) as (a7 & Hw7 & Hu7).
  assert (_panel_dict a7 STop = []) as Htop7.
  { rewrite <-Htop, <-Hpd6. exact (f_equal (λ x, _panel_dict x STop) Hu7). }
  unfold _above_title in Hrun. step_in Hrun (get_axes_ok _ _ _ Hw7).
  rewrite Htop7 in Hrun. simpl in Hrun.
  exists w7, a7. split; [done|]. split; [done|].
  split; [rewrite <-Htl6; exact (f_equal _title_loc Hu7)|].
  pose proof (T7 (self, new)) as Tn. pose proof (T7 (self, old)) as To.
  rewrite (title_of_store _ _ _ _ Hw7), decide_True in Tn by done.
  rewrite (title_of_store _ _ _ _ Hw7), decide_False,
    (title_of_store _ _ _ _ Hw6) in To by congruence.
  injection Tn as Tn. injection To as To. simpl in Tn, To.
  rewrite Tn, To, Ht', Hnew6, Hold6. unfold updated_text. rewrite Htext.
  unfold received, given. rewrite Hblank. done.
Qed.

Lemma update_title_relocates_witness :
  ∃ w' a',
    _update_title (RC {["title.loc" := VStr "left"]} None None) 0 None None ∅
      titled_subplot = Ok (tt, w')
    ∧ store w' !! 0 = Some a'
    ∧ t_text (_title_dict a' left_title) = "Hello"
    ∧ t_text (_title_dict a' center_title) = "".
Proof.
  destruct (update_title_relocates
              (RC {["title.loc" := VStr "left"]} None None) titled_subplot 0
              _ ∅ center_title left_title eq_refl)
    as (w' & a' & E & Ha' & _ & Hnew & Hold);
    [reflexivity..|discriminate|reflexivity|].
  exists w', a'. split; [exact E|]. split; [exact Ha'|].
  split; [exact Hnew|exact Hold].
Defined.

(** ** The order of the entries of a legend *)

Lemma concat_map_app {A B} (X Y : A → list B) (js : list A) :
  concat (map (λ j, X j ++ Y j)%list js)
  ≡ₚ (concat (map X js) ++ concat (map Y js))%list.
Proof.
  induction js as [|j js IH]; simpl; [done|].
  rewrite IH. rewrite <-!app_assoc. f_equiv.
  rewrite !app_assoc. f_equiv. apply Permutation_app_comm.
Qed.

Lemma omap_fmap_list {A B C} (f : B → option C) (g : A → B) (l : list A) :
  omap f (g <$> l) = omap (λ x, f (g x)) l.
Proof.
  induction l as [|x l IH]; csimpl; [done|]. by rewrite IH.
Qed.

Lemma omap_cons_list {A B} (f : A → option B) (x : A) (l : list A) :
  omap f (x :: l) = (option_list (f x) ++ omap f l)%list.
Proof. csimpl. by destruct (f x). Qed.

Lemma concat_lookups {A} (l : list A) (c : nat) :
  concat (map (λ j, option_list (l !! j)) (seq 0 c)) = take c l.
Proof.
  revert l. induction c as [|c IH]; intros l; [by rewrite take_0|].
  simpl. rewrite <-fmap_S_seq.
  change (map ?f (S <$> ?l)) with (f <$> (S <$> l)).
  rewrite <-list_fmap_compose.
  destruct l as [|x l]; simpl.
  - clear IH. induction (seq 0 c) as [|j js IH]; simpl; [done|]. apply IH.
  - f_equal. apply IH.
Qed.

Lemma read_column_step {A} (l : list A) (c j : nat) :
  (c ≤ length l)%nat → (0 < c)%nat →
  read_column l c j
  = (option_list (l !! j) ++ read_column (drop c l) c j)%list.
Proof.
  intros Hlen Hc. unfold read_column.
  assert (length l / c = S (length (drop c l) / c))%nat as ->.
  { rewrite length_drop.
    replace (length l) with (1 * c + (length l - c))%nat at 1 by lia.
    rewrite Nat.div_add_l by lia. lia. }
  remember (length (drop c l) / c)%nat as k.
  change (seq 0 (S (S k))) with (0%nat :: seq 1 (S k)).
  rewrite <-fmap_S_seq.
  rewrite omap_cons_list.
  replace (0 * c + j)%nat with j by lia. f_equal.
  rewrite omap_fmap_list. apply list_omap_ext.
  apply Forall2_same_length_lookup_2; [done|].
  intros i x y Hx Hy. simplify_eq. rewrite lookup_drop. f_equal. lia.
Qed.

Lemma read_columns_Permutation {A} (l : list A) (c : nat) :
  (0 < c)%nat → read_columns l c ≡ₚ l.
Proof.
  intros Hc. remember (length l / c)%nat as k eqn:Hk.
  revert l Hk. induction k as [|k IH]; intros l Hk.
  - assert (length l < c)%nat as Hlt.
    { destruct (Nat.lt_ge_cases (length l) c) as [?|Hge]; [done|].
      pose proof (Nat.div_str_pos _ _ (conj Hc Hge)) as Hpos.
      rewrite <-Hk in Hpos. by apply Nat.lt_irrefl in Hpos. }
    unfold read_columns, read_column. rewrite <-Hk.
    erewrite map_ext.
    2:{ intros j. change (seq 0 1) with [0%nat].
        rewrite omap_cons_list. simpl.
        replace (0 * c + j)%nat with j by lia. by rewrite app_nil_r. }
    rewrite concat_lookups. by rewrite take_ge by lia.
  - assert (c ≤ length l)%nat as Hle.
    { destruct (decide (c ≤ length l)%nat); [done|].
      rewrite Nat.div_small in Hk by lia. done. }
    unfold read_columns.
    erewrite map_ext.
    2:{ intros j. by apply read_column_step. }
    rewrite concat_map_app, concat_lookups.
    fold (read_columns (drop c l) c). rewrite IH.
    + by rewrite take_drop.
    + rewrite length_drop.
      replace (length l) with (1 * c + (length l - c))%nat in Hk by lia.
      rewrite Nat.div_add_l in Hk by lia. lia.
Qed.

Lemma py_slice_nat {A} (l : list A) (a b : nat) :
  (a ≤ b)%nat →
  py_slice l (Z.of_nat a) (Z.of_nat b) = take (b - a) (drop a l).
Proof.
  intros Hab. unfold py_slice, py_bound.
  rewrite !(proj2 (Z.ltb_ge _ _)) by lia.
  destruct (decide (a ≤ length l)%nat) as [Ha|Ha].
  - rewrite (Z.min_l (Z.of_nat a)) by lia. rewrite Nat2Z.id.
    destruct (decide (b ≤ length l)%nat) as [Hb|Hb].
    + rewrite Z.min_l by lia. f_equal. lia.
    + rewrite Z.min_r by lia.
      rewrite !take_ge; [done|rewrite length_drop; lia..].
  - rewrite !Z.min_r by lia. rewrite Nat2Z.id, !drop_ge by lia.
    by rewrite !take_nil.
Qed.

Lemma try_map_omap {E A B} (f : A → E + B) (h : A → option B) (l : list A) :
  (∀ x, x ∈ l → ∃ y, f x = inr y ∧ h x = Some y) →
  try_map f l = inr (omap h l).
Proof.
  induction l as [|x l IH]; intros H; [done|].
  destruct (H x) as (y & Hf & Hh); [by left|].
  rewrite omap_cons_list, Hh. cbn [try_map].
  by rewrite Hf, IH by (intros z Hz; apply H; by right).
Qed.

Lemma try_map_fmap {E A B} (f : A → E + B) (g : A → B) (l : list A) :
  (∀ x, x ∈ l → f x = inr (g x)) →
  try_map f l = inr (g <$> l).
Proof.
  induction l as [|x l IH]; intros H; [done|].
  cbn [try_map]. rewrite (H x) by (by left).
  by rewrite IH by (intros z Hz; apply H; by right).
Qed.

(** The rows that [_single_legend] cuts the list into. *)
Lemma single_legend_split {A} (pairs : list A) (c : nat) :
  (0 < c)%nat →
  (λ i, py_slice pairs (i * Z.of_nat c) ((i + 1) * Z.of_nat c))
    <$> seqZ 0 (Z.of_nat (length pairs) `div` Z.of_nat c + 1)
  = (λ i, take c (drop (i * c) pairs)) <$> seq 0 (S (length pairs / c)).
Proof.
  intros Hc. rewrite <-Nat2Z.inj_div.
  replace (Z.of_nat (length pairs / c) + 1)%Z
    with (Z.of_nat (S (length pairs / c))) by lia.
  unfold seqZ. rewrite Nat2Z.id, <-list_fmap_compose.
  apply list_fmap_ext. intros _ i _. simpl.
  replace ((Z.of_nat i + 0) * Z.of_nat c)%Z with (Z.of_nat (i * c)) by lia.
  replace ((Z.of_nat i + 0 + 1) * Z.of_nat c)%Z
    with (Z.of_nat (i * c + c)) by lia.
  rewrite py_slice_nat by lia. f_equal. lia.
Qed.

Lemma single_legend_entry {A} (pairs : list A) (c q row col : nat) :
  (row < S q)%nat → (col < c)%nat →
  match
    get_item ((λ i, take c (drop (i * c) pairs)) <$> seq 0 (S q)) row
  with
  | inl e => inl e
  | inr irow => get_item irow col
  end
  = match pairs !! (row * c + col)%nat with
    | Some x => inr x
    | None => inl IndexError
    end.
Proof.
  intros Hrow Hcol. unfold get_item at 1.
  rewrite list_lookup_fmap, lookup_seq_lt by done. simpl.
  unfold get_item. by rewrite lookup_take_lt, lookup_drop by done.
Qed.

Lemma single_legend_ok {A} (pairs : list A) (c : nat) :
  (0 < c)%nat →
  _single_legend pairs (Some (Z.of_nat c)) (Some "C")
  = inr (read_columns pairs c, Z.of_nat c).
Proof.
  intros Hc. unfold _single_legend. simpl default.
  rewrite decide_True by done. rewrite decide_False by lia.
  cbv zeta. rewrite single_legend_split by done.
  set (n := length pairs). set (q := (n / c)%nat).
  set (r := (n mod c)%nat).
  assert (n = c * q + r)%nat as Hn by apply Nat.div_mod_eq.
  assert (r < c)%nat as Hr by (apply Nat.mod_upper_bound; lia).
  set (chunks := (λ i, take c (drop (i * c) pairs)) <$> seq 0 (S q)).
  assert (length chunks = S q) as Hlen
    by (unfold chunks; by rewrite length_fmap, length_seq).
  assert (list.last chunks = Some (take c (drop (q * c) pairs))) as ->.
  { rewrite last_lookup, Hlen. simpl. unfold chunks.
    by rewrite list_lookup_fmap, lookup_seq_lt by lia. }
  rewrite Hlen.
  assert (length (take c (drop (q * c) pairs)) = r) as ->.
  { rewrite length_take, length_drop. fold n. nia. }
  replace (Z.to_nat (Z.of_nat c - Z.of_nat r)) with (c - r)%nat by lia.
  replace (S q - 1)%nat with q by lia.
  set (nrows := (replicate r (S q) ++ replicate (c - r) q)%list).
  assert (length nrows = c) as Hnrows.
  { unfold nrows. rewrite length_app, !length_replicate. lia. }
  rewrite (try_map_fmap _ (λ cn, read_column pairs c cn.1)).
  - f_equal. f_equal. unfold read_columns. f_equal.
    apply list_eq. intros j.
    change (map ?f ?l) with (f <$> l).
    rewrite !list_lookup_fmap, list_lookup_imap.
    destruct (decide (j < c)%nat) as [Hj|Hj].
    + rewrite lookup_seq_lt by done.
      destruct (lookup_lt_is_Some_2 nrows j ltac:(lia)) as [nr ->]. done.
    + rewrite lookup_seq_ge by lia.
      by rewrite (lookup_ge_None_2 nrows j) by lia.
  - intros [col nrow] Hin.
    apply list_elem_of_lookup in Hin as [j Hj].
    rewrite list_lookup_imap in Hj.
    destruct (nrows !! j) as [nr|] eqn:Hnr; [|done].
    simpl in Hj. injection Hj as <- <-. simpl.
    assert (j < c)%nat as Hjc by (apply lookup_lt_Some in Hnr; lia).
    unfold read_column. fold n q.
    assert (nr = if decide (j < r)%nat then S q else q) as ->.
    { unfold nrows in Hnr. destruct (decide (j < r)%nat).
      - rewrite lookup_app_l in Hnr by (rewrite length_replicate; lia).
        by apply lookup_replicate in Hnr as [-> _].
      - rewrite lookup_app_r in Hnr by (rewrite length_replicate; lia).
        by apply lookup_replicate in Hnr as [-> _]. }
    assert (∀ row, (row < (if decide (j < r)%nat then S q else q))%nat →
              ∃ y, pairs !! (row * c + j)%nat = Some y) as Hsome.
    { intros row Hrow. apply lookup_lt_is_Some_2. fold n.
      destruct (decide (j < r)%nat); nia. }
    destruct (decide (j < r)%nat) as [Hjr|Hjr].
    + apply try_map_omap. intros row Hrow%elem_of_seq.
      destruct (Hsome row ltac:(lia)) as [y Hy]. exists y.
      unfold chunks. rewrite single_legend_entry by lia. by rewrite Hy.
    + rewrite seq_S, omap_app. simpl.
      rewrite (lookup_ge_None_2 pairs (q * c + j)) by (fold n; nia).
      rewrite app_nil_r.
      apply try_map_omap. intros row Hrow%elem_of_seq.
      destruct (Hsome row ltac:(lia)) as [y Hy]. exists y.
      unfold chunks. rewrite single_legend_entry by lia. by rewrite Hy.
Qed.

Lemma read_columns_short {A} (l : list A) (c : nat) :
  (0 < c)%nat → (length l ≤ c)%nat → read_columns l c = l.
Proof.
  intros Hc Hlen. unfold read_columns.
  assert (∀ j, read_column l c j = option_list (l !! j)) as Hcol.
  { intros j. destruct (decide (length l < c)%nat) as [Hlt|Hge].
    - unfold read_column. rewrite Nat.div_small by done.
      change (seq 0 1) with [0%nat]. rewrite omap_cons_list. simpl.
      replace (0 * c + j)%nat with j by lia. by rewrite app_nil_r.
    - rewrite read_column_step by lia. rewrite drop_ge by lia.
      unfold read_column. simpl length. rewrite Nat.Div0.div_0_l.
      change (seq 0 1) with [0%nat]. rewrite omap_cons_list. simpl.
      by rewrite app_nil_r. }
  erewrite map_ext by apply Hcol.
  rewrite concat_lookups. by apply take_ge.
Qed.

(** X16: with the order 'C' and a positive number of columns,
    [_single_legend] reaches the constructor of the legend with that
    number of columns and with the entries laid out in rows of that length
    and read column by column. No entry is lost and none is repeated (the
    list is a permutation of the list given), and entries that fit in one
    row keep their order. *)
Theorem single_legend_keeps_entries {A} (pairs : list A) (c : nat) :
  (0 < c)%nat →
  ∃ out,
    _single_legend pairs (Some (Z.of_nat c)) (Some "C")
    = inr (out, Z.of_nat c)
    ∧ out = read_columns pairs c
    ∧ out ≡ₚ pairs
    ∧ ((length pairs ≤ c)%nat → out = pairs).
Proof.
  intros Hc. exists (read_columns pairs c).
  split; [by apply single_legend_ok|]. split; [done|].
  split; [by apply read_columns_Permutation|].
  intros Hlen. by apply read_columns_short.
Qed.

Lemma single_legend_keeps_entries_witness :
  _single_legend [1; 2; 3; 4; 5]%nat (Some 3%Z) (Some "C")
  = inr ([1; 4; 2; 5; 3]%nat, 3%Z).
Proof.
  destruct (single_legend_keeps_entries [1; 2; 3; 4; 5]%nat 3 ltac:(lia))
    as (out & E & -> & _).
  exact E.
Defined.

(** X17: with the order 'C' and entries to draw, [_single_legend] raises
    for a number of columns that is not positive: [ZeroDivisionError] for
    0 (the division is the first use), and [IndexError] for a negative
    number (no row is cut, and the last row is asked for). *)
Theorem single_legend_bad_ncol {A} (pairs : list A) (ncol : Z) :
  (ncol ≤ 0)%Z →
  pairs ≠ [] →
  _single_legend pairs (Some ncol) (Some "C")
  = inl (if decide (ncol = 0%Z) then ZeroDivisionError else IndexError).
Proof.
  intros Hncol Hne. unfold _single_legend. simpl default.
  rewrite decide_True by done.
  destruct (decide (ncol = 0%Z)) as [->|Hnz]; [done|].
  cbv zeta. rewrite seqZ_nil; [done|].
  assert (0 < Z.of_nat (length pairs))%Z as Hlen
    by (destruct pairs; [done|simpl; lia]).
  pose proof (Z.div_mod (Z.of_nat (length pairs)) ncol Hnz) as Hdm.
  pose proof (Z.mod_neg_bound (Z.of_nat (length pairs)) ncol ltac:(lia)).
  nia.
Qed.

Lemma single_legend_bad_ncol_witness :
  _single_legend ["a"; "b"] (Some (-1)%Z) (Some "C") = inl IndexError.
Proof.
  apply (single_legend_bad_ncol ["a"; "b"] (-1)%Z); [lia|discriminate].
Defined.

(** ** The rows of a legend *)

Lemma concat_nonempty_rows {A} (rows : list (list A)) :
  concat (nonempty_rows rows) = concat rows.
Proof.
  induction rows as [|r rows IH]; [done|]. unfold nonempty_rows in *. simpl.
  destruct r; simpl; [done|]. by rewrite IH.
Qed.

Lemma concat_chunks {A} (l : list A) (c k : nat) :
  concat ((λ i, take c (drop (i * c) l)) <$> seq 0 k) = take (k * c) l.
Proof.
  induction k as [|k IH]; [by rewrite take_0|].
  rewrite seq_S, fmap_app, concat_app, IH. simpl. rewrite app_nil_r.
  rewrite take_take_drop. f_equal. lia.
Qed.

Lemma chunks_nat {A} (l : list A) (c k : nat) :
  (λ i, py_slice l (i * Z.of_nat c) ((i + 1) * Z.of_nat c))
    <$> seqZ 0 (Z.of_nat k)
  = (λ i, take c (drop (i * c) l)) <$> seq 0 k.
Proof.
  unfold seqZ. rewrite Nat2Z.id, <-list_fmap_compose.
  apply list_fmap_ext. intros _ i _. simpl.
  replace ((Z.of_nat i + 0) * Z.of_nat c)%Z with (Z.of_nat (i * c)) by lia.
  replace ((Z.of_nat i + 0 + 1) * Z.of_nat c)%Z
    with (Z.of_nat (i * c + c)) by lia.
  rewrite py_slice_nat by lia. f_equal. lia.
Qed.

(** X18: for a positive number of columns, the arrangement of the parsed
    pairs that ends [_parse_handles_labels] returns, keeps all pairs in
    their order, and holds no empty row; for handles that did not come as
    a list of lists, the rows of a centred legend are at most as long as
    the number of columns. *)
Theorem arrange_pairs_keeps_entries {A} (list_of_lists : bool) (c : nat)
    (center : option bool) (pairs : list (list A)) :
  (0 < c)%nat →
  (list_of_lists = false → length pairs = 1%nat) →
  ∃ out,
    arrange_pairs list_of_lists (Some (Z.of_nat c)) center pairs = inr out
    ∧ all_pairs out = concat pairs
    ∧ (∀ r, r ∈ rows_of out → r ≠ [])
    ∧ (list_of_lists = false → ∀ r, r ∈ rows_of out → (length r ≤ c)%nat).
Proof.
  intros Hc Hone. unfold arrange_pairs. simpl default.
  assert (∀ rows (r : list A), r ∈ nonempty_rows rows → r ∈ rows ∧ r ≠ [])
    as Hrows.
  { intros rows r Hr. unfold nonempty_rows in Hr.
    apply list_elem_of_In, filter_In in Hr as [Hr Hne].
    split; [by apply list_elem_of_In|]. intros ->. done. }
  destruct list_of_lists; cbn [negb].
  - destruct (default true center); cbn [negb].
    + eexists. split; [done|]. cbn [all_pairs rows_of].
      split; [apply concat_nonempty_rows|].
      split; [|done]. intros r Hr. by apply Hrows in Hr as [_ ?].
    + eexists. split; [done|]. split; [done|].
      split; [|done]. intros r Hr. by apply elem_of_nil in Hr.
  - destruct pairs as [|p [|]]; try (by specialize (Hone eq_refl)).
    change ([p] !! 0%nat) with (Some p).
    change (concat [p]) with (p ++ [])%list. rewrite app_nil_r.
    destruct (default false center).
    + rewrite chunks_nat. eexists. split; [done|]. cbn [all_pairs rows_of].
      split; [|split].
      * rewrite concat_nonempty_rows, concat_chunks. apply take_ge.
        nia.
      * intros r Hr. by apply Hrows in Hr as [_ ?].
      * intros _ r Hr. apply Hrows in Hr as [Hr _].
        apply list_elem_of_fmap in Hr as (i & -> & _).
        rewrite length_take. lia.
    + eexists. split; [done|]. split; [done|].
      split; [intros r Hr|intros _ r Hr]; by apply elem_of_nil in Hr.
Qed.

Lemma arrange_pairs_keeps_entries_witness :
  ∃ out,
    arrange_pairs false (Some 2%Z) (Some true) [[1; 2; 3]%nat] = inr out
    ∧ all_pairs out = [1; 2; 3]%nat
    ∧ (∀ r, r ∈ rows_of out → r ≠ [])
    ∧ (∀ r, r ∈ rows_of out → (length r ≤ 2)%nat).
Proof.
  destruct (arrange_pairs_keeps_entries false 2 (Some true) [[1; 2; 3]%nat]
              ltac:(lia) ltac:(reflexivity)) as (out & E & Hall & Hne & Hlen).
  exists out. split; [exact E|]. split; [exact Hall|].
  split; [exact Hne|exact (Hlen eq_refl)].
Defined.

(** ** Locations and toggles read from the settings *)

(** X19: [_get_loc] returns [None] exactly when both settings of the two
    sides are unchanged; otherwise the string returned ('both', the name
    of one side, or 'neither') encodes which of the two settings are on,
    an unchanged setting counting as off. *)
Theorem get_loc_encodes_sides (rc : rc_context) (x : axis) (setting : string) :
  let '(opt1, opt2) :=
    match x with X => ("top", "bottom") | Y => ("left", "right") end in
  let name1 := setting ++ "." ++ opt1 in
  let name2 := setting ++ "." ++ opt2 in
  match _get_loc rc x setting with
  | None => rc_find rc name1 = None ∧ rc_find rc name2 = None
  | Some loc =>
      (is_Some (rc_find rc name1) ∨ is_Some (rc_find rc name2))
      ∧ sides_on x loc = Some (setting_on rc name1, setting_on rc name2)
  end.
Proof.
  unfold _get_loc, sides_on, setting_on.
  destruct x; cbv zeta beta iota.
  - destruct (rc_find rc (setting ++ "." ++ "top")) as [b1|],
      (rc_find rc (setting ++ "." ++ "bottom")) as [b2|]; simpl;
      try destruct (truthy b1); try destruct (truthy b2); simpl;
      (split; [eauto|done]).
  - destruct (rc_find rc (setting ++ "." ++ "left")) as [b1|],
      (rc_find rc (setting ++ "." ++ "right")) as [b2|]; simpl;
      try destruct (truthy b1); try destruct (truthy b2); simpl;
      (split; [eauto|done]).
Qed.

(** X20: in [_get_gridline_toggle] a [grid] argument that is not [None] is
    returned as it is; when neither 'axes.grid' nor 'axes.grid.which' was
    changed the argument is returned, also when it is [None]; and
    otherwise, for [grid=None], the toggle is on exactly when the grid
    setting is on, the axis setting is the axis (or 'both') and the which
    setting is [which] (or 'both'). *)
Theorem gridline_toggle_explicit_wins (find item : string → pyval)
    (grid : pyval) (axis : option string) (which : string) :
  let result := _get_gridline_toggle find item grid axis which in
  (is_None grid = false → result = grid)
  ∧ (is_None (find "axes.grid") = true →
     is_None (find "axes.grid.which") = true → result = grid)
  ∧ (is_None grid = true →
     is_None (find "axes.grid") && is_None (find "axes.grid.which") = false →
     truthy result
     = truthy (_not_none (find "axes.grid") (item "axes.grid"))
       && (eq_str (item "axes.grid.axis") (default "x" axis)
           || eq_str (item "axes.grid.axis") "both")
       && (eq_str (_not_none (find "axes.grid.which")
                     (item "axes.grid.which")) which
           || eq_str (_not_none (find "axes.grid.which")
                        (item "axes.grid.which")) "both")).
Proof.
  unfold _get_gridline_toggle. cbv zeta.
  split; [|split].
  - intros Hgrid. destruct (negb _ || negb _); [|done].
    by destruct grid.
  - by intros -> ->.
  - intros Hgrid Hchanged.
    assert (negb (is_None (find "axes.grid"))
            || negb (is_None (find "axes.grid.which")) = true) as ->.
    { rewrite <-negb_andb, Hchanged. done. }
    destruct grid; try done. simpl _not_none at 1. unfold py_and.
    destruct (truthy (_not_none (find "axes.grid") (item "axes.grid")))
      eqn:Hon; simpl.
    + destruct (eq_str (item "axes.grid.axis") (default "x" axis)
                || eq_str (item "axes.grid.axis") "both"); simpl; done.
    + by rewrite Hon.
Qed.

(** ** Frames and rows *)

(** X21: (lengths taken as exact rationals, rounding of floating point
    left out) the frame that [_inset_colorbar_axes] computes encloses the
    inset axes with the margin [xpad] on the left and on the right, [ypad]
    above and [ypad + labspace] below, for whatever location; and the
    frame touches the corner of the axes that the location names ('lower
    right' for every location other than the first three). *)
Theorem inset_colorbar_inside_frame (loc : string)
    (xpad ypad length width labspace : Q) :
  let '(inset, frame) :=
    inset_colorbar_bounds loc xpad ypad length width labspace in
  (left_of inset - left_of frame == xpad)%Q
  ∧ (right_of frame - right_of inset == xpad)%Q
  ∧ (bottom_of inset - bottom_of frame == ypad + labspace)%Q
  ∧ (top_of frame - top_of inset == ypad)%Q
  ∧ (if decide (loc = "upper right") then right_of frame == 1 ∧ top_of frame == 1
     else if decide (loc = "upper left") then left_of frame == 0 ∧ top_of frame == 1
     else if decide (loc = "lower left") then left_of frame == 0 ∧ bottom_of frame == 0
     else right_of frame == 1 ∧ bottom_of frame == 0)%Q.
Proof.
  unfold inset_colorbar_bounds, left_of, bottom_of, right_of, top_of.
  repeat case_decide; simpl; repeat split; ring.
Qed.

(** X22: (heights taken as exact rationals, rounding of floating point
    left out) the boxes that [_multiple_legend] gives to the rows of a
    legend with centred rows all have the height of one interval. Without
    a title, consecutive rows touch: each row lies directly below the one
    before for 'upper' (the first row ending at the top of the axes) and
    for centre locations (where the rows together are centred on the
    middle of the axes), and directly above the one before for 'lower'.
    With a title, one interval is left free between the first row and the
    second, and the rows from the second on touch as before. *)
Theorem legend_rows_stack (loc : string) (m : nat) (interval : Q) (i : nat) :
  let span := legend_row_span loc (S m) false interval in
  let tspan := legend_row_span loc (S m) true interval in
  ((span i).2 - (span i).1 == interval)%Q
  ∧ ((tspan i).2 - (tspan i).1 == interval)%Q
  ∧ (if contains "upper" loc then
       ((span 0%nat).2 == 1 ∧ (span (S i)).2 == (span i).1)%Q
     else if contains "lower" loc then
       ((span (S i)).1 == (span i).2)%Q
     else
       ((span (S i)).2 == (span i).1
        ∧ (span 0%nat).2 - (1 # 2) == (1 # 2) - (span m).1)%Q)
  ∧ (if contains "upper" loc || negb (contains "lower" loc) then
       ((tspan 0%nat).1 - (tspan 1%nat).2 == interval
        ∧ (tspan (S (S i))).2 == (tspan (S i)).1)%Q
     else
       ((tspan 1%nat).1 - (tspan 0%nat).2 == interval
        ∧ (tspan (S (S i))).1 == (tspan (S i)).2)%Q).
Proof.
  unfold legend_row_span. cbv zeta.
  assert (∀ k : nat, inject_Z (Z.of_nat (S k)) == inject_Z (Z.of_nat k) + 1)%Q
    as HS.
  { intros k. rewrite Nat2Z.inj_succ, <-Z.add_1_r, inject_Z_plus. done. }
  rewrite !andb_false_r, !andb_true_r.
  replace (0 <? 0)%nat with false by done.
  replace (0 <? 1)%nat with true by done.
  replace (0 <? S i)%nat with true by done.
  replace (0 <? S (S i))%nat with true by done.
  replace (S (S i) + 1)%nat with (S (S (S i))) by lia.
  replace (S i + 1)%nat with (S (S i)) by lia.
  change (inject_Z (Z.of_nat (1 + 1))) with 2%Q.
  change (inject_Z (Z.of_nat 0)) with 0%Q.
  pose proof (HS i) as H1. pose proof (HS (S i)) as H2.
  pose proof (HS (S (S i))) as H3. pose proof (HS m) as Hm.
  generalize (inject_Z (Z.of_nat (if (0 <? i)%nat then (i + 1)%nat else i))).
  revert H1 H2 H3 Hm.
  generalize (inject_Z (Z.of_nat (S (S (S i))))).
  generalize (inject_Z (Z.of_nat (S (S i)))).
  generalize (inject_Z (Z.of_nat (S i))).
  generalize (inject_Z (Z.of_nat i)).
  generalize (inject_Z (Z.of_nat (S m))).
  generalize (inject_Z (Z.of_nat m)).
  intros qm qn q0 q1 q2 q3 H1 H2 H3 Hm qi.
  destruct (contains "upper" loc); [|destruct (contains "lower" loc)];
    cbn [fst snd orb negb]; rewrite ?H3, ?H2, ?H1, ?Hm;
    repeat split; field.
Qed.
